(** * pymailtm: the mail.tm API access layer ([pymailtm/api.py])

    A shallow embedding of the client library and the properties of its
    request dispatcher, account and message resources and account manager.

    Python values are embedded with the types the dataclasses declare:
    [str] as a list of Unicode code points, [int] as [Z], [bool] as [bool],
    [Union[T, None]] as [option T], and the [Dict]/[List] fields, which the
    code only stores, as the JSON value the server sent.  Objects that the
    code mutates and shares by reference (accounts, messages) live in a
    store and are named by their address. *)

From Stdlib Require Import ZArith Ascii String DecimalString.
From stdpp Require Import base option list gmap strings.

Local Open Scope Z_scope.

(** ** Python strings *)

(** A Python [str] is a sequence of code points; [len] and slicing count
    code points. *)
Abbreviation pystr := (list N).

(** An ASCII literal of the source. *)
Fixpoint lit (s : string) : pystr :=
  match s with
  | EmptyString => []
  | String c s' => N_of_ascii c :: lit s'
  end.

Definition newline : N := 10%N.
Definition space : N := 32%N.
(** ["…"], U+2026 HORIZONTAL ELLIPSIS, one code point. *)
Definition ellipsis : N := 8230%N.

Definition str_eqb (a b : pystr) : bool := bool_decide (a = b).

Fixpoint startswith (s prefix : pystr) : bool :=
  match prefix, s with
  | [], _ => true
  | p :: prefix', c :: s' => (p =? c)%N && startswith s' prefix'
  | _ :: _, [] => false
  end.

(** [s.replace(old, new)] for a non-empty [old]: scan left to right,
    replacing non-overlapping occurrences.  [skip] counts the characters of
    a match that are still to be passed over. *)
Fixpoint replace_from (old new : pystr) (skip : nat) (s : pystr) : pystr :=
  match s with
  | [] => []
  | c :: s' =>
      match skip with
      | S k => replace_from old new k s'
      | O =>
          if startswith s old
          then new ++ replace_from old new (Nat.pred (length old)) s'
          else c :: replace_from old new O s'
      end
  end.

(** [s.replace(old, new)]; with an empty [old], Python puts [new] before
    every character and at the end. *)
Definition str_replace (s old new : pystr) : pystr :=
  match old with
  | [] => new ++ concat (map (fun c => c :: new) s)
  | _ :: _ => replace_from old new O s
  end.

(** [str(n)] for an [int]. *)
Definition str_of_int (z : Z) : pystr := lit (NilZero.string_of_int (Z.to_int z)).

(** [sep.join(parts)] *)
Fixpoint str_join (sep : pystr) (parts : list pystr) : pystr :=
  match parts with
  | [] => []
  | [p] => p
  | p :: rest => p ++ sep ++ str_join sep rest
  end.

(** ** JSON values

    What [response.json()] returns and what [json.dumps] takes.  A [dict]
    keeps its insertion order.  JSON numbers with a fraction or an exponent
    are Python floats and are left out of the model. *)
#[local] Set Warnings "-register-all".
Inductive JSON : Type :=
| JNull
| JBool (b : bool)
| JInt (z : Z)
| JStr (s : pystr)
| JList (items : list JSON)
| JObj (members : list (pystr * JSON)).

(** *** [json.dumps] with its default options

    [ensure_ascii=True], item separator [", "], key separator [": "]. *)

Definition hexdigit (d : N) : N := (if d <? 10 then 48 + d else 87 + d)%N.

(** ['\\u{0:04x}'.format(n)] *)
Definition escape_u (n : N) : pystr :=
  lit "\u" ++ [hexdigit (n / 4096 mod 16); hexdigit (n / 256 mod 16);
               hexdigit (n / 16 mod 16); hexdigit (n mod 16)]%N.

(** One character of [json.encoder.py_encode_basestring_ascii]. *)
Definition escape_char (c : N) : pystr :=
  if (c =? 92)%N then lit "\\"
  else if (c =? 34)%N then [92; 34]%N
  else if (c =? 8)%N then lit "\b"
  else if (c =? 12)%N then lit "\f"
  else if (c =? 10)%N then lit "\n"
  else if (c =? 13)%N then lit "\r"
  else if (c =? 9)%N then lit "\t"
  else if ((32 <=? c) && (c <=? 126))%N then [c]
  else if (c <? 65536)%N then escape_u c
  else
    let n := (c - 65536)%N in
    escape_u (N.lor 55296 (N.land (N.shiftr n 10) 1023))
    ++ escape_u (N.lor 56320 (N.land n 1023)).

Definition encode_basestring_ascii (s : pystr) : pystr :=
  [34%N] ++ concat (map escape_char s) ++ [34%N].

Fixpoint json_dumps (j : JSON) : pystr :=
  match j with
  | JNull => lit "null"
  | JBool true => lit "true"
  | JBool false => lit "false"
  | JInt z => str_of_int z
  | JStr s => encode_basestring_ascii s
  | JList items =>
      lit "[" ++ str_join (lit ", ") (map json_dumps items) ++ lit "]"
  | JObj members =>
      lit "{"
      ++ str_join (lit ", ")
           (map (fun kv => encode_basestring_ascii (fst kv) ++ lit ": " ++ json_dumps (snd kv))
                members)
      ++ lit "}"
  end.

(** ** The HTTP client library, as the code uses it *)

(** [class HTTPVerb(Enum)]: four members, one per [requests] function. *)
Inductive HTTPVerb : Type := GET | POST | DELETE | PATCH.

#[global] Instance HTTPVerb_eq_dec : EqDecision HTTPVerb.
Proof. solve_decision. Defined.

(** What one call [requests.<verb>(url, headers=..., data=...)] sends;
    [data = None] when the call passes no [data]. *)
Record Request : Type := mkRequest {
  verb : HTTPVerb;
  url : pystr;
  headers : gmap pystr pystr;
  data : option pystr
}.

(** A [requests.Response], by what the code reads of it: [status_code],
    [content] (the bytes of the body) and the result of [json()], [None]
    when [json()] raises because the body is not JSON. *)
Module Response.
Record t : Type := mk {
  status_code : Z;
  content : list N;
  json : option JSON
}.
End Response.

(** What comes back from the transport: a response, or none (connection
    refused, time-out, ...). *)
Inductive Reply : Type :=
| Answer (response : Response.t)
| NoAnswer.

(** ** Exceptions and outcomes *)

Inductive exn : Type :=
| HTTPError (response : Response.t)
| ConnectionError
| JSONDecodeError
| KeyError (key : pystr)
| TypeError
| IndexError
| DomainNotAvailableException.

(** Where the embedding stops following a run: a loop that has used up its
    fuel, an address with no object behind it (no Python run has one), a
    document whose field does not have the type the dataclass declares
    (Python would store it as it is). *)
Inductive abort : Type := OutOfFuel | Dangling | IllTyped.

Inductive outcome (A : Type) : Type :=
| Return (a : A)
| Raise (e : exn)
| Abort (why : abort).
Arguments Return {A} a.
Arguments Raise {A} e.
Arguments Abort {A} why.

#[global] Instance outcome_ret : MRet outcome := fun A a => Return a.
#[global] Instance outcome_bind : MBind outcome := fun A B f x =>
  match x with
  | Return a => f a
  | Raise e => Raise e
  | Abort why => Abort why
  end.

(** [response.raise_for_status()] of [requests]: an [HTTPError] holding the
    response for a 4xx or a 5xx status, nothing otherwise. *)
Definition raise_for_status (response : Response.t) : outcome unit :=
  if (400 <=? Response.status_code response) && (Response.status_code response <? 500)
  then Raise (HTTPError response)
  else if (500 <=? Response.status_code response) && (Response.status_code response <? 600)
  then Raise (HTTPError response)
  else Return tt.

(** [response.json()] *)
Definition response_json (response : Response.t) : outcome JSON :=
  match Response.json response with
  | Some v => Return v
  | None => Raise JSONDecodeError
  end.

(** *** Subscripting and iterating JSON values *)

Fixpoint assoc (key : pystr) (members : list (pystr * JSON)) : option JSON :=
  match members with
  | [] => None
  | (k, v) :: rest => if str_eqb k key then Some v else assoc key rest
  end.

(** [d[key] = v] on a [dict]: an existing key keeps its place. *)
Fixpoint assoc_set (key : pystr) (v : JSON) (members : list (pystr * JSON))
  : list (pystr * JSON) :=
  match members with
  | [] => [(key, v)]
  | (k, v0) :: rest =>
      if str_eqb k key then (k, v) :: rest else (k, v0) :: assoc_set key v rest
  end.

(** [data[key]] with a [str] key: [KeyError] on a [dict] without the key,
    [TypeError] on anything that is not a [dict]. *)
Definition getitem (data : JSON) (key : pystr) : outcome JSON :=
  match data with
  | JObj members =>
      match assoc key members with
      | Some v => Return v
      | None => Raise (KeyError key)
      end
  | _ => Raise TypeError
  end.

(** [data[key] = v] *)
Definition setitem (data : JSON) (key : pystr) (v : JSON) : outcome JSON :=
  match data with
  | JObj members => Return (JObj (assoc_set key v members))
  | _ => Raise TypeError
  end.

(** The items a [for] loop sees: the elements of a list, the keys of a
    [dict], the characters of a [str]. *)
Definition iterate (data : JSON) : outcome (list JSON) :=
  match data with
  | JList items => Return items
  | JObj members => Return (map (fun kv => JStr (fst kv)) members)
  | JStr s => Return (map (fun c => JStr [c]) s)
  | _ => Raise TypeError
  end.

(** *** Reading a value at its declared type *)

Definition as_str (v : JSON) : outcome pystr :=
  match v with JStr s => Return s | _ => Abort IllTyped end.
Definition as_bool (v : JSON) : outcome bool :=
  match v with JBool b => Return b | _ => Abort IllTyped end.
Definition as_int (v : JSON) : outcome Z :=
  match v with JInt z => Return z | _ => Abort IllTyped end.
Definition as_opt_str (v : JSON) : outcome (option pystr) :=
  match v with JNull => Return None | JStr s => Return (Some s) | _ => Abort IllTyped end.
Definition as_opt_bool (v : JSON) : outcome (option bool) :=
  match v with JNull => Return None | JBool b => Return (Some b) | _ => Abort IllTyped end.

(** Addresses of the objects in the store. *)
Abbreviation loc := nat.

(** ** The resources *)

Module Domain.

(** [@dataclass class Domain] *)
Record t : Type := mk {
  id : pystr;
  domain : pystr;
  isActive : bool;
  isPrivate : bool;
  createdAt : pystr;
  updatedAt : pystr
}.

(** [Domain._from_dict]: the six subscripts in the order of the call, then
    the object. *)
Definition _from_dict (domain_data : JSON) : outcome t :=
  v_id ← getitem domain_data (lit "id");
  v_domain ← getitem domain_data (lit "domain");
  v_isActive ← getitem domain_data (lit "isActive");
  v_isPrivate ← getitem domain_data (lit "isPrivate");
  v_createdAt ← getitem domain_data (lit "createdAt");
  v_updatedAt ← getitem domain_data (lit "updatedAt");
  id ← as_str v_id;
  domain ← as_str v_domain;
  isActive ← as_bool v_isActive;
  isPrivate ← as_bool v_isPrivate;
  createdAt ← as_str v_createdAt;
  updatedAt ← as_str v_updatedAt;
  mret (mk id domain isActive isPrivate createdAt updatedAt).

End Domain.

Module Account.

(** [@dataclass class Account]; [messages] holds the addresses of the
    account's [Message] objects. *)
Record t : Type := mk {
  id : pystr;
  address : pystr;
  quota : Z;
  used : Z;
  isDisabled : bool;
  isDeleted : bool;
  createdAt : pystr;
  updatedAt : pystr;
  password : pystr;
  messages : list loc;
  jwt : option pystr
}.

Definition set_isDeleted (v : bool) (a : t) : t :=
  mk (id a) (address a) (quota a) (used a) (isDisabled a) v (createdAt a)
     (updatedAt a) (password a) (messages a) (jwt a).

Definition set_messages (v : list loc) (a : t) : t :=
  mk (id a) (address a) (quota a) (used a) (isDisabled a) (isDeleted a)
     (createdAt a) (updatedAt a) (password a) v (jwt a).

Definition set_jwt (v : option pystr) (a : t) : t :=
  mk (id a) (address a) (quota a) (used a) (isDisabled a) (isDeleted a)
     (createdAt a) (updatedAt a) (password a) (messages a) v.

(** [Account.is_logged_in] *)
Definition is_logged_in (self : t) : bool :=
  match jwt self with
  | Some token => (0 <? length token)%nat
  | None => false
  end.

(** [Account._from_dict]; [messages] takes its default, a new empty list. *)
Definition _from_dict (data : JSON) (jwt : option pystr) : outcome t :=
  v_id ← getitem data (lit "id");
  v_address ← getitem data (lit "address");
  v_quota ← getitem data (lit "quota");
  v_used ← getitem data (lit "used");
  v_isDisabled ← getitem data (lit "isDisabled");
  v_isDeleted ← getitem data (lit "isDeleted");
  v_createdAt ← getitem data (lit "createdAt");
  v_updatedAt ← getitem data (lit "updatedAt");
  v_password ← getitem data (lit "password");
  id ← as_str v_id;
  address ← as_str v_address;
  quota ← as_int v_quota;
  used ← as_int v_used;
  isDisabled ← as_bool v_isDisabled;
  isDeleted ← as_bool v_isDeleted;
  createdAt ← as_str v_createdAt;
  updatedAt ← as_str v_updatedAt;
  password ← as_str v_password;
  mret (mk id address quota used isDisabled isDeleted createdAt updatedAt
           password [] jwt).

End Account.

Module Message.

(** [@dataclass class Message]; [account] is the address of the owning
    [Account]. *)
Record t : Type := mk {
  account : loc;
  id : pystr;
  accountId : pystr;
  msgid : pystr;
  message_from : JSON;
  message_to : JSON;
  subject : pystr;
  seen : bool;
  isDeleted : bool;
  hasAttachments : bool;
  size : Z;
  downloadUrl : pystr;
  createdAt : pystr;
  updatedAt : pystr;
  is_full_message : bool;
  intro : option pystr;
  cc : JSON;
  bcc : JSON;
  flagged : option bool;
  verifications : JSON;
  retention : option bool;
  retentionDate : option pystr;
  text : option pystr;
  html : JSON;
  attachments : JSON
}.

(** Assignments to one field. *)
Definition set_seen (v : bool) (m : t) : t :=
  mk (account m) (id m) (accountId m) (msgid m) (message_from m)
     (message_to m) (subject m) v (isDeleted m) (hasAttachments m) (size m)
     (downloadUrl m) (createdAt m) (updatedAt m) (is_full_message m) (intro m)
     (cc m) (bcc m) (flagged m) (verifications m) (retention m)
     (retentionDate m) (text m) (html m) (attachments m).

Definition set_isDeleted (v : bool) (m : t) : t :=
  mk (account m) (id m) (accountId m) (msgid m) (message_from m)
     (message_to m) (subject m) (seen m) v (hasAttachments m) (size m)
     (downloadUrl m) (createdAt m) (updatedAt m) (is_full_message m) (intro m)
     (cc m) (bcc m) (flagged m) (verifications m) (retention m)
     (retentionDate m) (text m) (html m) (attachments m).

Definition set_is_full_message (v : bool) (m : t) : t :=
  mk (account m) (id m) (accountId m) (msgid m) (message_from m)
     (message_to m) (subject m) (seen m) (isDeleted m) (hasAttachments m)
     (size m) (downloadUrl m) (createdAt m) (updatedAt m) v (intro m) (cc m)
     (bcc m) (flagged m) (verifications m) (retention m) (retentionDate m)
     (text m) (html m) (attachments m).

Definition set_intro (v : option pystr) (m : t) : t :=
  mk (account m) (id m) (accountId m) (msgid m) (message_from m)
     (message_to m) (subject m) (seen m) (isDeleted m) (hasAttachments m)
     (size m) (downloadUrl m) (createdAt m) (updatedAt m) (is_full_message m)
     v (cc m) (bcc m) (flagged m) (verifications m) (retention m)
     (retentionDate m) (text m) (html m) (attachments m).

Definition set_cc (v : JSON) (m : t) : t :=
  mk (account m) (id m) (accountId m) (msgid m) (message_from m)
     (message_to m) (subject m) (seen m) (isDeleted m) (hasAttachments m)
     (size m) (downloadUrl m) (createdAt m) (updatedAt m) (is_full_message m)
     (intro m) v (bcc m) (flagged m) (verifications m) (retention m)
     (retentionDate m) (text m) (html m) (attachments m).

Definition set_bcc (v : JSON) (m : t) : t :=
  mk (account m) (id m) (accountId m) (msgid m) (message_from m)
     (message_to m) (subject m) (seen m) (isDeleted m) (hasAttachments m)
     (size m) (downloadUrl m) (createdAt m) (updatedAt m) (is_full_message m)
     (intro m) (cc m) v (flagged m) (verifications m) (retention m)
     (retentionDate m) (text m) (html m) (attachments m).

Definition set_flagged (v : option bool) (m : t) : t :=
  mk (account m) (id m) (accountId m) (msgid m) (message_from m)
     (message_to m) (subject m) (seen m) (isDeleted m) (hasAttachments m)
     (size m) (downloadUrl m) (createdAt m) (updatedAt m) (is_full_message m)
     (intro m) (cc m) (bcc m) v (verifications m) (retention m)
     (retentionDate m) (text m) (html m) (attachments m).

Definition set_verifications (v : JSON) (m : t) : t :=
  mk (account m) (id m) (accountId m) (msgid m) (message_from m)
     (message_to m) (subject m) (seen m) (isDeleted m) (hasAttachments m)
     (size m) (downloadUrl m) (createdAt m) (updatedAt m) (is_full_message m)
     (intro m) (cc m) (bcc m) (flagged m) v (retention m) (retentionDate m)
     (text m) (html m) (attachments m).

Definition set_retention (v : option bool) (m : t) : t :=
  mk (account m) (id m) (accountId m) (msgid m) (message_from m)
     (message_to m) (subject m) (seen m) (isDeleted m) (hasAttachments m)
     (size m) (downloadUrl m) (createdAt m) (updatedAt m) (is_full_message m)
     (intro m) (cc m) (bcc m) (flagged m) (verifications m) v
     (retentionDate m) (text m) (html m) (attachments m).

Definition set_retentionDate (v : option pystr) (m : t) : t :=
  mk (account m) (id m) (accountId m) (msgid m) (message_from m)
     (message_to m) (subject m) (seen m) (isDeleted m) (hasAttachments m)
     (size m) (downloadUrl m) (createdAt m) (updatedAt m) (is_full_message m)
     (intro m) (cc m) (bcc m) (flagged m) (verifications m) (retention m) v
     (text m) (html m) (attachments m).

Definition set_text (v : option pystr) (m : t) : t :=
  mk (account m) (id m) (accountId m) (msgid m) (message_from m)
     (message_to m) (subject m) (seen m) (isDeleted m) (hasAttachments m)
     (size m) (downloadUrl m) (createdAt m) (updatedAt m) (is_full_message m)
     (intro m) (cc m) (bcc m) (flagged m) (verifications m) (retention m)
     (retentionDate m) v (html m) (attachments m).

Definition set_html (v : JSON) (m : t) : t :=
  mk (account m) (id m) (accountId m) (msgid m) (message_from m)
     (message_to m) (subject m) (seen m) (isDeleted m) (hasAttachments m)
     (size m) (downloadUrl m) (createdAt m) (updatedAt m) (is_full_message m)
     (intro m) (cc m) (bcc m) (flagged m) (verifications m) (retention m)
     (retentionDate m) (text m) v (attachments m).

Definition set_attachments (v : JSON) (m : t) : t :=
  mk (account m) (id m) (accountId m) (msgid m) (message_from m)
     (message_to m) (subject m) (seen m) (isDeleted m) (hasAttachments m)
     (size m) (downloadUrl m) (createdAt m) (updatedAt m) (is_full_message m)
     (intro m) (cc m) (bcc m) (flagged m) (verifications m) (retention m)
     (retentionDate m) (text m) (html m) v.

(** [Message.__post_init__] *)
Definition __post_init__ (self : t) : t :=
  if is_full_message self then
    match intro self, text self with
    | None, Some self_text =>
        let text := take 120 (str_replace self_text [newline] [space]) in
        let text := if (120 <? length self_text)%nat then text ++ [ellipsis] else text in
        set_intro (Some text) self
    | _, _ => self
    end
  else self.

(** The generated [__init__]: the fields as given, then [__post_init__]. *)
Definition __init__ (fields : t) : t := __post_init__ fields.

(** [Message._from_intro_dict] *)
Definition _from_intro_dict (data : JSON) (account : loc) : outcome t :=
  v_id ← getitem data (lit "id");
  v_accountId ← getitem data (lit "accountId");
  v_msgid ← getitem data (lit "msgid");
  v_from ← getitem data (lit "from");
  v_to ← getitem data (lit "to");
  v_subject ← getitem data (lit "subject");
  v_seen ← getitem data (lit "seen");
  v_isDeleted ← getitem data (lit "isDeleted");
  v_hasAttachments ← getitem data (lit "hasAttachments");
  v_size ← getitem data (lit "size");
  v_downloadUrl ← getitem data (lit "downloadUrl");
  v_createdAt ← getitem data (lit "createdAt");
  v_updatedAt ← getitem data (lit "updatedAt");
  v_intro ← getitem data (lit "intro");
  id ← as_str v_id;
  accountId ← as_str v_accountId;
  msgid ← as_str v_msgid;
  subject ← as_str v_subject;
  seen ← as_bool v_seen;
  isDeleted ← as_bool v_isDeleted;
  hasAttachments ← as_bool v_hasAttachments;
  size ← as_int v_size;
  downloadUrl ← as_str v_downloadUrl;
  createdAt ← as_str v_createdAt;
  updatedAt ← as_str v_updatedAt;
  intro ← as_opt_str v_intro;
  mret (__init__
    (mk account id accountId msgid v_from v_to subject seen isDeleted
        hasAttachments size downloadUrl createdAt updatedAt
        false intro JNull JNull None JNull None None None JNull JNull)).

(** [Message._from_full_dict] *)
Definition _from_full_dict (data : JSON) (account : loc) : outcome t :=
  v_id ← getitem data (lit "id");
  v_accountId ← getitem data (lit "accountId");
  v_msgid ← getitem data (lit "msgid");
  v_from ← getitem data (lit "from");
  v_to ← getitem data (lit "to");
  v_subject ← getitem data (lit "subject");
  v_seen ← getitem data (lit "seen");
  v_isDeleted ← getitem data (lit "isDeleted");
  v_hasAttachments ← getitem data (lit "hasAttachments");
  v_size ← getitem data (lit "size");
  v_downloadUrl ← getitem data (lit "downloadUrl");
  v_createdAt ← getitem data (lit "createdAt");
  v_updatedAt ← getitem data (lit "updatedAt");
  v_cc ← getitem data (lit "cc");
  v_bcc ← getitem data (lit "bcc");
  v_flagged ← getitem data (lit "flagged");
  v_verifications ← getitem data (lit "verifications");
  v_retention ← getitem data (lit "retention");
  v_retentionDate ← getitem data (lit "retentionDate");
  v_text ← getitem data (lit "text");
  v_html ← getitem data (lit "html");
  v_attachments ← getitem data (lit "attachments");
  id ← as_str v_id;
  accountId ← as_str v_accountId;
  msgid ← as_str v_msgid;
  subject ← as_str v_subject;
  seen ← as_bool v_seen;
  isDeleted ← as_bool v_isDeleted;
  hasAttachments ← as_bool v_hasAttachments;
  size ← as_int v_size;
  downloadUrl ← as_str v_downloadUrl;
  createdAt ← as_str v_createdAt;
  updatedAt ← as_str v_updatedAt;
  flagged ← as_opt_bool v_flagged;
  retention ← as_opt_bool v_retention;
  retentionDate ← as_opt_str v_retentionDate;
  text ← as_opt_str v_text;
  mret (__init__
    (mk account id accountId msgid v_from v_to subject seen isDeleted
        hasAttachments size downloadUrl createdAt updatedAt
        true None v_cc v_bcc flagged v_verifications retention retentionDate
        text v_html v_attachments)).

End Message.

(** ** The client, run against what lies outside it *)

(** The default of [make_api_request]'s [content] parameter, passed by
    every call that leaves it out. *)
Definition default_content : pystr := lit "application/json".

Definition api_address : pystr := lit "https://api.mail.tm".

(** [string.ascii_letters + string.digits] *)
Definition letters : pystr :=
  lit "abcdefghijklmnopqrstuvwxyzABCDEFGHIJKLMNOPQRSTUVWXYZ0123456789".

(** [if jwt:] for a [Union[str, None]]: neither [None] nor the empty string. *)
Definition truthy (jwt : option pystr) : bool :=
  match jwt with
  | Some (_ :: _) => true
  | _ => false
  end.

(** The headers [make_api_request] builds. *)
Definition build_headers (jwt : option pystr) (content : pystr) : gmap pystr pystr :=
  let auth_headers : gmap pystr pystr :=
    <[lit "Content-Type" := content]> (<[lit "accept" := lit "application/ld+json"]> ∅) in
  if truthy jwt
  then <[lit "Authorization" := lit "Bearer " ++ default [] jwt]> auth_headers
  else auth_headers.

(** The one call to [requests] that [make_api_request] makes. *)
Definition build_request (requests_verb : HTTPVerb) (endpoint : pystr)
    (jwt : option pystr) (data : option JSON) (content : pystr) : Request :=
  let url := api_address ++ lit "/" ++ endpoint in
  let auth_headers := build_headers jwt content in
  if bool_decide (requests_verb = POST ∨ requests_verb = PATCH) && bool_decide (data ≠ None)
  then mkRequest requests_verb url auth_headers (json_dumps <$> data)
  else mkRequest requests_verb url auth_headers None.

Section Client.

(** Everything outside the client: the server behind the transport and the
    process's sources of randomness.  [send] is one HTTP exchange,
    [generate_username n] is [random_username.generate.generate_username(n)],
    [randbelow n] is the draw of [random.choice] on a sequence of length
    [n], [str_lower] is [str.lower]. *)
Context {Ext : Type}.
Variable send : Request -> Ext -> Reply * Ext.
Variable generate_username : Z -> Ext -> list pystr * Ext.
Variable randbelow : nat -> Ext -> nat * Ext.
Variable str_lower : pystr -> pystr.

(** The store of the objects, the outside, and the requests sent so far
    (oldest first). *)
Record World : Type := mkWorld {
  account_heap : list Account.t;
  message_heap : list Message.t;
  outside : Ext;
  sent : list Request
}.

(** A run changes the world and returns, raises or is given up; what was
    changed before an exception stays changed. *)
Definition M (A : Type) : Type := World -> outcome A * World.

#[local] Instance M_ret : MRet M := fun A a w => (Return a, w).
#[local] Instance M_bind : MBind M := fun A B f x w =>
  match x w with
  | (Return a, w') => f a w'
  | (Raise e, w') => (Raise e, w')
  | (Abort why, w') => (Abort why, w')
  end.

Definition lift {A : Type} (o : outcome A) : M A := fun w => (o, w).
Definition raise {A : Type} (e : exn) : M A := lift (Raise e).

Definition get_account (l : loc) : M Account.t := fun w =>
  match account_heap w !! l with
  | Some a => (Return a, w)
  | None => (Abort Dangling, w)
  end.

Definition get_message (l : loc) : M Message.t := fun w =>
  match message_heap w !! l with
  | Some m => (Return m, w)
  | None => (Abort Dangling, w)
  end.

Definition with_accounts (h : list Account.t) (w : World) : World :=
  mkWorld h (message_heap w) (outside w) (sent w).
Definition with_messages (h : list Message.t) (w : World) : World :=
  mkWorld (account_heap w) h (outside w) (sent w).

(** An assignment to the fields of the object at [l]. *)
Definition update_account (l : loc) (f : Account.t -> Account.t) : M unit := fun w =>
  match account_heap w !! l with
  | Some a => (Return tt, with_accounts (<[l := f a]> (account_heap w)) w)
  | None => (Abort Dangling, w)
  end.

Definition update_message (l : loc) (f : Message.t -> Message.t) : M unit := fun w =>
  match message_heap w !! l with
  | Some m => (Return tt, with_messages (<[l := f m]> (message_heap w)) w)
  | None => (Abort Dangling, w)
  end.

(** A new object, at the next free address. *)
Definition new_account (a : Account.t) : M loc := fun w =>
  (Return (length (account_heap w)), with_accounts (account_heap w ++ [a]) w).
Definition new_message (m : Message.t) : M loc := fun w =>
  (Return (length (message_heap w)), with_messages (message_heap w ++ [m]) w).

(** One HTTP exchange: the request is sent, the outside moves on. *)
Definition perform (r : Request) : M Response.t := fun w =>
  let '(reply, ext') := send r (outside w) in
  let w' := mkWorld (account_heap w) (message_heap w) ext' (sent w ++ [r]) in
  match reply with
  | Answer response => (Return response, w')
  | NoAnswer => (Raise ConnectionError, w')
  end.

Fixpoint for_each {A B : Type} (f : A -> M B) (items : list A) : M (list B) :=
  match items with
  | [] => mret []
  | x :: rest => y ← f x; ys ← for_each f rest; mret (y :: ys)
  end.

(** *** The request dispatcher *)

(** [make_api_request] *)
Definition make_api_request (requests_verb : HTTPVerb) (endpoint : pystr)
    (jwt : option pystr) (data : option JSON) (content : pystr) : M JSON :=
  response ← perform (build_request requests_verb endpoint jwt data content);
  lift (raise_for_status response);;
  if (0 <? length (Response.content response))%nat
  then lift (response_json response)
  else mret (JObj []).

(** Calls that leave [content] out. *)
Definition make_api_request_default (requests_verb : HTTPVerb) (endpoint : pystr)
    (jwt : option pystr) (data : option JSON) : M JSON :=
  make_api_request requests_verb endpoint jwt data default_content.

(** *** DomainManager *)

(** [DomainManager.get_active_domains] *)
Definition DomainManager_get_active_domains : M (list Domain.t) :=
  data ← make_api_request_default GET (lit "domains") None None;
  members ← lift (getitem data (lit "hydra:member"));
  items ← lift (iterate members);
  for_each (fun domain_data => lift (Domain._from_dict domain_data)) items.

(** [DomainManager.get_domain] *)
Definition DomainManager_get_domain (id : pystr) : M Domain.t :=
  data ← make_api_request_default GET (lit "domains/" ++ id) None None;
  lift (Domain._from_dict data).

(** *** Message *)

(** [x.id] for the message at [x]. *)
Definition message_id (x : loc) : M pystr :=
  m ← get_message x; mret (Message.id m).

(** The messages of [xs] whose id passes [keep], in order: the [filter] of
    [get_all_messages_intro] and the comprehension of [Message.delete]. *)
Fixpoint select_by_id (keep : pystr -> bool) (xs : list loc) : M (list loc) :=
  match xs with
  | [] => mret []
  | x :: rest =>
      x_id ← message_id x;
      kept ← select_by_id keep rest;
      mret (if keep x_id then x :: kept else kept)
  end.

(** [Message._from_intro_dict]: the new object is put in the store. *)
Definition Message__from_intro_dict (data : JSON) (account : loc) : M loc :=
  m ← lift (Message._from_intro_dict data account); new_message m.

(** [Message._from_full_dict] *)
Definition Message__from_full_dict (data : JSON) (account : loc) : M loc :=
  m ← lift (Message._from_full_dict data account); new_message m.

(** [self.account.jwt] *)
Definition owner_jwt (self : loc) : M (option pystr) :=
  m ← get_message self; a ← get_account (Message.account m); mret (Account.jwt a).

(** [Message.get_full_message] *)
Definition Message_get_full_message (self : loc) : M unit :=
  self_id ← message_id self;
  jwt ← owner_jwt self;
  data ← make_api_request_default GET (lit "messages/" ++ self_id) jwt None;
  update_message self (Message.set_is_full_message true);;
  v ← lift (getitem data (lit "cc"));
  update_message self (Message.set_cc v);;
  v ← lift (getitem data (lit "bcc"));
  update_message self (Message.set_bcc v);;
  v ← lift (getitem data (lit "flagged") ≫= as_opt_bool);
  update_message self (Message.set_flagged v);;
  v ← lift (getitem data (lit "verifications"));
  update_message self (Message.set_verifications v);;
  v ← lift (getitem data (lit "retention") ≫= as_opt_bool);
  update_message self (Message.set_retention v);;
  v ← lift (getitem data (lit "retentionDate") ≫= as_opt_str);
  update_message self (Message.set_retentionDate v);;
  v ← lift (getitem data (lit "text") ≫= as_opt_str);
  update_message self (Message.set_text v);;
  v ← lift (getitem data (lit "html"));
  update_message self (Message.set_html v);;
  v ← lift (getitem data (lit "attachments"));
  update_message self (Message.set_attachments v).

(** The two assignments that open [Message.delete]. *)
Definition Message_delete_local (self : loc) : M unit :=
  update_message self (Message.set_isDeleted true);;
  m ← get_message self;
  a ← get_account (Message.account m);
  kept ← select_by_id (fun x_id => bool_decide (x_id ≠ Message.id m)) (Account.messages a);
  update_account (Message.account m) (Account.set_messages kept).

(** [Message.delete] *)
Definition Message_delete (self : loc) : M unit :=
  Message_delete_local self;;
  self_id ← message_id self;
  jwt ← owner_jwt self;
  make_api_request_default DELETE (lit "messages/" ++ self_id) jwt None;;
  mret tt.

(** [Message.mark_as_seen] *)
Definition Message_mark_as_seen (self : loc) : M unit :=
  update_message self (Message.set_seen true);;
  self_id ← message_id self;
  jwt ← owner_jwt self;
  make_api_request PATCH (lit "messages/" ++ self_id) jwt
    (Some (JObj [(lit "seen", JBool true)])) (lit "application/ld+json");;
  mret tt.

(** *** AccountManager *)

(** [AccountManager.get_jwt] *)
Definition AccountManager_get_jwt (address password : pystr) : M pystr :=
  let account := JObj [(lit "address", JStr address); (lit "password", JStr password)] in
  data ← make_api_request_default POST (lit "token") None (Some account);
  lift (getitem data (lit "token") ≫= as_str).

(** [AccountManager.get_account_data] *)
Definition AccountManager_get_account_data (jwt : pystr) (account_id : option pystr) : M JSON :=
  let endpoint :=
    match account_id with
    | None => lit "me"
    | Some account_id => lit "accounts/" ++ account_id
    end in
  make_api_request_default GET endpoint (Some jwt) None.

(** [random.choice(seq)] *)
Definition random_choice (seq : pystr) : M N := fun w =>
  let '(i, ext') := randbelow (length seq) (outside w) in
  let w' := mkWorld (account_heap w) (message_heap w) ext' (sent w) in
  match seq !! i with
  | Some c => (Return c, w')
  | None => (Raise IndexError, w')
  end.

(** [AccountManager._generate_random_password] *)
Definition AccountManager__generate_random_password (length : Z) : M pystr :=
  for_each (fun _ : nat => random_choice letters) (seq 0 (Z.to_nat length)).

(** [generate_username(1)[0].lower()] *)
Definition random_username : M pystr := fun w =>
  let '(names, ext') := generate_username 1 (outside w) in
  let w' := mkWorld (account_heap w) (message_heap w) ext' (sent w) in
  match names with
  | name :: _ => (Return (str_lower name), w')
  | [] => (Raise IndexError, w')
  end.

(** [AccountManager._generate_address] *)
Definition AccountManager__generate_address (user domain : option pystr) : M pystr :=
  valid_domains ← DomainManager_get_active_domains;
  domain ←
    match domain with
    | None =>
        match valid_domains !! 0%nat with
        | Some first => mret (Domain.domain first)
        | None => raise IndexError
        end
    | Some domain =>
        if (length (filter (fun x => Domain.domain x = domain) valid_domains) =? 0)%nat
        then raise DomainNotAvailableException
        else mret domain
    end;
  user ←
    match user with
    | None => random_username
    | Some user => mret user
    end;
  mret (user ++ lit "@" ++ domain).

(** [AccountManager.new]; the result is the address of the new [Account]. *)
Definition AccountManager_new (user domain password : option pystr) : M loc :=
  address ← AccountManager__generate_address user domain;
  password ←
    match password with
    | None => AccountManager__generate_random_password 6
    | Some password => mret password
    end;
  let account := JObj [(lit "address", JStr address); (lit "password", JStr password)] in
  data ← make_api_request_default POST (lit "accounts") None (Some account);
  data ← lift (setitem data (lit "password") (JStr password));
  a ← lift (Account._from_dict data None);
  new_account a.

(** [AccountManager.login] *)
Definition AccountManager_login (address password : pystr) : M loc :=
  jwt ← AccountManager_get_jwt address password;
  data ← AccountManager_get_account_data jwt None;
  data ← lift (setitem data (lit "password") (JStr password));
  a ← lift (Account._from_dict data (Some jwt));
  new_account a.

(** *** Account *)

(** [Account.login] *)
Definition Account_login (self : loc) : M unit :=
  a ← get_account self;
  jwt ← AccountManager_get_jwt (Account.address a) (Account.password a);
  update_account self (Account.set_jwt (Some jwt)).

(** [Account.is_logged_in] *)
Definition Account_is_logged_in (self : loc) : M bool :=
  a ← get_account self; mret (Account.is_logged_in a).

(** [Account.delete] *)
Definition Account_delete (self : loc) : M bool :=
  a ← get_account self;
  make_api_request_default DELETE (lit "accounts/" ++ Account.id a) (Account.jwt a) None;;
  update_account self (Account.set_isDeleted true);;
  a ← get_account self;
  mret (Account.isDeleted a).

(** [Account._download_messages_page] *)
Definition Account__download_messages_page (self : loc) (page : Z) : M (list loc) :=
  a ← get_account self;
  data ← make_api_request_default GET (lit "messages?page=" ++ str_of_int page) (Account.jwt a) None;
  members ← lift (getitem data (lit "hydra:member"));
  items ← lift (iterate members);
  for_each (fun message_data => Message__from_intro_dict message_data self) items.

(** The [while] loop of [get_all_messages_intro]; [fuel] bounds the number
    of times its body runs. *)
Fixpoint download_pages (fuel : nat) (self : loc) (page : Z)
    (messages page_messages : list loc) : M (list loc) :=
  if (0 <? length page_messages)%nat then
    match fuel with
    | O => lift (Abort OutOfFuel)
    | S fuel' =>
        let messages := messages ++ page_messages in
        let page := page + 1 in
        page_messages ← Account__download_messages_page self page;
        download_pages fuel' self page messages page_messages
    end
  else mret messages.

(** The body of the [for] loop of [get_all_messages_intro]. *)
Definition merge_message (self : loc) (message : loc) : M unit :=
  a ← get_account self;
  m_id ← message_id message;
  check ← select_by_id (fun x_id => bool_decide (x_id = m_id)) (Account.messages a);
  if (length check =? 0)%nat
  then update_account self (fun a => Account.set_messages (Account.messages a ++ [message]) a)
  else mret tt.

(** [Account.get_all_messages_intro]; the result is the content of
    [self.messages] at the return. *)
Definition Account_get_all_messages_intro (fuel : nat) (self : loc) : M (list loc) :=
  page_messages ← Account__download_messages_page self 1;
  messages ← download_pages fuel self 1 [] page_messages;
  for_each (merge_message self) messages;;
  a ← get_account self;
  mret (Account.messages a).

(** ** The vocabulary of the properties *)

(** What the dispatcher makes of a response. *)
Definition decode_response (response : Response.t) : outcome JSON :=
  raise_for_status response;;
  if (0 <? length (Response.content response))%nat
  then response_json response
  else Return (JObj []).

(** The world after one exchange. *)
Definition after_exchange (r : Request) (ext' : Ext) (w : World) : World :=
  mkWorld (account_heap w) (message_heap w) ext' (sent w ++ [r]).

(** The addresses of [xs] whose message, read in [heap], has an id that
    passes [keep]. *)
Definition ids_kept (keep : pystr -> bool) (heap : list Message.t) (xs : list loc)
  : list loc :=
  List.filter
    (fun x => match heap !! x with Some m => keep (Message.id m) | None => false end)
    xs.

(** The store after the assignments of [Message.delete]. *)
Definition deleted_locally (self : loc) (m : Message.t) (a : Account.t) (w : World) : World :=
  let kept :=
    ids_kept (fun x_id => bool_decide (x_id ≠ Message.id m)) (message_heap w)
             (Account.messages a) in
  mkWorld (<[Message.account m := Account.set_messages kept a]> (account_heap w))
          (<[self := Message.set_isDeleted true m]> (message_heap w))
          (outside w) (sent w).

(** The store after the assignment of [Message.mark_as_seen]. *)
Definition seen_locally (self : loc) (m : Message.t) (w : World) : World :=
  with_messages (<[self := Message.set_seen true m]> (message_heap w)) w.

(** Every newline replaced by a space. *)
Definition newlines_to_spaces (t : pystr) : pystr :=
  map (fun c => if (c =? newline)%N then space else c) t.

(** The request of [DomainManager.get_active_domains]. *)
Definition domains_request : Request :=
  build_request GET (lit "domains") None None default_content.

(** The request of [_download_messages_page]. *)
Definition page_request (jwt : option pystr) (page : Z) : Request :=
  build_request GET (lit "messages?page=" ++ str_of_int page) jwt None default_content.

(** The store after a run holds the accounts it held and the messages it
    held, unchanged, with new messages after them. *)
Definition extends (w w' : World) : Prop :=
  account_heap w' = account_heap w
  /\ exists new, message_heap w' = message_heap w ++ new.

(** Each address of [added] was appended when no message before it, in the
    account's list as it then stood, had its id. *)
Definition added_fresh (heap : list Message.t) (old added : list loc) : Prop :=
  forall i l l' m m',
    added !! i = Some l -> l' ∈ old ++ take i added ->
    heap !! l = Some m -> heap !! l' = Some m' ->
    Message.id m' ≠ Message.id m.

(** The world [w], some steps into the merge that started in [w0]: only
    the list of the account has changed, by [added] at its end. *)
Definition merged (self : loc) (a : Account.t) (w0 w : World) (added : list loc) : Prop :=
  message_heap w = message_heap w0
  /\ account_heap w
     = <[self := Account.set_messages (Account.messages a ++ added) a]> (account_heap w0)
  /\ outside w = outside w0
  /\ sent w = sent w0.

(** The messages that the documents of a page decode to, when all do. *)
Fixpoint decode_page (self : loc) (docs : list JSON) : outcome (list Message.t) :=
  match docs with
  | [] => Return []
  | d :: rest =>
      m ← Message._from_intro_dict d self;
      ms ← decode_page self rest;
      mret (m :: ms)
  end.

(** From [ext], the requests for the pages [page], [page + 1], ... sent
    with the token [jwt] are each answered by a response the dispatcher
    returns from, whose ["hydra:member"] iterates as the next list of
    [pages]; [ext'] is the outside after the last of them. *)
Inductive serves_pages (jwt : option pystr) : Z -> Ext -> list (list JSON) -> Ext -> Prop :=
| serves_none page ext : serves_pages jwt page ext [] ext
| serves_page page ext response ext1 data members docs rest ext' :
    send (page_request jwt page) ext = (Answer response, ext1) ->
    decode_response response = Return data ->
    getitem data (lit "hydra:member") = Return members ->
    iterate members = Return docs ->
    serves_pages jwt (page + 1) ext1 rest ext' ->
    serves_pages jwt page ext (docs :: rest) ext'.

(** [count] page numbers from [page] on. *)
Fixpoint pages_from (page : Z) (count : nat) : list Z :=
  match count with
  | O => []
  | S count' => page :: pages_from (page + 1) count'
  end.

(** The list of an account after the [for] loop of
    [get_all_messages_intro] has gone through [fetched], the messages read
    in [heap]. *)
Definition merge_step (heap : list Message.t) (current : list loc) (x : loc) : list loc :=
  match heap !! x with
  | Some m =>
      if (length (ids_kept (fun x_id => bool_decide (x_id = Message.id m)) heap current)
          =? 0)%nat
      then current ++ [x]
      else current
  | None => current
  end.

Definition merge_by_id (heap : list Message.t) (current fetched : list loc) : list loc :=
  fold_left (merge_step heap) fetched current.

(** The credentials that [get_jwt] and [new] send, and the requests of
    [get_jwt], [get_account_data] (for the caller's own account) and [new]. *)
Definition credentials (address password : pystr) : JSON :=
  JObj [(lit "address", JStr address); (lit "password", JStr password)].

Definition token_request (address password : pystr) : Request :=
  build_request POST (lit "token") None (Some (credentials address password))
    default_content.

Definition me_request (jwt : pystr) : Request :=
  build_request GET (lit "me") (Some jwt) None default_content.

Definition accounts_request (address password : pystr) : Request :=
  build_request POST (lit "accounts") None (Some (credentials address password))
    default_content.

(** A [for] loop that builds a list without touching the world. *)
Fixpoint collect {A B : Type} (f : A -> outcome B) (items : list A) : outcome (list B) :=
  match items with
  | [] => Return []
  | x :: rest => y ← f x; ys ← collect f rest; mret (y :: ys)
  end.

(** The domain [_generate_address] settles on, given the list it fetched:
    the first of the list when the caller names none, the caller's when it
    is the [domain] of some element; [None] where the function raises. *)
Definition resolved_domain (valid_domains : list Domain.t) (domain : option pystr)
  : option pystr :=
  match domain with
  | None => Domain.domain <$> head valid_domains
  | Some domain =>
      if bool_decide (domain ∈ Domain.domain <$> valid_domains) then Some domain else None
  end.

(** The request of [Message.get_full_message] for the message [m] of the
    account [a]. *)
Definition full_message_request (m : Message.t) (a : Account.t) : Request :=
  build_request GET (lit "messages/" ++ Message.id m) (Account.jwt a) None
    default_content.

(** [m'] is [m] marked full: what [get_full_message] never changes of a
    message once it has started to assign. *)
Definition marked_full (m m' : Message.t) : Prop :=
  Message.is_full_message m' = true
  /\ Message.account m' = Message.account m
  /\ Message.id m' = Message.id m
  /\ Message.intro m' = Message.intro m
  /\ Message.subject m' = Message.subject m
  /\ Message.seen m' = Message.seen m
  /\ Message.isDeleted m' = Message.isDeleted m.

(** The keys the constructors from dictionaries read, in the order they
    read them. *)
Definition Domain_keys : list pystr :=
  [lit "id"; lit "domain"; lit "isActive"; lit "isPrivate"; lit "createdAt";
   lit "updatedAt"].

Definition Account_keys : list pystr :=
  [lit "id"; lit "address"; lit "quota"; lit "used"; lit "isDisabled";
   lit "isDeleted"; lit "createdAt"; lit "updatedAt"; lit "password"].

Definition Message_intro_keys : list pystr :=
  [lit "id"; lit "accountId"; lit "msgid"; lit "from"; lit "to"; lit "subject";
   lit "seen"; lit "isDeleted"; lit "hasAttachments"; lit "size";
   lit "downloadUrl"; lit "createdAt"; lit "updatedAt"; lit "intro"].

(** The first of [keys] that the dictionary [members] does not have. *)
Definition first_missing (keys : list pystr) (members : list (pystr * JSON))
  : option pystr :=
  List.find (fun k => match assoc k members with None => true | Some _ => false end) keys.

(** ** Running the monad *)

Lemma bind_run {A B : Type} (x : M A) (f : A -> M B) (w : World) :
  (x ≫= f) w =
  match x w with
  | (Return a, w') => f a w'
  | (Raise e, w') => (Raise e, w')
  | (Abort why, w') => (Abort why, w')
  end.
Proof. reflexivity. Qed.

Lemma ret_run {A : Type} (a : A) (w : World) : (mret a : M A) w = (Return a, w).
Proof. reflexivity. Qed.

Lemma lift_run {A : Type} (o : outcome A) (w : World) : lift o w = (o, w).
Proof. reflexivity. Qed.

Lemma make_api_request_run requests_verb endpoint jwt data content w :
  make_api_request requests_verb endpoint jwt data content w =
  let r := build_request requests_verb endpoint jwt data content in
  match send r (outside w) with
  | (Answer response, ext') => (decode_response response, after_exchange r ext' w)
  | (NoAnswer, ext') => (Raise ConnectionError, after_exchange r ext' w)
  end.
Proof.
  unfold make_api_request, perform, decode_response, after_exchange.
  rewrite bind_run. cbv zeta.
  destruct (send _ (outside w)) as [[response|] ext']; [|reflexivity].
  rewrite bind_run, lift_run.
  destruct (raise_for_status response) as [[]| |]; try reflexivity.
  simpl. destruct (0 <? length (Response.content response))%nat; reflexivity.
Qed.

Lemma raise_for_status_error response :
  400 <= Response.status_code response < 600 ->
  raise_for_status response = Raise (HTTPError response).
Proof.
  intros Hs. unfold raise_for_status.
  destruct (Z.leb_spec 400 (Response.status_code response)); [|lia].
  destruct (Z.ltb_spec (Response.status_code response) 500); [reflexivity|].
  destruct (Z.leb_spec 500 (Response.status_code response)); [|lia].
  destruct (Z.ltb_spec (Response.status_code response) 600); [reflexivity|lia].
Qed.

Lemma raise_for_status_pass response :
  ~ 400 <= Response.status_code response < 600 ->
  raise_for_status response = Return tt.
Proof.
  intros Hs. unfold raise_for_status.
  destruct (Z.leb_spec 400 (Response.status_code response));
    destruct (Z.ltb_spec (Response.status_code response) 500);
    destruct (Z.leb_spec 500 (Response.status_code response));
    destruct (Z.ltb_spec (Response.status_code response) 600);
    simpl; first [reflexivity | lia].
Qed.

Lemma lookup_accept jwt content :
  build_headers jwt content !! lit "accept" = Some (lit "application/ld+json").
Proof.
  unfold build_headers. destruct (truthy jwt).
  - rewrite lookup_insert_ne by (vm_compute; discriminate).
    rewrite lookup_insert_ne by (vm_compute; discriminate).
    apply lookup_insert_eq.
  - rewrite lookup_insert_ne by (vm_compute; discriminate).
    apply lookup_insert_eq.
Qed.

Lemma lookup_content_type jwt content :
  build_headers jwt content !! lit "Content-Type" = Some content.
Proof.
  unfold build_headers. destruct (truthy jwt).
  - rewrite lookup_insert_ne by (vm_compute; discriminate).
    apply lookup_insert_eq.
  - apply lookup_insert_eq.
Qed.

Lemma lookup_authorization jwt content :
  build_headers jwt content !! lit "Authorization" =
  match jwt with
  | Some (c :: token) => Some (lit "Bearer " ++ c :: token)
  | _ => None
  end.
Proof.
  unfold build_headers.
  destruct jwt as [[|c token]|]; simpl.
  - rewrite !lookup_insert_ne by (vm_compute; discriminate). apply lookup_empty.
  - apply lookup_insert_eq.
  - rewrite !lookup_insert_ne by (vm_compute; discriminate). apply lookup_empty.
Qed.

Lemma make_api_request_sent requests_verb endpoint jwt body content w :
  sent (make_api_request requests_verb endpoint jwt body content w).2 =
  sent w ++ [build_request requests_verb endpoint jwt body content].
Proof.
  rewrite make_api_request_run. cbv zeta.
  destruct (send _ (outside w)) as [[response|] ext']; reflexivity.
Qed.

(** C7 (as amended). The request that [make_api_request] sends: the
    headers always hold [accept: application/ld+json] and [Content-Type]
    with the content type given, which is [application/json] for a call that
    leaves it out; they hold [Authorization: Bearer <token>] exactly when
    the token given is a non-empty string (no header for [None] and none for
    the empty string); a payload, the body as JSON text, is sent exactly by a
    POST or a PATCH with a body that is not [None], so GET and DELETE send
    none. *)
Theorem make_api_request_headers_and_payload
    requests_verb endpoint jwt body content w :
  let r := build_request requests_verb endpoint jwt body content in
  sent (make_api_request requests_verb endpoint jwt body content w).2 = sent w ++ [r]
  /\ verb r = requests_verb
  /\ url r = api_address ++ lit "/" ++ endpoint
  /\ headers r !! lit "accept" = Some (lit "application/ld+json")
  /\ headers r !! lit "Content-Type" = Some content
  /\ headers r !! lit "Authorization" =
       match jwt with
       | Some (c :: token) => Some (lit "Bearer " ++ c :: token)
       | _ => None
       end
  /\ data r =
       match requests_verb, body with
       | (POST | PATCH), Some d => Some (json_dumps d)
       | _, _ => None
       end
  /\ (let r0 := build_request requests_verb endpoint jwt body default_content in
      sent (make_api_request_default requests_verb endpoint jwt body w).2 = sent w ++ [r0]
      /\ headers r0 !! lit "Content-Type" = Some (lit "application/json")).
Proof.
  cbv zeta. split; [apply make_api_request_sent|].
  assert (Hh : forall c, headers (build_request requests_verb endpoint jwt body c)
                         = build_headers jwt c).
  { intros c. unfold build_request.
    destruct (bool_decide _ && bool_decide _); reflexivity. }
  repeat split.
  - unfold build_request. destruct (bool_decide _ && bool_decide _); reflexivity.
  - unfold build_request. destruct (bool_decide _ && bool_decide _); reflexivity.
  - rewrite Hh. apply lookup_accept.
  - rewrite Hh. apply lookup_content_type.
  - rewrite Hh. apply lookup_authorization.
  - unfold build_request. destruct requests_verb, body; reflexivity.
  - apply make_api_request_sent.
  - rewrite Hh. apply lookup_content_type.
Qed.

(** C6 (as amended). When the transport delivers a response,
    [make_api_request] raises an [HTTPError] holding that response (status
    and body) exactly for a status from 400 to 599, and nothing catches it;
    for any other status it returns the empty mapping when the body is
    empty, and otherwise what [response.json()] gives: the parsed body, or
    the decoding error. *)
Theorem make_api_request_outcome
    requests_verb endpoint jwt body content w response ext' :
  send (build_request requests_verb endpoint jwt body content) (outside w)
    = (Answer response, ext') ->
  let w' := after_exchange (build_request requests_verb endpoint jwt body content) ext' w in
  (400 <= Response.status_code response < 600 ->
     make_api_request requests_verb endpoint jwt body content w
       = (Raise (HTTPError response), w'))
  /\ (~ 400 <= Response.status_code response < 600 ->
      Response.content response = [] ->
      make_api_request requests_verb endpoint jwt body content w
        = (Return (JObj []), w'))
  /\ (~ 400 <= Response.status_code response < 600 ->
      Response.content response <> [] ->
      make_api_request requests_verb endpoint jwt body content w
        = (match Response.json response with
           | Some v => Return v
           | None => Raise JSONDecodeError
           end, w')).
Proof.
  intros Hsend w'. subst w'.
  rewrite make_api_request_run. cbv zeta. rewrite Hsend.
  unfold decode_response. repeat split.
  - intros Hs. rewrite raise_for_status_error by exact Hs. reflexivity.
  - intros Hs Hc. rewrite raise_for_status_pass by exact Hs.
    rewrite Hc. reflexivity.
  - intros Hs Hc. rewrite raise_for_status_pass by exact Hs.
    destruct (Response.content response); [congruence|]. reflexivity.
Qed.

(** ** Reading and writing the store *)

Lemma get_account_run l a w :
  account_heap w !! l = Some a -> get_account l w = (Return a, w).
Proof. intros H. unfold get_account. rewrite H. reflexivity. Qed.

Lemma get_message_run l m w :
  message_heap w !! l = Some m -> get_message l w = (Return m, w).
Proof. intros H. unfold get_message. rewrite H. reflexivity. Qed.

Lemma update_account_run l f a w :
  account_heap w !! l = Some a ->
  update_account l f w = (Return tt, with_accounts (<[l := f a]> (account_heap w)) w).
Proof. intros H. unfold update_account. rewrite H. reflexivity. Qed.

Lemma update_message_run l f m w :
  message_heap w !! l = Some m ->
  update_message l f w = (Return tt, with_messages (<[l := f m]> (message_heap w)) w).
Proof. intros H. unfold update_message. rewrite H. reflexivity. Qed.

Lemma message_id_run l m w :
  message_heap w !! l = Some m -> message_id l w = (Return (Message.id m), w).
Proof.
  intros H. unfold message_id. rewrite bind_run, (get_message_run _ _ _ H).
  reflexivity.
Qed.

(** The dispatcher leaves the store alone. *)
Lemma make_api_request_store requests_verb endpoint jwt body content w :
  account_heap (make_api_request requests_verb endpoint jwt body content w).2 = account_heap w
  /\ message_heap (make_api_request requests_verb endpoint jwt body content w).2 = message_heap w.
Proof.
  rewrite make_api_request_run. cbv zeta.
  destruct (send _ (outside w)) as [[response|] ext']; split; reflexivity.
Qed.

(** C9. [Account.delete] sends its DELETE request from the world as it
    found it and assigns [isDeleted] only once the dispatcher has returned:
    the run is the dispatcher's run followed, on a return, by the
    assignment; when the dispatcher raises, [Account.delete] raises the
    same exception and the store, the account's [isDeleted] and every other
    field with it, is as it was before the call. *)
Theorem Account_delete_request_first self a w :
  account_heap w !! self = Some a ->
  let call :=
    make_api_request_default DELETE (lit "accounts/" ++ Account.id a) (Account.jwt a) None in
  sent (call w).2 = sent w ++ [build_request DELETE (lit "accounts/" ++ Account.id a)
                                 (Account.jwt a) None default_content]
  /\ account_heap (call w).2 = account_heap w
  /\ message_heap (call w).2 = message_heap w
  /\ match (call w).1 with
     | Return _ =>
         Account_delete self w =
         (Return true,
          with_accounts (<[self := Account.set_isDeleted true a]> (account_heap w)) (call w).2)
     | Raise e =>
         Account_delete self w = (Raise e, (call w).2)
         /\ account_heap (Account_delete self w).2 !! self = Some a
     | Abort why => Account_delete self w = (Abort why, (call w).2)
     end.
Proof.
  intros Ha call.
  destruct (make_api_request_store DELETE (lit "accounts/" ++ Account.id a)
              (Account.jwt a) None default_content w) as [Hacc Hmsg].
  fold (make_api_request_default DELETE (lit "accounts/" ++ Account.id a) (Account.jwt a) None) in Hacc, Hmsg.
  fold call in Hacc, Hmsg.
  split; [apply make_api_request_sent|]. split; [exact Hacc|]. split; [exact Hmsg|].
  unfold Account_delete. rewrite bind_run, (get_account_run _ _ _ Ha), bind_run.
  fold call. destruct (call w) as [[v| e | why] w1] eqn:Hcall; simpl in *.
  - assert (Ha1 : account_heap w1 !! self = Some a) by (rewrite Hacc; exact Ha).
    rewrite bind_run, (update_account_run _ _ _ _ Ha1), bind_run.
    erewrite get_account_run; [|simpl; apply list_lookup_insert_eq;
                                 eapply lookup_lt_Some; exact Ha1].
    rewrite ret_run, Hacc. reflexivity.
  - split; [reflexivity|]. rewrite Hacc. exact Ha.
  - reflexivity.
Qed.

(** C8. When the server answers the DELETE request with a response the
    dispatcher returns from (a status outside 400 to 599, a body that is
    empty or JSON), [Account.delete] leaves the account with [isDeleted]
    true, every other field as it was, and returns the value of that field,
    true. *)
Theorem Account_delete_sets_isDeleted self a w response ext' v :
  account_heap w !! self = Some a ->
  send (build_request DELETE (lit "accounts/" ++ Account.id a) (Account.jwt a) None
          default_content) (outside w)
    = (Answer response, ext') ->
  decode_response response = Return v ->
  exists a' w',
    Account_delete self w = (Return (Account.isDeleted a'), w')
    /\ account_heap w' !! self = Some a'
    /\ Account.isDeleted a' = true
    /\ a' = Account.set_isDeleted true a.
Proof.
  intros Ha Hsend Hdec.
  set (w1 := after_exchange
               (build_request DELETE (lit "accounts/" ++ Account.id a) (Account.jwt a) None
                  default_content) ext' w).
  assert (Hcall : make_api_request DELETE (lit "accounts/" ++ Account.id a) (Account.jwt a)
                    None default_content w = (Return v, w1)).
  { rewrite make_api_request_run. cbv zeta. rewrite Hsend, Hdec. reflexivity. }
  assert (Ha1 : account_heap w1 !! self = Some a) by exact Ha.
  exists (Account.set_isDeleted true a),
    (with_accounts (<[self := Account.set_isDeleted true a]> (account_heap w1)) w1).
  assert (Hnew : account_heap
            (with_accounts (<[self := Account.set_isDeleted true a]> (account_heap w1)) w1)
            !! self = Some (Account.set_isDeleted true a)).
  { simpl. apply list_lookup_insert_eq. eapply lookup_lt_Some; exact Ha1. }
  repeat split; try exact Hnew.
  unfold Account_delete, make_api_request_default.
  rewrite bind_run, (get_account_run _ _ _ Ha), bind_run, Hcall.
  rewrite bind_run, (update_account_run _ _ _ _ Ha1), bind_run.
  rewrite (get_account_run _ _ _ Hnew), ret_run. reflexivity.
Qed.

(** ** Selecting messages by id *)

Lemma select_by_id_run keep xs w :
  Forall (fun x => is_Some (message_heap w !! x)) xs ->
  select_by_id keep xs w = (Return (ids_kept keep (message_heap w) xs), w).
Proof.
  induction 1 as [|x rest [m Hx] _ IH]; [reflexivity|].
  cbn [select_by_id]. rewrite bind_run, (message_id_run _ _ _ Hx).
  rewrite bind_run, IH, ret_run.
  unfold ids_kept. cbn [List.filter]. rewrite Hx. reflexivity.
Qed.

Lemma ids_kept_ext keep heap heap' xs :
  (forall x, x ∈ xs -> Message.id <$> heap !! x = Message.id <$> heap' !! x) ->
  ids_kept keep heap xs = ids_kept keep heap' xs.
Proof.
  intros H. unfold ids_kept. apply List.filter_ext_in.
  intros x Hx. apply list_elem_of_In in Hx. specialize (H x Hx).
  destruct (heap !! x), (heap' !! x); simpl in H; congruence.
Qed.

Lemma ids_kept_elem keep heap xs x :
  x ∈ ids_kept keep heap xs <->
  x ∈ xs /\ exists m, heap !! x = Some m /\ keep (Message.id m) = true.
Proof.
  unfold ids_kept. rewrite !list_elem_of_In, List.filter_In.
  split.
  - intros [Hx Hk]. split; [exact Hx|].
    destruct (heap !! x) as [m|]; [|discriminate]. eauto.
  - intros [Hx (m & Hm & Hk)]. split; [exact Hx|]. rewrite Hm. exact Hk.
Qed.

Lemma Message_delete_local_run self m a w :
  message_heap w !! self = Some m ->
  account_heap w !! Message.account m = Some a ->
  Forall (fun x => is_Some (message_heap w !! x)) (Account.messages a) ->
  Message_delete_local self w = (Return tt, deleted_locally self m a w).
Proof.
  intros Hm Ha Hall. unfold Message_delete_local.
  rewrite bind_run, (update_message_run _ _ _ _ Hm).
  set (w0 := with_messages _ w).
  assert (Hself : message_heap w0 !! self = Some (Message.set_isDeleted true m)).
  { simpl. apply list_lookup_insert_eq. eapply lookup_lt_Some; exact Hm. }
  rewrite bind_run, (get_message_run _ _ _ Hself).
  cbn [Message.account Message.id Message.set_isDeleted].
  rewrite bind_run, (get_account_run (Message.account m) a w0 Ha).
  rewrite bind_run, select_by_id_run.
  2:{ eapply Forall_impl; [exact Hall|]. intros x [mx Hx]. simpl.
      destruct (decide (self = x)) as [->|Hne].
      - rewrite list_lookup_insert_eq by (eapply lookup_lt_Some; exact Hm). eauto.
      - rewrite list_lookup_insert_ne by exact Hne. eauto. }
  rewrite (update_account_run _ _ a w0 Ha).
  unfold deleted_locally. f_equal. unfold with_accounts. simpl. f_equal.
  f_equal. f_equal.
  apply ids_kept_ext. intros x _.
  destruct (decide (self = x)) as [->|Hne].
  - rewrite list_lookup_insert_eq by (eapply lookup_lt_Some; exact Hm).
    rewrite Hm. reflexivity.
  - rewrite list_lookup_insert_ne by exact Hne. reflexivity.
Qed.

Lemma owner_jwt_run self m a w :
  message_heap w !! self = Some m ->
  account_heap w !! Message.account m = Some a ->
  owner_jwt self w = (Return (Account.jwt a), w).
Proof.
  intros Hm Ha. unfold owner_jwt.
  rewrite bind_run, (get_message_run _ _ _ Hm), bind_run, (get_account_run _ _ _ Ha).
  reflexivity.
Qed.

(** C5. [Message.delete] and [Message.mark_as_seen] assign before they
    call the dispatcher.  [delete] first sets [isDeleted] and replaces the
    owning account's list by its messages with another id (so the message
    itself is gone from it); no request has been sent at that point, and
    the DELETE request is then sent from that store.  [mark_as_seen] first
    sets [seen] and then sends the PATCH request.  The dispatcher does not
    touch the store, so whatever it does, and in particular when it raises,
    the run ends with the assignments in place. *)
Theorem Message_local_before_remote self m a w :
  message_heap w !! self = Some m ->
  account_heap w !! Message.account m = Some a ->
  Forall (fun x => is_Some (message_heap w !! x)) (Account.messages a) ->
  let w1 := deleted_locally self m a w in
  let w2 := seen_locally self m w in
  let delete_call :=
    make_api_request_default DELETE (lit "messages/" ++ Message.id m) (Account.jwt a) None in
  let patch_call :=
    make_api_request PATCH (lit "messages/" ++ Message.id m) (Account.jwt a)
      (Some (JObj [(lit "seen", JBool true)])) (lit "application/ld+json") in
  (sent w1 = sent w
   /\ (exists m1, message_heap w1 !! self = Some m1 /\ Message.isDeleted m1 = true)
   /\ (exists a1, account_heap w1 !! Message.account m = Some a1
         /\ (self ∉ Account.messages a1)
         /\ forall x mx, x ∈ Account.messages a1 -> message_heap w !! x = Some mx ->
              Message.id mx ≠ Message.id m)
   /\ Message_delete self w = (delete_call ≫= (fun _ => mret tt)) w1
   /\ account_heap (Message_delete self w).2 = account_heap w1
   /\ message_heap (Message_delete self w).2 = message_heap w1
   /\ forall e w', delete_call w1 = (Raise e, w') ->
        Message_delete self w = (Raise e, w')
        /\ account_heap w' = account_heap w1 /\ message_heap w' = message_heap w1)
  /\
  (sent w2 = sent w
   /\ (exists m2, message_heap w2 !! self = Some m2 /\ Message.seen m2 = true)
   /\ Message_mark_as_seen self w = (patch_call ≫= (fun _ => mret tt)) w2
   /\ account_heap (Message_mark_as_seen self w).2 = account_heap w2
   /\ message_heap (Message_mark_as_seen self w).2 = message_heap w2
   /\ forall e w', patch_call w2 = (Raise e, w') ->
        Message_mark_as_seen self w = (Raise e, w')
        /\ account_heap w' = account_heap w2 /\ message_heap w' = message_heap w2).
Proof.
  intros Hm Ha Hall w1 w2 delete_call patch_call.
  assert (Hlt : (self < length (message_heap w))%nat) by (eapply lookup_lt_Some; exact Hm).
  assert (Halt : (Message.account m < length (account_heap w))%nat)
    by (eapply lookup_lt_Some; exact Ha).
  assert (Hm1 : message_heap w1 !! self = Some (Message.set_isDeleted true m)).
  { simpl. apply list_lookup_insert_eq. exact Hlt. }
  assert (Ha1 : account_heap w1 !! Message.account (Message.set_isDeleted true m)
                = Some (Account.set_messages
                          (ids_kept (fun x_id => bool_decide (x_id ≠ Message.id m))
                             (message_heap w) (Account.messages a)) a)).
  { simpl. apply list_lookup_insert_eq. exact Halt. }
  assert (Hm2 : message_heap w2 !! self = Some (Message.set_seen true m)).
  { simpl. apply list_lookup_insert_eq. exact Hlt. }
  assert (Hdel : Message_delete self w = (delete_call ≫= (fun _ => mret tt)) w1).
  { unfold Message_delete.
    rewrite bind_run, (Message_delete_local_run _ _ _ _ Hm Ha Hall). fold w1.
    rewrite bind_run, (message_id_run _ _ _ Hm1).
    rewrite bind_run, (owner_jwt_run _ _ _ _ Hm1 Ha1). reflexivity. }
  assert (Hseen : Message_mark_as_seen self w = (patch_call ≫= (fun _ => mret tt)) w2).
  { unfold Message_mark_as_seen.
    rewrite bind_run, (update_message_run _ _ _ _ Hm). fold (seen_locally self m w). fold w2.
    rewrite bind_run, (message_id_run _ _ _ Hm2).
    rewrite bind_run, (owner_jwt_run self (Message.set_seen true m) a w2 Hm2 Ha).
    reflexivity. }
  split.
  - split; [reflexivity|]. split; [eexists; split; [exact Hm1|reflexivity]|].
    split.
    { eexists. split; [exact Ha1|]. cbn [Account.messages Account.set_messages]. split.
      - rewrite ids_kept_elem. intros [_ (mx & Hx & Hk)].
        rewrite Hm in Hx. injection Hx as <-.
        apply bool_decide_eq_true in Hk. congruence.
      - intros x mx Hin Hx. apply ids_kept_elem in Hin as [_ (mx' & Hx' & Hk)].
        rewrite Hx in Hx'. injection Hx' as <-.
        apply bool_decide_eq_true in Hk. exact Hk. }
    split; [exact Hdel|].
    destruct (make_api_request_store DELETE (lit "messages/" ++ Message.id m)
                (Account.jwt a) None default_content w1) as [Hacc Hmsg].
    fold (make_api_request_default DELETE (lit "messages/" ++ Message.id m) (Account.jwt a) None)
      in Hacc, Hmsg.
    fold delete_call in Hacc, Hmsg.
    rewrite Hdel, bind_run.
    destruct (delete_call w1) as [[v|e|why] w'] eqn:Hcall; simpl in Hacc, Hmsg;
      (split; [exact Hacc|]); (split; [exact Hmsg|]);
      intros e0 w0 Heq; inversion Heq; subst; auto.
  - split; [reflexivity|]. split; [eexists; split; [exact Hm2|reflexivity]|].
    split; [exact Hseen|].
    destruct (make_api_request_store PATCH (lit "messages/" ++ Message.id m)
                (Account.jwt a) (Some (JObj [(lit "seen", JBool true)]))
                (lit "application/ld+json") w2) as [Hacc Hmsg].
    fold patch_call in Hacc, Hmsg.
    rewrite Hseen, bind_run.
    destruct (patch_call w2) as [[v|e|why] w'] eqn:Hcall; simpl in Hacc, Hmsg;
      (split; [exact Hacc|]); (split; [exact Hmsg|]);
      intros e0 w0 Heq; inversion Heq; subst; auto.
Qed.

(** ** The synthesized intro *)

Lemma replace_from_char a b s :
  replace_from [a] [b] O s = map (fun c => if (c =? a)%N then b else c) s.
Proof.
  induction s as [|c s IH]; [reflexivity|].
  cbn [replace_from startswith map length Nat.pred].
  replace (startswith s []) with true by (destruct s; reflexivity).
  rewrite (N.eqb_sym a c), andb_true_r.
  destruct (c =? a)%N; cbn [app]; rewrite IH; reflexivity.
Qed.

Lemma post_init_intro (m : Message.t) (t : pystr) :
  Message.is_full_message m = true ->
  Message.intro m = None ->
  Message.text m = Some t ->
  Message.intro (Message.__post_init__ m) =
  Some (take 120 (newlines_to_spaces t)
        ++ (if (120 <? length t)%nat then [ellipsis] else [])).
Proof.
  intros Hfull Hintro Htext. unfold Message.__post_init__.
  rewrite Hfull, Hintro, Htext. cbn [Message.intro Message.set_intro].
  unfold str_replace. rewrite replace_from_char. fold (newlines_to_spaces t).
  destruct (120 <? length t)%nat; [reflexivity|]. rewrite app_nil_r. reflexivity.
Qed.

Lemma from_full_dict_shape data account m :
  Message._from_full_dict data account = Return m ->
  exists fields, m = Message.__post_init__ fields
    /\ Message.is_full_message fields = true /\ Message.intro fields = None.
Proof.
  unfold Message._from_full_dict.
  repeat match goal with
         | |- context [mbind _ ?x] => destruct x; [cbn [mbind outcome_bind]|discriminate..]
         end.
  intros [= <-]. eexists. split; [reflexivity|]. split; reflexivity.
Qed.

(** C1. A message built by the constructor from full data (with
    [is_full_message] true), no intro and a body text gets as intro the
    text with every newline replaced by a space, cut to its first 120
    characters, followed by the one-character ellipsis exactly when the text
    is longer than 120 characters; the other fields stay as given.  For the
    text made of 61 times ["a\n"] (122 characters) the intro is 60 times
    ["a "] followed by the ellipsis.  [_from_full_dict] builds its message
    this way. *)
Theorem Message_init_synthesizes_intro :
  (forall (fields : Message.t) (t : pystr),
     Message.is_full_message fields = true ->
     Message.intro fields = None ->
     Message.text fields = Some t ->
     Message.__init__ fields =
       Message.set_intro
         (Some (take 120 (newlines_to_spaces t)
                ++ (if (120 <? length t)%nat then [ellipsis] else []))) fields
     /\ (forall i c, (i < 120)%nat -> t !! i = Some c ->
           (default [] (Message.intro (Message.__init__ fields))) !! i
             = Some (if (c =? newline)%N then space else c))
     /\ length (default [] (Message.intro (Message.__init__ fields)))
          = ((length t `min` 120) + (if (120 <? length t)%nat then 1 else 0))%nat)
  /\ (forall fields : Message.t,
     Message.is_full_message fields = true ->
     Message.intro fields = None ->
     Message.text fields = Some (concat (replicate 61 (lit "a" ++ [newline]))) ->
     Message.intro (Message.__init__ fields)
       = Some (concat (replicate 60 (lit "a ")) ++ [ellipsis]))
  /\ (forall data account m t,
     Message._from_full_dict data account = Return m ->
     Message.text m = Some t ->
     Message.intro m =
       Some (take 120 (newlines_to_spaces t)
             ++ (if (120 <? length t)%nat then [ellipsis] else []))).
Proof.
  split; [|split].
  - intros fields t Hfull Hintro Htext.
    assert (Heq : Message.__init__ fields =
       Message.set_intro
         (Some (take 120 (newlines_to_spaces t)
                ++ (if (120 <? length t)%nat then [ellipsis] else []))) fields).
    { unfold Message.__init__, Message.__post_init__.
      rewrite Hfull, Hintro, Htext.
      unfold str_replace. rewrite replace_from_char. fold (newlines_to_spaces t).
      destruct (120 <? length t)%nat; [reflexivity|]. rewrite app_nil_r. reflexivity. }
    split; [exact Heq|]. rewrite Heq.
    cbn [Message.intro Message.set_intro]. unfold default. cbn [from_option id].
    split.
    + intros i c Hi Hc.
      assert (Hlen : (i < length t)%nat) by (eapply lookup_lt_Some; exact Hc).
      rewrite lookup_app_l
        by (rewrite length_take; unfold newlines_to_spaces; rewrite length_map; lia).
      rewrite lookup_take_lt by exact Hi.
      unfold newlines_to_spaces. rewrite list_lookup_fmap, Hc. reflexivity.
    + rewrite length_app, length_take. unfold newlines_to_spaces. rewrite length_map.
      destruct (120 <? length t)%nat; cbn [length]; lia.
  - intros fields Hfull Hintro Htext. unfold Message.__init__.
    rewrite (post_init_intro _ _ Hfull Hintro Htext). vm_compute. reflexivity.
  - intros data account m t Hm Htext.
    destruct (from_full_dict_shape _ _ _ Hm) as (fields & -> & Hfull & Hintro).
    assert (Ht : Message.text fields = Some t).
    { revert Htext. unfold Message.__post_init__. rewrite Hfull, Hintro.
      destruct (Message.text fields) eqn:E;
        cbn [Message.text Message.set_intro]; intros H; congruence. }
    apply post_init_intro; assumption.
Qed.

(** ** Creating an account *)

Lemma for_each_lift_world {A B : Type} (f : A -> outcome B) (items : list A) w :
  (for_each (fun x => lift (f x)) items w).2 = w.
Proof.
  induction items as [|x rest IH]; [reflexivity|].
  cbn [for_each]. rewrite bind_run, lift_run.
  destruct (f x) as [y| |]; try reflexivity.
  rewrite bind_run. destruct (for_each _ rest w) as [[ys| |] w'] eqn:E;
    simpl in IH; subst w'; reflexivity.
Qed.

(** [get_active_domains] sends one GET request and leaves the store alone. *)
Lemma get_active_domains_frame w :
  sent (DomainManager_get_active_domains w).2 = sent w ++ [domains_request]
  /\ account_heap (DomainManager_get_active_domains w).2 = account_heap w
  /\ message_heap (DomainManager_get_active_domains w).2 = message_heap w.
Proof.
  unfold DomainManager_get_active_domains, make_api_request_default.
  rewrite bind_run.
  pose proof (make_api_request_sent GET (lit "domains") None None default_content w) as Hs.
  destruct (make_api_request_store GET (lit "domains") None None default_content w)
    as [Ha Hm].
  destruct (make_api_request GET (lit "domains") None None default_content w)
    as [[data| |] w1]; simpl in Hs, Ha, Hm; try (repeat split; assumption).
  rewrite bind_run, lift_run.
  destruct (getitem data (lit "hydra:member")) as [members| |];
    try (repeat split; assumption).
  rewrite bind_run, lift_run.
  destruct (iterate members) as [items| |]; try (repeat split; assumption).
  rewrite for_each_lift_world. repeat split; assumption.
Qed.

(** C4 (as amended). When the list of active domains has been fetched
    and the domain the caller gives is the [domain] of none of them (string
    equality, so case matters), [AccountManager.new] raises
    [DomainNotAvailableException], which is not an [HTTPError].  It is
    raised locally, after the one GET request for the domain list and before
    anything else: that GET is the only request sent, so no POST to create
    the account is made, and the store is untouched. *)
Theorem new_rejects_unavailable_domain user (domain : pystr) password w valid_domains w1 :
  DomainManager_get_active_domains w = (Return valid_domains, w1) ->
  (forall d, d ∈ valid_domains -> Domain.domain d ≠ domain) ->
  AccountManager__generate_address user (Some domain) w
    = (Raise DomainNotAvailableException, w1)
  /\ AccountManager_new user (Some domain) password w
    = (Raise DomainNotAvailableException, w1)
  /\ (forall response, DomainNotAvailableException ≠ HTTPError response)
  /\ sent w1 = sent w ++ [domains_request]
  /\ verb domains_request = GET
  /\ account_heap w1 = account_heap w
  /\ message_heap w1 = message_heap w.
Proof.
  intros Hget Hnone.
  assert (Hgen : AccountManager__generate_address user (Some domain) w
                 = (Raise DomainNotAvailableException, w1)).
  { unfold AccountManager__generate_address. rewrite bind_run, Hget.
    assert (Hf : filter (fun x => Domain.domain x = domain) valid_domains = []).
    { clear Hget. induction valid_domains as [|d ds IH]; [reflexivity|].
      rewrite filter_cons_False by (apply Hnone; left).
      apply IH. intros d' Hd'. apply Hnone. right. exact Hd'. }
    rewrite Hf. reflexivity. }
  split; [exact Hgen|].
  split; [unfold AccountManager_new; rewrite bind_run, Hgen; reflexivity|].
  split; [discriminate|].
  destruct (get_active_domains_frame w) as (Hs & Ha & Hm).
  rewrite Hget in Hs, Ha, Hm. simpl in Hs, Ha, Hm.
  repeat split; assumption.
Qed.

(** C10. [AccountManager.new] without a domain takes [valid_domains[0]]
    unguarded.  When the server lists no active domain the call raises
    [IndexError], not [DomainNotAvailableException], the GET for the domain
    list being the only request sent (no POST to create the account); and
    whenever the call returns an account, the list it fetched had a first
    element. *)
Theorem new_without_domain_indexes_first user password w :
  (forall w1,
     DomainManager_get_active_domains w = (Return [], w1) ->
     AccountManager__generate_address user None w = (Raise IndexError, w1)
     /\ AccountManager_new user None password w = (Raise IndexError, w1)
     /\ IndexError ≠ DomainNotAvailableException
     /\ sent w1 = sent w ++ [domains_request]
     /\ account_heap w1 = account_heap w
     /\ message_heap w1 = message_heap w)
  /\ (forall l w',
     AccountManager_new user None password w = (Return l, w') ->
     exists first rest w1,
       DomainManager_get_active_domains w = (Return (first :: rest), w1)).
Proof.
  split.
  - intros w1 Hget.
    assert (Hgen : AccountManager__generate_address user None w = (Raise IndexError, w1)).
    { unfold AccountManager__generate_address. rewrite bind_run, Hget. reflexivity. }
    split; [exact Hgen|].
    split; [unfold AccountManager_new; rewrite bind_run, Hgen; reflexivity|].
    split; [discriminate|].
    destruct (get_active_domains_frame w) as (Hs & Ha & Hm).
    rewrite Hget in Hs, Ha, Hm. simpl in Hs, Ha, Hm.
    repeat split; assumption.
  - intros l w'. unfold AccountManager_new, AccountManager__generate_address.
    rewrite !bind_run.
    destruct (DomainManager_get_active_domains w) as [[[|first rest]| |] w1];
      try discriminate.
    intros _. eauto.
Qed.

(** ** Fetching the message summaries *)

Lemma extends_refl w : extends w w.
Proof. split; [reflexivity|]. exists []. rewrite app_nil_r. reflexivity. Qed.

Lemma extends_trans w1 w2 w3 : extends w1 w2 -> extends w2 w3 -> extends w1 w3.
Proof.
  intros [Ha1 [n1 Hm1]] [Ha2 [n2 Hm2]]. split; [congruence|].
  exists (n1 ++ n2). rewrite Hm2, Hm1, app_assoc. reflexivity.
Qed.

Lemma extends_length w w' : extends w w' -> (length (message_heap w) <= length (message_heap w'))%nat.
Proof. intros [_ [new ->]]. rewrite length_app. lia. Qed.

Lemma make_api_request_extends requests_verb endpoint jwt body content w :
  extends w (make_api_request requests_verb endpoint jwt body content w).2.
Proof.
  destruct (make_api_request_store requests_verb endpoint jwt body content w) as [Ha Hm].
  split; [exact Ha|]. exists []. rewrite Hm, app_nil_r. reflexivity.
Qed.

Lemma from_intro_dict_run d self w :
  Message__from_intro_dict d self w =
  match Message._from_intro_dict d self with
  | Return m => (Return (length (message_heap w)), with_messages (message_heap w ++ [m]) w)
  | Raise e => (Raise e, w)
  | Abort why => (Abort why, w)
  end.
Proof.
  unfold Message__from_intro_dict. rewrite bind_run, lift_run.
  destruct (Message._from_intro_dict d self); reflexivity.
Qed.

(** The messages built from the documents of a page all lie at new
    addresses. *)
Lemma from_intro_dicts_extends self items w o w' :
  for_each (fun d => Message__from_intro_dict d self) items w = (o, w') ->
  extends w w'
  /\ forall ls, o = Return ls -> Forall (fun l => (length (message_heap w) <= l)%nat) ls.
Proof.
  revert w o w'. induction items as [|d rest IH]; intros w o w' Hrun.
  - cbn [for_each] in Hrun. rewrite ret_run in Hrun. simplify_eq.
    split; [apply extends_refl|]. intros ls Hret. simplify_eq. constructor.
  - cbn [for_each] in Hrun. rewrite bind_run, from_intro_dict_run in Hrun.
    destruct (Message._from_intro_dict d self) as [m| |];
      try (simplify_eq; split; [apply extends_refl|discriminate]).
    set (w1 := with_messages (message_heap w ++ [m]) w) in Hrun.
    assert (H1 : extends w w1) by (split; [reflexivity|]; exists [m]; reflexivity).
    rewrite bind_run in Hrun.
    destruct (for_each _ rest w1) as [o2 w2] eqn:E2.
    destruct (IH _ _ _ E2) as [Hext Hls].
    destruct o2 as [ys| |]; rewrite ?ret_run in Hrun; simplify_eq;
      (split; [eapply extends_trans; eassumption|]); try discriminate.
    intros ls Hret. simplify_eq. constructor; [lia|].
    eapply Forall_impl; [apply Hls; reflexivity|].
    intros l Hl. simpl in Hl. rewrite length_app in Hl. simpl in Hl. lia.
Qed.

Lemma download_page_extends self page w o w' :
  Account__download_messages_page self page w = (o, w') ->
  extends w w'
  /\ forall ls, o = Return ls -> Forall (fun l => (length (message_heap w) <= l)%nat) ls.
Proof.
  unfold Account__download_messages_page, make_api_request_default. intros Hrun.
  rewrite bind_run in Hrun. unfold get_account at 1 in Hrun.
  destruct (account_heap w !! self) as [a|];
    [|simplify_eq; split; [apply extends_refl|discriminate]].
  rewrite bind_run in Hrun.
  pose proof (make_api_request_extends GET (lit "messages?page=" ++ str_of_int page)
                (Account.jwt a) None default_content w) as H1.
  destruct (make_api_request _ _ _ _ _ w) as [[data| |] w1]; simpl in H1;
    try (simplify_eq; split; [exact H1|discriminate]).
  rewrite bind_run, lift_run in Hrun.
  destruct (getitem data (lit "hydra:member")) as [members| |];
    try (simplify_eq; split; [exact H1|discriminate]).
  rewrite bind_run, lift_run in Hrun.
  destruct (iterate members) as [items| |];
    try (simplify_eq; split; [exact H1|discriminate]).
  destruct (from_intro_dicts_extends _ _ _ _ _ Hrun) as [H2 Hls].
  split; [eapply extends_trans; eassumption|].
  intros ls Hret. eapply Forall_impl; [apply Hls; exact Hret|].
  intros l Hl. simpl in Hl. pose proof (extends_length _ _ H1). lia.
Qed.

Lemma download_pages_extends fuel self page messages page_messages w n o w' :
  download_pages fuel self page messages page_messages w = (o, w') ->
  (n <= length (message_heap w))%nat ->
  Forall (fun l => (n <= l)%nat) page_messages ->
  extends w w'
  /\ forall ls, o = Return ls ->
       exists more, ls = messages ++ more /\ Forall (fun l => (n <= l)%nat) more.
Proof.
  revert page messages page_messages w.
  induction fuel as [|fuel IH]; intros page messages page_messages w Hrun Hn Hpm;
    cbn [download_pages] in Hrun.
  - destruct (0 <? length page_messages)%nat eqn:Hlen.
    + rewrite lift_run in Hrun. simplify_eq. split; [apply extends_refl|discriminate].
    + rewrite ret_run in Hrun. simplify_eq. split; [apply extends_refl|].
      intros ls Hret. simplify_eq. exists [].
      rewrite app_nil_r. split; [reflexivity|constructor].
  - destruct (0 <? length page_messages)%nat eqn:Hlen.
    + rewrite bind_run in Hrun.
      destruct (Account__download_messages_page self (page + 1) w) as [o1 w1] eqn:E1.
      destruct (download_page_extends _ _ _ _ _ E1) as [H1 Hls].
      destruct o1 as [pm| |]; try (simplify_eq; split; [exact H1|discriminate]).
      pose proof (extends_length _ _ H1) as Hlen1.
      destruct (IH _ _ _ _ Hrun) as [H2 Hret]; [lia| |].
      { eapply Forall_impl; [apply Hls; reflexivity|]. intros l Hl. simpl in Hl. lia. }
      split; [eapply extends_trans; eassumption|].
      intros ls Hls'. destruct (Hret ls Hls') as (more & -> & Hmore).
      exists (page_messages ++ more). rewrite app_assoc. split; [reflexivity|].
      apply Forall_app. split; assumption.
    + rewrite ret_run in Hrun. simplify_eq. split; [apply extends_refl|].
      intros ls Hret. simplify_eq. exists [].
      rewrite app_nil_r. split; [reflexivity|constructor].
Qed.

(** *** The merge by id *)

Lemma select_by_id_spec keep xs w o w' :
  select_by_id keep xs w = (o, w') ->
  w' = w
  /\ forall check, o = Return check -> check = ids_kept keep (message_heap w) xs.
Proof.
  revert o w'. induction xs as [|x rest IH]; intros o w' Hrun.
  - cbn [select_by_id] in Hrun. rewrite ret_run in Hrun. simplify_eq.
    split; [reflexivity|]. intros check Hret. simplify_eq. reflexivity.
  - cbn [select_by_id] in Hrun. rewrite bind_run in Hrun.
    unfold message_id in Hrun. rewrite bind_run in Hrun. unfold get_message in Hrun.
    destruct (message_heap w !! x) as [m|] eqn:Hx;
      [|simplify_eq; split; [reflexivity|discriminate]].
    rewrite ret_run, bind_run in Hrun.
    destruct (select_by_id keep rest w) as [o1 w1] eqn:E1.
    destruct (IH _ _ eq_refl) as [-> Hcheck].
    destruct o1 as [kept| |]; rewrite ?ret_run in Hrun; simplify_eq;
      (split; [reflexivity|]); try discriminate.
    intros check Hret. simplify_eq. rewrite (Hcheck kept eq_refl).
    unfold ids_kept. cbn [List.filter]. rewrite Hx. reflexivity.
Qed.

Lemma merged_start self a w0 :
  account_heap w0 !! self = Some a -> merged self a w0 w0 [].
Proof.
  intros Ha. repeat split. rewrite app_nil_r.
  symmetry. apply list_insert_id. rewrite Ha. destruct a; reflexivity.
Qed.

Lemma merge_message_step self a w0 w added message o w' :
  account_heap w0 !! self = Some a ->
  merged self a w0 w added ->
  added_fresh (message_heap w0) (Account.messages a) added ->
  merge_message self message w = (o, w') ->
  exists added',
    merged self a w0 w' added'
    /\ added_fresh (message_heap w0) (Account.messages a) added'
    /\ (added' = added \/ added' = added ++ [message]).
Proof.
  intros Ha (Hmh & Hah & Hout & Hsent) Hfresh Hrun.
  assert (Hlt : (self < length (account_heap w0))%nat) by (eapply lookup_lt_Some; exact Ha).
  assert (Hself : account_heap w !! self
                  = Some (Account.set_messages (Account.messages a ++ added) a)).
  { rewrite Hah. apply list_lookup_insert_eq. exact Hlt. }
  assert (Hsame : merged self a w0 w added) by (repeat split; assumption).
  unfold merge_message in Hrun.
  rewrite bind_run, (get_account_run _ _ _ Hself), bind_run in Hrun.
  unfold message_id in Hrun. rewrite bind_run in Hrun. unfold get_message in Hrun.
  destruct (message_heap w !! message) as [m|] eqn:Hm;
    [|simplify_eq; exists added; auto].
  rewrite ret_run, bind_run in Hrun.
  cbn [Account.messages Account.set_messages Message.id] in Hrun.
  destruct (select_by_id _ _ w) as [o1 w1] eqn:E1.
  destruct (select_by_id_spec _ _ _ _ _ E1) as [-> Hcheck].
  destruct o1 as [check| |]; try solve [simplify_eq; exists added; auto].
  specialize (Hcheck check eq_refl).
  destruct (length check =? 0)%nat eqn:Hlen.
  - rewrite (update_account_run _ _ _ _ Hself) in Hrun. simplify_eq.
    exists (added ++ [message]). split; [|split; [|right; reflexivity]].
    + repeat split; try assumption.
      cbn [account_heap with_accounts]. rewrite Hah, list_insert_insert_eq.
      cbn [Account.messages Account.set_messages]. rewrite app_assoc. reflexivity.
    + apply Nat.eqb_eq, nil_length_inv in Hlen.
      intros i l l' ml ml' Hi Hin Hl Hl'.
      apply lookup_app_Some in Hi as [Hi|[Hge Hi]].
      * eapply (Hfresh i l l'); try eassumption.
        rewrite take_app_le in Hin by (apply lookup_lt_Some in Hi; lia). exact Hin.
      * apply list_lookup_singleton_Some in Hi as [Hi <-].
        assert (i = length added) as -> by lia.
        rewrite take_app_length in Hin.
        rewrite Hmh in Hm. rewrite Hl in Hm. simplify_eq.
        intros Heq.
        assert (Hin' : l' ∈ ids_kept (fun x_id => bool_decide (x_id = Message.id m))
                          (message_heap w) (Account.messages a ++ added)).
        { apply ids_kept_elem. split; [exact Hin|]. exists ml'. rewrite Hmh.
          split; [exact Hl'|]. apply bool_decide_eq_true. exact Heq. }
        rewrite Hlen in Hin'. inversion Hin'.
  - rewrite ret_run in Hrun. simplify_eq. exists added; auto.
Qed.

Lemma merge_messages_run self a w0 fetched :
  account_heap w0 !! self = Some a ->
  forall w added o w',
    merged self a w0 w added ->
    added_fresh (message_heap w0) (Account.messages a) added ->
    for_each (merge_message self) fetched w = (o, w') ->
    exists more,
      merged self a w0 w' (added ++ more)
      /\ added_fresh (message_heap w0) (Account.messages a) (added ++ more)
      /\ Forall (fun l => l ∈ fetched) more.
Proof.
  intros Ha. induction fetched as [|x rest IH]; intros w added o w' Hm Hf Hrun.
  - cbn [for_each] in Hrun. rewrite ret_run in Hrun. simplify_eq.
    exists []. rewrite app_nil_r. auto.
  - cbn [for_each] in Hrun. rewrite bind_run in Hrun.
    destruct (merge_message self x w) as [o1 w1] eqn:E1.
    destruct (merge_message_step _ _ _ _ _ _ _ _ Ha Hm Hf E1) as (added1 & Hm1 & Hf1 & Hor).
    assert (Hstop : exists more, merged self a w0 w1 (added ++ more)
              /\ added_fresh (message_heap w0) (Account.messages a) (added ++ more)
              /\ Forall (fun l => l ∈ x :: rest) more /\ added1 = added ++ more).
    { destruct Hor as [->| ->].
      - exists []. rewrite app_nil_r. auto.
      - exists [x]. split; [exact Hm1|]. split; [exact Hf1|]. split; [|reflexivity].
        repeat constructor. }
    destruct Hstop as (more1 & Hm1' & Hf1' & Hin1 & ->).
    destruct o1 as [[]| |]; try solve [simplify_eq; exists more1; auto].
    rewrite bind_run in Hrun.
    destruct (for_each (merge_message self) rest w1) as [o2 w2] eqn:E2.
    destruct (IH _ _ _ _ Hm1 Hf1 E2) as (more2 & Hm2 & Hf2 & Hin2).
    exists (more1 ++ more2). rewrite app_assoc.
    assert (Hin : Forall (fun l => l ∈ x :: rest) (more1 ++ more2)).
    { apply Forall_app. split; [exact Hin1|].
      eapply Forall_impl; [exact Hin2|]. intros l Hl. right. exact Hl. }
    destruct o2 as [ys| |]; rewrite ?ret_run in Hrun; simplify_eq; auto.
Qed.

(** C2. Whatever the server sends and however the run ends,
    [get_all_messages_intro] only ever appends to the account's list, and
    appends a fetched summary only when no message already in the list
    (as it stands at that moment) has the same id.  The messages that were
    in the store are left as they are, and the list keeps its former
    entries in their places: a message made full by [get_full_message]
    stays in the list and stays full. *)
Theorem get_all_messages_intro_merges_by_id fuel self a w o w' :
  account_heap w !! self = Some a ->
  Account_get_all_messages_intro fuel self w = (o, w') ->
  exists new added,
    message_heap w' = message_heap w ++ new
    /\ account_heap w'
       = <[self := Account.set_messages (Account.messages a ++ added) a]> (account_heap w)
    /\ Forall (fun l => (length (message_heap w) <= l)%nat) added
    /\ added_fresh (message_heap w') (Account.messages a) added
    /\ (forall ls, o = Return ls -> ls = Account.messages a ++ added)
    /\ (forall i l m,
          Account.messages a !! i = Some l -> message_heap w !! l = Some m ->
          exists a',
            account_heap w' !! self = Some a' /\ Account.messages a' !! i = Some l
            /\ message_heap w' !! l = Some m).
Proof.
  intros Ha Hrun.
  assert (Hlt : (self < length (account_heap w))%nat) by (eapply lookup_lt_Some; exact Ha).
  assert (Hkeep : forall new added,
            message_heap w' = message_heap w ++ new ->
            account_heap w'
              = <[self := Account.set_messages (Account.messages a ++ added) a]> (account_heap w) ->
            forall i l m,
              Account.messages a !! i = Some l -> message_heap w !! l = Some m ->
              exists a',
                account_heap w' !! self = Some a' /\ Account.messages a' !! i = Some l
                /\ message_heap w' !! l = Some m).
  { intros new added Hmh Hah i l m Hi Hl.
    exists (Account.set_messages (Account.messages a ++ added) a). split; [|split].
    - rewrite Hah. apply list_lookup_insert_eq. exact Hlt.
    - cbn. apply lookup_app_l_Some. exact Hi.
    - rewrite Hmh. apply lookup_app_l_Some. exact Hl. }
  assert (Hnone : forall w1, extends w w1 -> w' = w1 ->
            (forall ls, o ≠ Return ls) ->
            exists new added,
              message_heap w' = message_heap w ++ new
              /\ account_heap w'
                 = <[self := Account.set_messages (Account.messages a ++ added) a]> (account_heap w)
              /\ Forall (fun l => (length (message_heap w) <= l)%nat) added
              /\ added_fresh (message_heap w') (Account.messages a) added
              /\ (forall ls, o = Return ls -> ls = Account.messages a ++ added)
              /\ (forall i l m,
                    Account.messages a !! i = Some l -> message_heap w !! l = Some m ->
                    exists a',
                      account_heap w' !! self = Some a' /\ Account.messages a' !! i = Some l
                      /\ message_heap w' !! l = Some m)).
  { intros w1 [Hah [new Hmh]] -> Hno. exists new, [].
    assert (Hah' : account_heap w1
              = <[self := Account.set_messages (Account.messages a ++ []) a]> (account_heap w)).
    { rewrite Hah, app_nil_r. symmetry. apply list_insert_id.
      rewrite Ha. destruct a; reflexivity. }
    split; [exact Hmh|]. split; [exact Hah'|]. split; [constructor|].
    split; [intros i l l' m m' Hi; inversion Hi|].
    split; [intros ls Hls; destruct (Hno ls Hls)|].
    apply (Hkeep new []); assumption. }
  unfold Account_get_all_messages_intro in Hrun. rewrite bind_run in Hrun.
  destruct (Account__download_messages_page self 1 w) as [o1 w1] eqn:E1.
  destruct (download_page_extends _ _ _ _ _ E1) as [H1 Hls1].
  destruct o1 as [pm| |];
    try solve [simplify_eq; apply (Hnone _ H1 eq_refl); discriminate].
  rewrite bind_run in Hrun.
  destruct (download_pages fuel self 1 [] pm w1) as [o2 w2] eqn:E2.
  destruct (download_pages_extends _ _ _ _ _ _ (length (message_heap w)) _ _ E2)
    as [H2 Hls2].
  { apply extends_length. exact H1. }
  { apply Hls1. reflexivity. }
  pose proof (extends_trans _ _ _ H1 H2) as H12.
  destruct o2 as [fetched| |];
    try solve [simplify_eq; apply (Hnone _ H12 eq_refl); discriminate].
  destruct (Hls2 fetched eq_refl) as (more & -> & Hnew). cbn [app] in *.
  destruct H12 as [Hah2 [new Hmh2]].
  assert (Ha2 : account_heap w2 !! self = Some a) by (rewrite Hah2; exact Ha).
  rewrite bind_run in Hrun.
  destruct (for_each (merge_message self) more w2) as [o3 w3] eqn:E3.
  destruct (merge_messages_run self a w2 more Ha2 w2 [] o3 w3
              (merged_start _ _ _ Ha2)) as (added & Hm3 & Hf3 & Hin3);
    [intros i l l' m m' Hi; inversion Hi|exact E3|].
  cbn [app] in Hm3, Hf3. destruct Hm3 as (Hmh3 & Hah3 & _ & _).
  assert (Hadded : Forall (fun l => (length (message_heap w) <= l)%nat) added).
  { rewrite Forall_forall in Hin3, Hnew |- *. intros l Hl. apply Hnew, Hin3, Hl. }
  assert (Hself3 : account_heap w3 !! self
                   = Some (Account.set_messages (Account.messages a ++ added) a)).
  { rewrite Hah3. apply list_lookup_insert_eq. rewrite Hah2. exact Hlt. }
  assert (Hend : w' = w3 /\ forall ls, o = Return ls -> ls = Account.messages a ++ added).
  { destruct o3 as [us| |].
    - rewrite bind_run, (get_account_run _ _ _ Hself3), ret_run in Hrun. simplify_eq.
      split; [reflexivity|]. intros ls Hls. simplify_eq. reflexivity.
    - simplify_eq. split; [reflexivity|discriminate].
    - simplify_eq. split; [reflexivity|discriminate]. }
  destruct Hend as [-> Hret].
  exists new, added.
  assert (Hmh : message_heap w3 = message_heap w ++ new) by (rewrite Hmh3; exact Hmh2).
  assert (Hah : account_heap w3
            = <[self := Account.set_messages (Account.messages a ++ added) a]> (account_heap w))
    by (rewrite Hah3, Hah2; reflexivity).
  split; [exact Hmh|]. split; [exact Hah|]. split; [exact Hadded|].
  split; [rewrite Hmh3; exact Hf3|]. split; [exact Hret|].
  apply (Hkeep new added); assumption.
Qed.

(** *** The pages *)

Lemma decode_page_app self docs1 docs2 msgs :
  decode_page self (docs1 ++ docs2) = Return msgs ->
  exists ms1 ms2,
    decode_page self docs1 = Return ms1 /\ decode_page self docs2 = Return ms2
    /\ msgs = ms1 ++ ms2.
Proof.
  revert msgs. induction docs1 as [|d rest IH]; intros msgs H.
  - exists [], msgs. split; [reflexivity|]. split; [exact H|reflexivity].
  - cbn [app decode_page] in H |- *.
    destruct (Message._from_intro_dict d self) as [m| |]; try discriminate.
    cbn [mbind outcome_bind] in H |- *.
    destruct (decode_page self (rest ++ docs2)) as [ms| |] eqn:E; try discriminate.
    cbn [mbind outcome_bind] in H. unfold mret, outcome_ret in H. simplify_eq.
    destruct (IH ms eq_refl) as (ms1 & ms2 & -> & H2 & ->).
    exists (m :: ms1), ms2. split; [reflexivity|]. split; [exact H2|reflexivity].
Qed.

Lemma decode_page_length self docs msgs :
  decode_page self docs = Return msgs -> length msgs = length docs.
Proof.
  revert msgs. induction docs as [|d rest IH]; intros msgs H.
  - cbn in H. simplify_eq. reflexivity.
  - cbn [decode_page] in H.
    destruct (Message._from_intro_dict d self) as [m| |]; try discriminate.
    cbn [mbind outcome_bind] in H.
    destruct (decode_page self rest) as [ms| |]; try discriminate.
    cbn [mbind outcome_bind] in H. unfold mret, outcome_ret in H. simplify_eq.
    cbn [length]. rewrite (IH ms eq_refl). reflexivity.
Qed.

Lemma from_intro_dicts_run self docs msgs w :
  decode_page self docs = Return msgs ->
  for_each (fun d => Message__from_intro_dict d self) docs w
  = (Return (seq (length (message_heap w)) (length msgs)),
     with_messages (message_heap w ++ msgs) w).
Proof.
  revert msgs w. induction docs as [|d rest IH]; intros msgs w H.
  - cbn in H. simplify_eq. cbn [for_each length seq]. rewrite ret_run, app_nil_r.
    destruct w; reflexivity.
  - cbn [decode_page] in H.
    destruct (Message._from_intro_dict d self) as [m| |] eqn:Hd; try discriminate.
    cbn [mbind outcome_bind] in H.
    destruct (decode_page self rest) as [ms| |] eqn:Hrest; try discriminate.
    cbn [mbind outcome_bind] in H. unfold mret, outcome_ret in H. simplify_eq.
    cbn [for_each]. rewrite bind_run, from_intro_dict_run, Hd.
    rewrite bind_run, (IH ms _ eq_refl), ret_run.
    cbn [message_heap with_messages length seq].
    rewrite length_app, Nat.add_1_r, <- app_assoc. reflexivity.
Qed.

Lemma download_page_run self a page w response ext1 data members docs msgs :
  account_heap w !! self = Some a ->
  send (page_request (Account.jwt a) page) (outside w) = (Answer response, ext1) ->
  decode_response response = Return data ->
  getitem data (lit "hydra:member") = Return members ->
  iterate members = Return docs ->
  decode_page self docs = Return msgs ->
  Account__download_messages_page self page w
  = (Return (seq (length (message_heap w)) (length msgs)),
     mkWorld (account_heap w) (message_heap w ++ msgs) ext1
             (sent w ++ [page_request (Account.jwt a) page])).
Proof.
  intros Ha Hsend Hdec Hget Hit Hmsgs.
  unfold Account__download_messages_page, make_api_request_default.
  rewrite bind_run, (get_account_run _ _ _ Ha), bind_run, make_api_request_run.
  cbv zeta. fold (page_request (Account.jwt a) page). rewrite Hsend, Hdec.
  rewrite bind_run, lift_run, Hget, bind_run, lift_run, Hit.
  rewrite (from_intro_dicts_run _ _ _ _ Hmsgs). reflexivity.
Qed.

Lemma serves_pages_app_inv jwt page ext docs rest ext' :
  serves_pages jwt page ext (docs :: rest) ext' ->
  exists response ext1 data members,
    send (page_request jwt page) ext = (Answer response, ext1)
    /\ decode_response response = Return data
    /\ getitem data (lit "hydra:member") = Return members
    /\ iterate members = Return docs
    /\ serves_pages jwt (page + 1) ext1 rest ext'.
Proof. intros H. inversion H; subst. eauto 10. Qed.

(** The loop, when the pages that follow are served: it asks for one page
    after another up to the first empty one. *)
Lemma download_pages_run self a rest :
  forall fuel page messages page_messages w ext' msgs,
    account_heap w !! self = Some a ->
    page_messages ≠ [] ->
    serves_pages (Account.jwt a) (page + 1) (outside w) (rest ++ [[]]) ext' ->
    Forall (fun docs => docs ≠ []) rest ->
    decode_page self (concat rest) = Return msgs ->
    (length rest < fuel)%nat ->
    download_pages fuel self page messages page_messages w
    = (Return (messages ++ page_messages ++ seq (length (message_heap w)) (length msgs)),
       mkWorld (account_heap w) (message_heap w ++ msgs) ext'
               (sent w ++ map (page_request (Account.jwt a))
                              (pages_from (page + 1) (S (length rest))))).
Proof.
  induction rest as [|docs rest IH];
    intros fuel page messages page_messages w ext' msgs Ha Hpm Hserve Hne Hdec Hfuel.
  - cbn in Hdec. simplify_eq.
    destruct fuel as [|fuel]; [cbn in Hfuel; lia|]. cbn [download_pages].
    destruct page_messages as [|x pm]; [congruence|]. cbn [length Nat.ltb Nat.leb].
    cbn [app] in Hserve.
    apply serves_pages_app_inv in Hserve
      as (response & ext1 & data & members & Hsend & Hd & Hg & Hi & Hrest).
    inversion Hrest; subst.
    rewrite bind_run.
    rewrite (download_page_run self a (page + 1) w response ext' data members [] []
               Ha Hsend Hd Hg Hi eq_refl).
    cbn [length seq]. destruct fuel; cbn [download_pages length Nat.ltb Nat.leb];
      rewrite ret_run, !app_nil_r; reflexivity.
  - destruct fuel as [|fuel]; [cbn in Hfuel; lia|]. cbn [download_pages].
    destruct page_messages as [|x pm]; [congruence|]. cbn [length Nat.ltb Nat.leb].
    cbn [app] in Hserve.
    apply serves_pages_app_inv in Hserve
      as (response & ext1 & data & members & Hsend & Hd & Hg & Hi & Hrest).
    cbn [concat] in Hdec.
    apply decode_page_app in Hdec as (ms1 & ms2 & Hms1 & Hms2 & ->).
    inversion Hne as [|? ? Hdocs Hne']; subst.
    rewrite bind_run.
    rewrite (download_page_run self a (page + 1) w response ext1 data members docs ms1
               Ha Hsend Hd Hg Hi Hms1).
    set (w1 := mkWorld _ _ _ _).
    assert (Hlen1 : length ms1 = length docs) by (eapply decode_page_length; exact Hms1).
    rewrite (IH fuel (page + 1) (messages ++ x :: pm)
               (seq (length (message_heap w)) (length ms1)) w1 ext' ms2);
      [|exact Ha| |exact Hrest|exact Hne'|exact Hms2|cbn [length] in Hfuel; lia].
    2:{ destruct docs; [congruence|]. rewrite Hlen1. discriminate. }
    subst w1. cbn [account_heap message_heap sent outside length pages_from map].
    f_equal.
    + f_equal. rewrite <- !app_assoc. f_equal. f_equal.
      rewrite !length_app, seq_app. reflexivity.
    + f_equal.
      * rewrite <- app_assoc. reflexivity.
      * rewrite <- app_assoc. reflexivity.
Qed.

Lemma merge_message_run self a current x w :
  account_heap w !! self = Some (Account.set_messages current a) ->
  Forall (fun l => is_Some (message_heap w !! l)) current ->
  is_Some (message_heap w !! x) ->
  merge_message self x w
  = (Return tt,
     with_accounts
       (<[self := Account.set_messages (merge_step (message_heap w) current x) a]>
          (account_heap w)) w).
Proof.
  intros Ha Hcur [m Hx]. unfold merge_message, merge_step.
  rewrite bind_run, (get_account_run _ _ _ Ha), bind_run, (message_id_run _ _ _ Hx).
  cbn [Account.messages Account.set_messages].
  rewrite bind_run, (select_by_id_run _ _ _ Hcur), Hx.
  destruct (length _ =? 0)%nat.
  - rewrite (update_account_run _ _ _ _ Ha). reflexivity.
  - rewrite ret_run, list_insert_id by exact Ha. destruct w; reflexivity.
Qed.

Lemma merge_step_valid heap current x :
  Forall (fun l => is_Some (heap !! l)) current ->
  Forall (fun l => is_Some (heap !! l)) (merge_step heap current x).
Proof.
  intros Hcur. unfold merge_step. destruct (heap !! x) as [m|] eqn:Hx; [|exact Hcur].
  destruct (length _ =? 0)%nat; [|exact Hcur].
  apply Forall_app. split; [exact Hcur|]. repeat constructor. rewrite Hx. eauto.
Qed.

Lemma merge_messages_exact self a fetched :
  forall w current,
    account_heap w !! self = Some (Account.set_messages current a) ->
    Forall (fun l => is_Some (message_heap w !! l)) current ->
    Forall (fun l => is_Some (message_heap w !! l)) fetched ->
    exists us,
      for_each (merge_message self) fetched w
      = (Return us,
         with_accounts
           (<[self := Account.set_messages (merge_by_id (message_heap w) current fetched) a]>
              (account_heap w)) w).
Proof.
  induction fetched as [|x rest IH]; intros w current Ha Hcur Hf.
  - exists []. cbn [for_each merge_by_id fold_left].
    rewrite ret_run, list_insert_id by exact Ha. destruct w; reflexivity.
  - inversion Hf as [|? ? Hx Hrest]; subst.
    cbn [for_each]. rewrite bind_run, (merge_message_run _ _ _ _ _ Ha Hcur Hx).
    set (w1 := with_accounts _ w).
    assert (Hlt : (self < length (account_heap w))%nat) by (eapply lookup_lt_Some; exact Ha).
    destruct (IH w1 (merge_step (message_heap w) current x)) as [us Hus].
    + cbn. apply list_lookup_insert_eq. exact Hlt.
    + apply merge_step_valid. exact Hcur.
    + exact Hrest.
    + exists (tt :: us). rewrite bind_run, Hus, ret_run.
      subst w1. cbn [account_heap message_heap with_accounts outside sent].
      rewrite list_insert_insert_eq. reflexivity.
Qed.

(** With ids that are pairwise distinct, every fetched message is appended. *)
Lemma merge_by_id_distinct heap fetched :
  forall current ms,
    Forall2 (fun l m => heap !! l = Some m) (current ++ fetched) ms ->
    NoDup (Message.id <$> ms) ->
    merge_by_id heap current fetched = current ++ fetched.
Proof.
  induction fetched as [|x rest IH]; intros current ms Hall Hnd.
  - cbn. rewrite app_nil_r. reflexivity.
  - cbn [merge_by_id fold_left]. fold (merge_by_id heap (merge_step heap current x) rest).
    assert (Hstep : merge_step heap current x = current ++ [x]).
    { unfold merge_step.
      apply Forall2_app_inv_l in Hall as (ms1 & ms2 & Hcur & Hrest & ->).
      inversion Hrest as [|? m ? ms2' Hx Hrest']; subst.
      rewrite Hx.
      assert (Hnil : ids_kept (fun x_id => bool_decide (x_id = Message.id m)) heap current = []).
      { apply elem_of_nil_inv. intros l Hl.
        apply ids_kept_elem in Hl as (Hin & ml & Hml & Hk).
        apply bool_decide_eq_true in Hk.
        apply list_elem_of_lookup in Hin as [i Hi].
        destruct (Forall2_lookup_l _ _ _ _ _ Hcur Hi) as (ml' & Hi' & Hml').
        rewrite Hml in Hml'. simplify_eq.
        rewrite fmap_app, fmap_cons in Hnd.
        apply NoDup_app in Hnd as (_ & Hdis & _).
        apply (Hdis (Message.id ml')).
        - apply list_elem_of_fmap. exists ml'. split; [reflexivity|].
          apply list_elem_of_lookup. eauto.
        - rewrite Hk. left. }
      rewrite Hnil. reflexivity. }
    rewrite Hstep. rewrite (IH (current ++ [x]) ms).
    + rewrite <- app_assoc. reflexivity.
    + rewrite <- app_assoc. exact Hall.
    + exact Hnd.
Qed.

Lemma new_messages_lookup (heap msgs : list Message.t) :
  Forall2 (fun l m => (heap ++ msgs) !! l = Some m) (seq (length heap) (length msgs)) msgs.
Proof.
  apply Forall2_lookup. intros i.
  destruct (msgs !! i) as [m|] eqn:Hm.
  - rewrite lookup_seq_lt by (eapply lookup_lt_Some; exact Hm).
    constructor. rewrite lookup_app_r by lia.
    replace (length heap + i - length heap)%nat with i by lia. exact Hm.
  - rewrite lookup_seq_ge by (apply lookup_ge_None; exact Hm). constructor.
Qed.

Lemma fetch_phase_run fuel self a w pages ext' msgs :
  account_heap w !! self = Some a ->
  serves_pages (Account.jwt a) 1 (outside w) (pages ++ [[]]) ext' ->
  Forall (fun docs => docs ≠ []) pages ->
  decode_page self (concat pages) = Return msgs ->
  (length pages <= fuel)%nat ->
  (Account__download_messages_page self 1 ≫= download_pages fuel self 1 []) w
  = (Return (seq (length (message_heap w)) (length msgs)),
     mkWorld (account_heap w) (message_heap w ++ msgs) ext'
             (sent w ++ map (page_request (Account.jwt a))
                            (pages_from 1 (S (length pages))))).
Proof.
  intros Ha Hserve Hne Hdec Hfuel. rewrite bind_run.
  destruct pages as [|docs rest].
  - cbn in Hdec. simplify_eq. cbn [app] in Hserve.
    apply serves_pages_app_inv in Hserve
      as (response & ext1 & data & members & Hsend & Hd & Hg & Hi & Hrest).
    inversion Hrest; subst.
    rewrite (download_page_run self a 1 w response ext' data members [] []
               Ha Hsend Hd Hg Hi eq_refl).
    cbn [length seq]. destruct fuel; cbn [download_pages length Nat.ltb Nat.leb];
      rewrite ret_run, !app_nil_r; reflexivity.
  - cbn [app] in Hserve.
    apply serves_pages_app_inv in Hserve
      as (response & ext1 & data & members & Hsend & Hd & Hg & Hi & Hrest).
    cbn [concat] in Hdec.
    apply decode_page_app in Hdec as (ms1 & ms2 & Hms1 & Hms2 & ->).
    inversion Hne as [|? ? Hdocs Hne']; subst.
    rewrite (download_page_run self a 1 w response ext1 data members docs ms1
               Ha Hsend Hd Hg Hi Hms1).
    set (w1 := mkWorld _ _ _ _).
    assert (Hlen1 : length ms1 = length docs) by (eapply decode_page_length; exact Hms1).
    rewrite (download_pages_run self a rest fuel 1 []
               (seq (length (message_heap w)) (length ms1)) w1 ext' ms2);
      [|exact Ha| |exact Hrest|exact Hne'|exact Hms2|cbn [length] in Hfuel; lia].
    2:{ destruct docs; [congruence|]. rewrite Hlen1. discriminate. }
    subst w1. cbn [account_heap message_heap sent outside length pages_from map app].
    f_equal.
    + f_equal. rewrite !length_app, seq_app. reflexivity.
    + f_equal.
      * rewrite <- app_assoc. reflexivity.
      * rewrite <- app_assoc. reflexivity.
Qed.

(** C3 (as amended). [get_all_messages_intro] asks for page 1, then
    page 2, and so on, and stops at the first page with no item: when the
    server serves the non-empty [pages] and then an empty page, the run
    sends exactly [length pages + 1] requests, for the pages 1 to
    [length pages + 1] in that order, and builds one summary for every
    item of the non-empty pages, in order.  What it returns is the
    account's list after the merge by id.  On an account whose list is
    empty, the result is all the fetched summaries when their ids are
    pairwise distinct; so for pages of sizes 2, 2 and 0 with four distinct
    ids it returns exactly 4 summaries after exactly 3 requests. *)
Theorem get_all_messages_intro_pagination fuel self a w pages ext' msgs :
  account_heap w !! self = Some a ->
  Forall (fun l => is_Some (message_heap w !! l)) (Account.messages a) ->
  serves_pages (Account.jwt a) 1 (outside w) (pages ++ [[]]) ext' ->
  Forall (fun docs => docs ≠ []) pages ->
  decode_page self (concat pages) = Return msgs ->
  (length pages <= fuel)%nat ->
  let fetched := seq (length (message_heap w)) (length msgs) in
  let heap' := message_heap w ++ msgs in
  let result := merge_by_id heap' (Account.messages a) fetched in
  let requests :=
    map (page_request (Account.jwt a)) (pages_from 1 (S (length pages))) in
  Account_get_all_messages_intro fuel self w
  = (Return result,
     mkWorld (<[self := Account.set_messages result a]> (account_heap w)) heap' ext'
             (sent w ++ requests))
  /\ length requests = S (length pages)
  /\ length msgs = length (concat pages)
  /\ (Account.messages a = [] -> NoDup (Message.id <$> msgs) -> result = fetched)
  /\ (Account.messages a = [] -> NoDup (Message.id <$> msgs) ->
      length <$> pages = [2; 2]%nat ->
      length result = 4%nat /\ length requests = 3%nat).
Proof.
  intros Ha Hvalid Hserve Hne Hdec Hfuel fetched heap' result requests.
  assert (Hlenmsgs : length msgs = length (concat pages))
    by (eapply decode_page_length; exact Hdec).
  assert (Hlenreq : length requests = S (length pages)).
  { unfold requests. rewrite length_map. generalize 1.
    induction (S (length pages)) as [|n IH]; intros z; [reflexivity|].
    cbn [pages_from length]. rewrite IH. reflexivity. }
  assert (Hdistinct : Account.messages a = [] -> NoDup (Message.id <$> msgs) ->
                      result = fetched).
  { intros Hempty Hnd. unfold result. rewrite Hempty.
    apply (merge_by_id_distinct heap' fetched [] msgs); [|exact Hnd].
    apply new_messages_lookup. }
  split; [|split; [exact Hlenreq|split; [exact Hlenmsgs|split; [exact Hdistinct|]]]].
  - unfold Account_get_all_messages_intro.
    pose proof (fetch_phase_run fuel self a w pages ext' msgs Ha Hserve Hne Hdec Hfuel)
      as Hfetch.
    rewrite bind_run in Hfetch. rewrite bind_run.
    destruct (Account__download_messages_page self 1 w) as [[pm| |] w1];
      try discriminate.
    rewrite bind_run, Hfetch. fold fetched heap' requests.
    set (w2 := mkWorld _ _ _ _).
    assert (Ha2 : account_heap w2 !! self
                  = Some (Account.set_messages (Account.messages a) a)).
    { cbn. rewrite Ha. destruct a; reflexivity. }
    destruct (merge_messages_exact self a fetched w2 (Account.messages a) Ha2)
      as [us Hus].
    + eapply Forall_impl; [exact Hvalid|]. intros l [m Hl]. cbn.
      exists m. apply lookup_app_l_Some. exact Hl.
    + apply Forall_forall. intros l Hl. cbn. apply lookup_lt_is_Some.
      apply elem_of_seq in Hl. unfold heap'. rewrite length_app. lia.
    + rewrite bind_run, Hus. fold result.
      set (w3 := with_accounts _ w2).
      assert (Ha3 : account_heap w3 !! self = Some (Account.set_messages result a)).
      { cbn. apply list_lookup_insert_eq. eapply lookup_lt_Some; exact Ha. }
      rewrite bind_run, (get_account_run _ _ _ Ha3), ret_run. reflexivity.
  - intros Hempty Hnd Hsizes.
    rewrite (Hdistinct Hempty Hnd), Hlenreq. unfold fetched.
    rewrite length_seq, Hlenmsgs.
    destruct pages as [|p1 [|p2 [|p3 ps]]]; try discriminate.
    cbn in Hsizes. injection Hsizes as H1 H2.
    cbn [concat length]. rewrite !length_app, H1, H2. split; reflexivity.
Qed.

(** ** Logging in *)

Lemma make_api_request_answer requests_verb endpoint jwt body content w response ext' :
  send (build_request requests_verb endpoint jwt body content) (outside w)
    = (Answer response, ext') ->
  make_api_request requests_verb endpoint jwt body content w
  = (decode_response response,
     after_exchange (build_request requests_verb endpoint jwt body content) ext' w).
Proof. intros H. rewrite make_api_request_run. cbv zeta. rewrite H. reflexivity. Qed.

Lemma assoc_set_same key v members : assoc key (assoc_set key v members) = Some v.
Proof.
  induction members as [|[k v0] rest IH]; cbn [assoc assoc_set].
  - unfold str_eqb. rewrite bool_decide_eq_true_2 by reflexivity. reflexivity.
  - destruct (str_eqb k key) eqn:E; cbn [assoc]; rewrite E; [reflexivity|exact IH].
Qed.

Lemma assoc_set_other key key' v members :
  key' ≠ key -> assoc key' (assoc_set key v members) = assoc key' members.
Proof.
  intros Hne. induction members as [|[k v0] rest IH]; cbn [assoc assoc_set].
  - unfold str_eqb. rewrite bool_decide_eq_false_2 by congruence. reflexivity.
  - destruct (str_eqb k key) eqn:E; cbn [assoc].
    + unfold str_eqb in E |- *. apply bool_decide_eq_true in E. subst k.
      rewrite !bool_decide_eq_false_2 by congruence. reflexivity.
    + rewrite IH. reflexivity.
Qed.

(** What [Account._from_dict] has read when it returns. *)
Lemma Account_from_dict_inv data jwt a :
  Account._from_dict data jwt = Return a ->
  getitem data (lit "id") = Return (JStr (Account.id a))
  /\ getitem data (lit "address") = Return (JStr (Account.address a))
  /\ getitem data (lit "quota") = Return (JInt (Account.quota a))
  /\ getitem data (lit "used") = Return (JInt (Account.used a))
  /\ getitem data (lit "isDisabled") = Return (JBool (Account.isDisabled a))
  /\ getitem data (lit "isDeleted") = Return (JBool (Account.isDeleted a))
  /\ getitem data (lit "createdAt") = Return (JStr (Account.createdAt a))
  /\ getitem data (lit "updatedAt") = Return (JStr (Account.updatedAt a))
  /\ getitem data (lit "password") = Return (JStr (Account.password a))
  /\ Account.messages a = []
  /\ Account.jwt a = jwt.
Proof.
  unfold Account._from_dict.
  repeat match goal with
         | |- context [mbind _ (getitem ?d ?k)] =>
             destruct (getitem d k) as [?| |]; [cbn [mbind outcome_bind]|discriminate..]
         end.
  repeat match goal with
         | |- context [mbind _ (?f ?v)] =>
             destruct v; try discriminate; cbn [mbind outcome_bind as_str as_int as_bool]
         end.
  intros H. unfold mret, outcome_ret in H. simplify_eq. cbn. repeat split.
Qed.

Lemma get_jwt_run address password w response ext' :
  send (token_request address password) (outside w) = (Answer response, ext') ->
  AccountManager_get_jwt address password w
  = (decode_response response ≫= (fun data => getitem data (lit "token") ≫= as_str),
     after_exchange (token_request address password) ext' w).
Proof.
  intros Hsend. unfold AccountManager_get_jwt, make_api_request_default.
  rewrite bind_run. fold (credentials address password).
  rewrite (make_api_request_answer _ _ _ _ _ _ _ _ Hsend).
  fold (token_request address password).
  destruct (decode_response response); reflexivity.
Qed.

(** X1. [AccountManager.login], when the token request is answered with a
    token and the request for the account's own data with a dictionary that
    [Account._from_dict] accepts: it sends exactly these two requests, a
    POST of the credentials without [Authorization] header and then a GET of
    [me], and returns a new account, at a new address, that holds the token
    and the password the caller gave (whatever ["password"] the server's
    dictionary held).  The account is logged in exactly when the token is
    not the empty string; the accounts and messages that existed are
    untouched. *)
Theorem AccountManager_login_success
    address password w r1 ext1 d1 token r2 ext2 members a :
  send (token_request address password) (outside w) = (Answer r1, ext1) ->
  decode_response r1 = Return d1 ->
  getitem d1 (lit "token") = Return (JStr token) ->
  send (me_request token) ext1 = (Answer r2, ext2) ->
  decode_response r2 = Return (JObj members) ->
  Account._from_dict (JObj (assoc_set (lit "password") (JStr password) members))
    (Some token) = Return a ->
  AccountManager_login address password w
  = (Return (length (account_heap w)),
     mkWorld (account_heap w ++ [a]) (message_heap w) ext2
             (sent w ++ [token_request address password; me_request token]))
  /\ Account.jwt a = Some token
  /\ Account.password a = password
  /\ Account.messages a = []
  /\ (Account.is_logged_in a = true <-> token ≠ [])
  /\ (forall key, key ≠ lit "password" ->
        getitem (JObj (assoc_set (lit "password") (JStr password) members)) key
        = getitem (JObj members) key)
  /\ headers (token_request address password) !! lit "Authorization" = None
  /\ data (token_request address password)
     = Some (json_dumps (credentials address password))
  /\ data (me_request token) = None.
Proof.
  intros Hs1 Hd1 Htok Hs2 Hd2 Hacc.
  destruct (Account_from_dict_inv _ _ _ Hacc)
    as (_ & _ & _ & _ & _ & _ & _ & _ & Hpw & Hmsgs & Hjwt).
  split.
  - unfold AccountManager_login.
    rewrite bind_run, (get_jwt_run _ _ _ _ _ Hs1), Hd1.
    cbn [mbind outcome_bind]. rewrite Htok. cbn [mbind outcome_bind as_str].
    unfold AccountManager_get_account_data, make_api_request_default.
    rewrite bind_run.
    rewrite (make_api_request_answer GET (lit "me") (Some token) None default_content
               (after_exchange (token_request address password) ext1 w) r2 ext2 Hs2).
    rewrite Hd2, bind_run, lift_run. cbn [setitem].
    rewrite bind_run, lift_run, Hacc. unfold new_account, after_exchange, with_accounts.
    cbn [account_heap message_heap outside sent]. rewrite <- app_assoc. reflexivity.
  - split; [exact Hjwt|]. split.
    { cbn [getitem] in Hpw. rewrite assoc_set_same in Hpw. simplify_eq. reflexivity. }
    split; [exact Hmsgs|]. split.
    { unfold Account.is_logged_in. rewrite Hjwt. destruct token; cbn; split;
        congruence. }
    split.
    { intros key Hkey. cbn [getitem]. rewrite assoc_set_other by exact Hkey. reflexivity. }
    split; [apply lookup_authorization|]. split; reflexivity.
Qed.

(** X2. [AccountManager.login], when the token step fails (the dispatcher
    raises on the response, or the response has no ["token"]): the same
    exception comes out, the POST of the credentials is the only request
    sent, and no account is built (the store is as it was). *)
Theorem AccountManager_login_failure address password w r1 ext1 e :
  send (token_request address password) (outside w) = (Answer r1, ext1) ->
  decode_response r1 ≫= (fun data => getitem data (lit "token") ≫= as_str) = Raise e ->
  AccountManager_login address password w
  = (Raise e, after_exchange (token_request address password) ext1 w)
  /\ account_heap (AccountManager_login address password w).2 = account_heap w
  /\ message_heap (AccountManager_login address password w).2 = message_heap w
  /\ sent (AccountManager_login address password w).2
     = sent w ++ [token_request address password].
Proof.
  intros Hs1 Hfail.
  assert (Hrun : AccountManager_login address password w
                 = (Raise e, after_exchange (token_request address password) ext1 w)).
  { unfold AccountManager_login.
    rewrite bind_run, (get_jwt_run _ _ _ _ _ Hs1), Hfail. reflexivity. }
  rewrite Hrun. repeat split.
Qed.

(** X3. [Account.login] asks for a token with the account's stored address
    and password and only then assigns: on a token, [jwt] becomes that
    token (a former one is overwritten) and nothing else of the account
    changes; when the token step raises, the account is as it was. *)
Theorem Account_login_sets_jwt self a w r1 ext1 :
  account_heap w !! self = Some a ->
  send (token_request (Account.address a) (Account.password a)) (outside w)
    = (Answer r1, ext1) ->
  let w1 := after_exchange (token_request (Account.address a) (Account.password a)) ext1 w in
  (forall d1 token,
     decode_response r1 = Return d1 ->
     getitem d1 (lit "token") = Return (JStr token) ->
     Account_login self w
     = (Return tt, with_accounts (<[self := Account.set_jwt (Some token) a]> (account_heap w)) w1))
  /\ (forall e,
     decode_response r1 ≫= (fun data => getitem data (lit "token") ≫= as_str) = Raise e ->
     Account_login self w = (Raise e, w1)
     /\ account_heap (Account_login self w).2 = account_heap w).
Proof.
  intros Ha Hs1 w1. split.
  - intros d1 token Hd1 Htok. unfold Account_login.
    rewrite bind_run, (get_account_run _ _ _ Ha), bind_run.
    rewrite (get_jwt_run _ _ _ _ _ Hs1), Hd1. cbn [mbind outcome_bind].
    rewrite Htok. cbn [mbind outcome_bind as_str]. fold w1.
    rewrite (update_account_run self _ a w1 Ha). reflexivity.
  - intros e Hfail.
    assert (Hrun : Account_login self w = (Raise e, w1)).
    { unfold Account_login.
      rewrite bind_run, (get_account_run _ _ _ Ha), bind_run.
      rewrite (get_jwt_run _ _ _ _ _ Hs1), Hfail. reflexivity. }
    rewrite Hrun. split; reflexivity.
Qed.

(** ** Domains, addresses and passwords *)

Lemma for_each_lift_run {A B : Type} (f : A -> outcome B) (items : list A) w :
  for_each (fun x => lift (f x)) items w = (collect f items, w).
Proof.
  induction items as [|x rest IH]; [reflexivity|].
  cbn [for_each collect]. rewrite bind_run, lift_run.
  destruct (f x) as [y| |]; try reflexivity.
  rewrite bind_run, IH. cbn [mbind outcome_bind].
  destruct (collect f rest); reflexivity.
Qed.

Lemma collect_lookup {A B : Type} (f : A -> outcome B) (items : list A) ys :
  collect f items = Return ys ->
  length ys = length items
  /\ forall i x, items !! i = Some x -> exists y, ys !! i = Some y /\ f x = Return y.
Proof.
  revert ys. induction items as [|x rest IH]; intros ys H.
  - cbn in H. simplify_eq. split; [reflexivity|]. intros i x Hi. inversion Hi.
  - cbn [collect] in H. destruct (f x) as [y| |] eqn:Hx; try discriminate.
    cbn [mbind outcome_bind] in H.
    destruct (collect f rest) as [ys'| |]; try discriminate.
    cbn [mbind outcome_bind] in H. unfold mret, outcome_ret in H. simplify_eq.
    destruct (IH ys' eq_refl) as [Hlen Hlook].
    split; [cbn; rewrite Hlen; reflexivity|].
    intros [|i] x' Hi; cbn in Hi |- *.
    + simplify_eq. eauto.
    + apply Hlook. exact Hi.
Qed.

(** X4. [DomainManager.get_active_domains] sends one GET of [domains]
    without [Authorization] header and returns one [Domain] for every item
    of ["hydra:member"], in the order of the server; it does not look at
    [isActive], so a domain the server lists as inactive is returned like
    the others. *)
Theorem get_active_domains_lists_all w response ext' envelope members docs :
  send domains_request (outside w) = (Answer response, ext') ->
  decode_response response = Return envelope ->
  getitem envelope (lit "hydra:member") = Return members ->
  iterate members = Return docs ->
  DomainManager_get_active_domains w
  = (collect Domain._from_dict docs, after_exchange domains_request ext' w)
  /\ (forall ds, collect Domain._from_dict docs = Return ds ->
        length ds = length docs
        /\ forall i doc, docs !! i = Some doc ->
             exists d, ds !! i = Some d /\ Domain._from_dict doc = Return d
               /\ getitem doc (lit "isActive") = Return (JBool (Domain.isActive d)))
  /\ headers domains_request !! lit "Authorization" = None
  /\ data domains_request = None.
Proof.
  intros Hsend Hdec Hget Hit. split; [|split; [|split; [apply lookup_authorization|reflexivity]]].
  - unfold DomainManager_get_active_domains, make_api_request_default.
    rewrite bind_run.
    rewrite (make_api_request_answer GET (lit "domains") None None default_content
               w response ext' Hsend).
    fold domains_request. rewrite Hdec, bind_run, lift_run, Hget, bind_run, lift_run, Hit.
    apply for_each_lift_run.
  - intros ds Hds. destruct (collect_lookup _ _ _ Hds) as [Hlen Hlook].
    split; [exact Hlen|]. intros i doc Hi.
    destruct (Hlook i doc Hi) as (d & Hd & Hdoc). exists d.
    split; [exact Hd|]. split; [exact Hdoc|].
    revert Hdoc. unfold Domain._from_dict.
    repeat match goal with
           | |- context [mbind _ (getitem ?x ?k)] =>
               destruct (getitem x k) as [?| |]; [cbn [mbind outcome_bind]|discriminate..]
           end.
    repeat match goal with
           | |- context [mbind _ (?f ?v)] =>
               destruct v; try discriminate; cbn [mbind outcome_bind as_str as_int as_bool]
           end.
    intros H. unfold mret, outcome_ret in H. simplify_eq. reflexivity.
Qed.

Lemma random_choice_run (seq : pystr) w :
  (forall n ext, (0 < n)%nat -> ((randbelow n ext).1 < n)%nat) ->
  seq ≠ [] ->
  exists c ext',
    random_choice seq w
    = (Return c, mkWorld (account_heap w) (message_heap w) ext' (sent w))
    /\ c ∈ seq.
Proof.
  intros Hlt Hne. unfold random_choice.
  pose proof (Hlt (length seq) (outside w)) as Hi.
  destruct (randbelow (length seq) (outside w)) as [i ext']. cbn [fst] in Hi.
  assert (Hpos : (0 < length seq)%nat) by (destruct seq; [congruence|cbn; lia]).
  destruct (lookup_lt_is_Some_2 seq i (Hi Hpos)) as [c Hc].
  exists c, ext'. rewrite Hc. split; [reflexivity|].
  apply list_elem_of_lookup. eauto.
Qed.

(** X5. [AccountManager._generate_random_password], with a [random]
    module whose draws lie below the length of the sequence: it returns a
    string of exactly [length] characters (none for a length that is not
    positive), each a letter or digit of [string.ascii_letters +
    string.digits]; it sends no request and touches no object. *)
Theorem generate_random_password_alphanumeric (n : Z) w :
  (forall k ext, (0 < k)%nat -> ((randbelow k ext).1 < k)%nat) ->
  exists p ext',
    AccountManager__generate_random_password n w
    = (Return p, mkWorld (account_heap w) (message_heap w) ext' (sent w))
    /\ length p = Z.to_nat n
    /\ Forall (fun c => c ∈ letters) p.
Proof.
  intros Hlt. unfold AccountManager__generate_random_password.
  assert (Hloop : forall (turns : list nat) w0,
            exists p ext',
              for_each (fun _ : nat => random_choice letters) turns w0
              = (Return p, mkWorld (account_heap w0) (message_heap w0) ext' (sent w0))
              /\ length p = length turns
              /\ Forall (fun c => c ∈ letters) p).
  { induction turns as [|t turns IH]; intros w0.
    - exists [], (outside w0). cbn [for_each]. rewrite ret_run.
      destruct w0; repeat split. constructor.
    - cbn [for_each]. rewrite bind_run.
      destruct (random_choice_run letters w0 Hlt) as (c & ext1 & Hrun & Hin);
        [discriminate|].
      rewrite Hrun, bind_run.
      destruct (IH (mkWorld (account_heap w0) (message_heap w0) ext1 (sent w0)))
        as (p & ext2 & Hrest & Hplen & Hall).
      rewrite Hrest, ret_run. exists (c :: p), ext2.
      split; [reflexivity|]. split; [cbn; rewrite Hplen; reflexivity|].
      constructor; assumption. }
  destruct (Hloop (seq 0 (Z.to_nat n)) w) as (p & ext' & Hrun & Hlen & Hall).
  exists p, ext'. rewrite length_seq in Hlen. auto.
Qed.

Lemma generate_address_run user domain w valid_domains w0 chosen :
  DomainManager_get_active_domains w = (Return valid_domains, w0) ->
  resolved_domain valid_domains domain = Some chosen ->
  AccountManager__generate_address (Some user) domain w
  = (Return (user ++ lit "@" ++ chosen), w0).
Proof.
  intros Hget Hres. unfold AccountManager__generate_address.
  rewrite bind_run, Hget. destruct domain as [domain|]; cbn [resolved_domain] in Hres.
  - destruct (bool_decide (domain ∈ Domain.domain <$> valid_domains)) eqn:Hin;
      [|discriminate].
    simplify_eq. apply bool_decide_eq_true in Hin.
    apply list_elem_of_fmap in Hin as (d & Hd & Hin).
    assert (Hf : d ∈ filter (fun x => Domain.domain x = chosen) valid_domains)
      by (apply list_elem_of_filter; split; [congruence|exact Hin]).
    destruct (filter (fun x => Domain.domain x = chosen) valid_domains) as [|x xs];
      [inversion Hf|].
    reflexivity.
  - destruct valid_domains as [|first rest]; cbn in Hres; [discriminate|].
    simplify_eq. reflexivity.
Qed.

(** X6. [AccountManager.new] with a user and a password, when the list of
    domains has been fetched, the domain is settled (the caller's, found in
    the list, or the first of the list) and the POST is answered with a
    dictionary that [Account._from_dict] accepts: the address sent is
    [user@domain], the credentials go out as JSON without [Authorization]
    header, and the new account, at a new address, holds the password the
    caller gave and no token, so it is not logged in. *)
Theorem new_creates_account
    user domain password w valid_domains w0 chosen response ext1 members a :
  DomainManager_get_active_domains w = (Return valid_domains, w0) ->
  resolved_domain valid_domains domain = Some chosen ->
  send (accounts_request (user ++ lit "@" ++ chosen) password) (outside w0)
    = (Answer response, ext1) ->
  decode_response response = Return (JObj members) ->
  Account._from_dict (JObj (assoc_set (lit "password") (JStr password) members)) None
    = Return a ->
  AccountManager_new (Some user) domain (Some password) w
  = (Return (length (account_heap w0)),
     mkWorld (account_heap w0 ++ [a]) (message_heap w0) ext1
             (sent w0 ++ [accounts_request (user ++ lit "@" ++ chosen) password]))
  /\ account_heap w0 = account_heap w
  /\ sent w0 = sent w ++ [domains_request]
  /\ Account.password a = password
  /\ Account.jwt a = None
  /\ Account.is_logged_in a = false
  /\ Account.messages a = []
  /\ headers (accounts_request (user ++ lit "@" ++ chosen) password)
       !! lit "Authorization" = None
  /\ data (accounts_request (user ++ lit "@" ++ chosen) password)
     = Some (json_dumps (credentials (user ++ lit "@" ++ chosen) password)).
Proof.
  intros Hget Hres Hsend Hdec Hacc.
  destruct (Account_from_dict_inv _ _ _ Hacc)
    as (_ & _ & _ & _ & _ & _ & _ & _ & Hpw & Hmsgs & Hjwt).
  destruct (get_active_domains_frame w) as (Hs & Ha & _).
  rewrite Hget in Hs, Ha. cbn [fst snd] in Hs, Ha.
  split.
  - unfold AccountManager_new.
    rewrite bind_run, (generate_address_run _ _ _ _ _ _ Hget Hres).
    rewrite bind_run, ret_run. cbv zeta.
    fold (credentials (user ++ lit "@" ++ chosen) password).
    unfold make_api_request_default. rewrite bind_run.
    rewrite (make_api_request_answer _ _ _ _ _ _ _ _ Hsend).
    fold (accounts_request (user ++ lit "@" ++ chosen) password).
    rewrite Hdec, bind_run, lift_run. cbn [setitem].
    rewrite bind_run, lift_run, Hacc. reflexivity.
  - split; [exact Ha|]. split; [exact Hs|]. split.
    { cbn [getitem] in Hpw. rewrite assoc_set_same in Hpw. simplify_eq. reflexivity. }
    split; [exact Hjwt|]. split; [unfold Account.is_logged_in; rewrite Hjwt; reflexivity|].
    split; [exact Hmsgs|]. split; [apply lookup_authorization|reflexivity].
Qed.

(** ** Making a message full *)

Lemma assign_step {A : Type} (o : outcome A) (f : A -> Message.t -> Message.t)
    (k : M unit) self mk (h : list Message.t) w1 :
  (self < length h)%nat ->
  (lift o ≫= (fun v => update_message self (f v) ≫= (fun _ => k)))
    (with_messages (<[self := mk]> h) w1)
  = match o with
    | Return v => k (with_messages (<[self := f v mk]> h) w1)
    | Raise e => (Raise e, with_messages (<[self := mk]> h) w1)
    | Abort why => (Abort why, with_messages (<[self := mk]> h) w1)
    end.
Proof.
  intros Hlt. rewrite bind_run, lift_run. destruct o as [v| |]; try reflexivity.
  rewrite bind_run. unfold update_message. cbn [message_heap with_messages].
  rewrite list_lookup_insert_eq by exact Hlt.
  unfold with_messages. cbn [account_heap message_heap outside sent].
  rewrite list_insert_insert_eq. reflexivity.
Qed.

Lemma assign_last {A : Type} (o : outcome A) (f : A -> Message.t -> Message.t)
    self mk (h : list Message.t) w1 :
  (self < length h)%nat ->
  (lift o ≫= (fun v => update_message self (f v)))
    (with_messages (<[self := mk]> h) w1)
  = match o with
    | Return v => (Return tt, with_messages (<[self := f v mk]> h) w1)
    | Raise e => (Raise e, with_messages (<[self := mk]> h) w1)
    | Abort why => (Abort why, with_messages (<[self := mk]> h) w1)
    end.
Proof.
  intros Hlt. rewrite bind_run, lift_run. destruct o as [v| |]; try reflexivity.
  unfold update_message. cbn [message_heap with_messages].
  rewrite list_lookup_insert_eq by exact Hlt.
  unfold with_messages. cbn [account_heap message_heap outside sent].
  rewrite list_insert_insert_eq. reflexivity.
Qed.

(** The run of [get_full_message] up to the answer of the server. *)
Lemma get_full_message_start self m a w response ext' :
  message_heap w !! self = Some m ->
  account_heap w !! Message.account m = Some a ->
  send (full_message_request m a) (outside w) = (Answer response, ext') ->
  forall k : JSON -> M unit,
    (message_id self ≫= (fun self_id =>
       owner_jwt self ≫= (fun jwt =>
         make_api_request_default GET (lit "messages/" ++ self_id) jwt None ≫= k))) w
    = match decode_response response with
      | Return data => k data (after_exchange (full_message_request m a) ext' w)
      | Raise e => (Raise e, after_exchange (full_message_request m a) ext' w)
      | Abort why => (Abort why, after_exchange (full_message_request m a) ext' w)
      end.
Proof.
  intros Hm Ha Hsend k.
  rewrite bind_run, (message_id_run _ _ _ Hm), bind_run, (owner_jwt_run _ _ _ _ Hm Ha).
  rewrite bind_run. unfold make_api_request_default.
  rewrite (make_api_request_answer _ _ _ _ _ _ _ _ Hsend).
  fold (full_message_request m a). reflexivity.
Qed.

(** X7. [Message.get_full_message], when the server answers with a
    dictionary that has the nine keys of a full message: it sends one GET of
    [messages/{id}] with the token of the owning account, and then the
    message is full and holds the nine values of the answer, each former
    value overwritten.  Its intro is the one it had (no intro is computed
    from the text here), and the account's list is not touched. *)
Theorem get_full_message_fills_fields
    self m a w response ext' answer
    cc bcc flagged verifications retention retentionDate text html attachments :
  message_heap w !! self = Some m ->
  account_heap w !! Message.account m = Some a ->
  send (full_message_request m a) (outside w) = (Answer response, ext') ->
  decode_response response = Return answer ->
  getitem answer (lit "cc") = Return cc ->
  getitem answer (lit "bcc") = Return bcc ->
  getitem answer (lit "flagged") ≫= as_opt_bool = Return flagged ->
  getitem answer (lit "verifications") = Return verifications ->
  getitem answer (lit "retention") ≫= as_opt_bool = Return retention ->
  getitem answer (lit "retentionDate") ≫= as_opt_str = Return retentionDate ->
  getitem answer (lit "text") ≫= as_opt_str = Return text ->
  getitem answer (lit "html") = Return html ->
  getitem answer (lit "attachments") = Return attachments ->
  let m' :=
    Message.mk (Message.account m) (Message.id m) (Message.accountId m) (Message.msgid m)
      (Message.message_from m) (Message.message_to m) (Message.subject m)
      (Message.seen m) (Message.isDeleted m) (Message.hasAttachments m) (Message.size m)
      (Message.downloadUrl m) (Message.createdAt m) (Message.updatedAt m)
      true (Message.intro m) cc bcc flagged verifications retention retentionDate
      text html attachments in
  Message_get_full_message self w
  = (Return tt,
     mkWorld (account_heap w) (<[self := m']> (message_heap w)) ext'
             (sent w ++ [full_message_request m a]))
  /\ headers (full_message_request m a) !! lit "Authorization"
     = match Account.jwt a with
       | Some (c :: token) => Some (lit "Bearer " ++ c :: token)
       | _ => None
       end.
Proof.
  intros Hm Ha Hsend Hdec Hcc Hbcc Hfl Hver Hret Hrd Htext Hhtml Hatt m'.
  split; [|apply lookup_authorization].
  assert (Hlt : (self < length (message_heap w))%nat) by (eapply lookup_lt_Some; exact Hm).
  unfold Message_get_full_message.
  rewrite (get_full_message_start self m a w response ext' Hm Ha Hsend), Hdec.
  rewrite bind_run.
  rewrite (update_message_run self _ m
             (after_exchange (full_message_request m a) ext' w) Hm).
  cbn [message_heap after_exchange].
  rewrite (assign_step _ Message.set_cc), Hcc by exact Hlt.
  rewrite (assign_step _ Message.set_bcc), Hbcc by exact Hlt.
  rewrite (assign_step _ Message.set_flagged), Hfl by exact Hlt.
  rewrite (assign_step _ Message.set_verifications), Hver by exact Hlt.
  rewrite (assign_step _ Message.set_retention), Hret by exact Hlt.
  rewrite (assign_step _ Message.set_retentionDate), Hrd by exact Hlt.
  rewrite (assign_step _ Message.set_text), Htext by exact Hlt.
  rewrite (assign_step _ Message.set_html), Hhtml by exact Hlt.
  rewrite (assign_last _ Message.set_attachments), Hatt by exact Hlt.
  reflexivity.
Qed.

(** X8. [Message.get_full_message] sets [is_full_message] before it reads
    the answer.  Once the dispatcher has returned, however the run ends (a
    key missing from the answer raises [KeyError] part-way), the message is
    marked full, with its id, intro, subject and flags as they were, and
    the accounts are untouched; when ["cc"], the first key read, is
    missing, the flag is the only thing that changed. *)
Theorem get_full_message_marks_full_first self m a w response ext' answer :
  message_heap w !! self = Some m ->
  account_heap w !! Message.account m = Some a ->
  send (full_message_request m a) (outside w) = (Answer response, ext') ->
  decode_response response = Return answer ->
  (exists m', message_heap (Message_get_full_message self w).2 !! self = Some m'
              /\ marked_full m m')
  /\ account_heap (Message_get_full_message self w).2 = account_heap w
  /\ (forall e, getitem answer (lit "cc") = Raise e ->
        Message_get_full_message self w
        = (Raise e,
           mkWorld (account_heap w)
                   (<[self := Message.set_is_full_message true m]> (message_heap w))
                   ext' (sent w ++ [full_message_request m a]))).
Proof.
  intros Hm Ha Hsend Hdec.
  assert (Hlt : (self < length (message_heap w))%nat) by (eapply lookup_lt_Some; exact Hm).
  assert (Hrun : Message_get_full_message self w
    = (lift (getitem answer (lit "cc")) ≫= (fun v =>
       update_message self (Message.set_cc v) ≫= (fun _ =>
       lift (getitem answer (lit "bcc")) ≫= (fun v =>
       update_message self (Message.set_bcc v) ≫= (fun _ =>
       lift (getitem answer (lit "flagged") ≫= as_opt_bool) ≫= (fun v =>
       update_message self (Message.set_flagged v) ≫= (fun _ =>
       lift (getitem answer (lit "verifications")) ≫= (fun v =>
       update_message self (Message.set_verifications v) ≫= (fun _ =>
       lift (getitem answer (lit "retention") ≫= as_opt_bool) ≫= (fun v =>
       update_message self (Message.set_retention v) ≫= (fun _ =>
       lift (getitem answer (lit "retentionDate") ≫= as_opt_str) ≫= (fun v =>
       update_message self (Message.set_retentionDate v) ≫= (fun _ =>
       lift (getitem answer (lit "text") ≫= as_opt_str) ≫= (fun v =>
       update_message self (Message.set_text v) ≫= (fun _ =>
       lift (getitem answer (lit "html")) ≫= (fun v =>
       update_message self (Message.set_html v) ≫= (fun _ =>
       lift (getitem answer (lit "attachments")) ≫= (fun v =>
       update_message self (Message.set_attachments v)))))))))))))))))))
      (with_messages (<[self := Message.set_is_full_message true m]> (message_heap w))
         (after_exchange (full_message_request m a) ext' w))).
  { unfold Message_get_full_message.
    rewrite (get_full_message_start self m a w response ext' Hm Ha Hsend), Hdec.
    rewrite bind_run.
    rewrite (update_message_run self _ m
               (after_exchange (full_message_request m a) ext' w) Hm).
    reflexivity. }
  split; [|split].
  - rewrite Hrun.
    repeat (rewrite assign_step by exact Hlt;
            match goal with
            | |- context [match ?o with Return _ => _ | Raise _ => _ | Abort _ => _ end] =>
                destruct o;
                [|(eexists; (split; [apply list_lookup_insert_eq; exact Hlt|]);
                   repeat split)..]
            end).
    rewrite assign_last by exact Hlt.
    match goal with
    | |- context [match ?o with Return _ => _ | Raise _ => _ | Abort _ => _ end] =>
        destruct o
    end;
      (eexists; (split; [apply list_lookup_insert_eq; exact Hlt|]); repeat split).
  - rewrite Hrun.
    repeat (rewrite assign_step by exact Hlt;
            match goal with
            | |- context [match ?o with Return _ => _ | Raise _ => _ | Abort _ => _ end] =>
                destruct o; [|reflexivity..]
            end).
    rewrite assign_last by exact Hlt.
    match goal with
    | |- context [match ?o with Return _ => _ | Raise _ => _ | Abort _ => _ end] =>
        destruct o
    end; reflexivity.
  - intros e He. rewrite Hrun, assign_step by exact Hlt. rewrite He. reflexivity.
Qed.

(** ** The constructors from dictionaries *)

(** X9. [Domain._from_dict], [Account._from_dict] and
    [Message._from_intro_dict] read their keys and nothing else of the
    dictionary: two dictionaries that agree on those keys give the same
    result, so what else the server puts in a document (["@id"],
    ["@type"], ...) and the order of its members make no difference. *)
Theorem from_dict_reads_its_keys (members members' : list (pystr * JSON)) :
  ((forall k, k ∈ Domain_keys -> assoc k members = assoc k members') ->
   Domain._from_dict (JObj members) = Domain._from_dict (JObj members'))
  /\ ((forall k, k ∈ Account_keys -> assoc k members = assoc k members') ->
      forall jwt,
        Account._from_dict (JObj members) jwt = Account._from_dict (JObj members') jwt)
  /\ ((forall k, k ∈ Message_intro_keys -> assoc k members = assoc k members') ->
      forall account,
        Message._from_intro_dict (JObj members) account
        = Message._from_intro_dict (JObj members') account).
Proof.
  split; [|split].
  - intros H. unfold Domain._from_dict, getitem.
    repeat match goal with
           | |- context [assoc ?k members] =>
               rewrite (H k) by (unfold Domain_keys; repeat (first [left|right]))
           end.
    reflexivity.
  - intros H jwt. unfold Account._from_dict, getitem.
    repeat match goal with
           | |- context [assoc ?k members] =>
               rewrite (H k) by (unfold Account_keys; repeat (first [left|right]))
           end.
    reflexivity.
  - intros H account. unfold Message._from_intro_dict, getitem.
    repeat match goal with
           | |- context [assoc ?k members] =>
               rewrite (H k) by (unfold Message_intro_keys; repeat (first [left|right]))
           end.
    reflexivity.
Qed.

(** X10. A document that lacks a key never gives an object: the three
    constructors raise [KeyError] for the first key, in the order of their
    arguments, that the dictionary does not have, whatever the other
    values are; given something that is not a dictionary they raise
    [TypeError]. *)
Theorem from_dict_missing_key (members : list (pystr * JSON)) (k : pystr) :
  (first_missing Domain_keys members = Some k ->
   Domain._from_dict (JObj members) = Raise (KeyError k))
  /\ (first_missing Account_keys members = Some k ->
      forall jwt, Account._from_dict (JObj members) jwt = Raise (KeyError k))
  /\ (first_missing Message_intro_keys members = Some k ->
      forall account,
        Message._from_intro_dict (JObj members) account = Raise (KeyError k))
  /\ (forall data jwt account,
        (forall ms, data ≠ JObj ms) ->
        Domain._from_dict data = Raise TypeError
        /\ Account._from_dict data jwt = Raise TypeError
        /\ Message._from_intro_dict data account = Raise TypeError).
Proof.
  split; [|split; [|split]].
  - unfold first_missing, Domain_keys, Domain._from_dict, getitem. cbn [List.find].
    repeat match goal with
           | |- context [assoc ?key members] =>
               destruct (assoc key members);
               [cbn [mbind outcome_bind]|intros H; simplify_eq; reflexivity]
           end.
    discriminate.
  - unfold first_missing, Account_keys, Account._from_dict, getitem. cbn [List.find].
    repeat match goal with
           | |- context [assoc ?key members] =>
               destruct (assoc key members);
               [cbn [mbind outcome_bind]|intros H jwt; simplify_eq; reflexivity]
           end.
    discriminate.
  - unfold first_missing, Message_intro_keys, Message._from_intro_dict, getitem.
    cbn [List.find].
    repeat match goal with
           | |- context [assoc ?key members] =>
               destruct (assoc key members);
               [cbn [mbind outcome_bind]|intros H account; simplify_eq; reflexivity]
           end.
    discriminate.
  - intros data jwt account Hnot.
    destruct data; try (repeat split; reflexivity).
    destruct (Hnot members0 eq_refl).
Qed.

(** ** More on the intro *)

Lemma newlines_to_spaces_clean t : newline ∉ newlines_to_spaces t.
Proof.
  unfold newlines_to_spaces. intros Hin.
  apply list_elem_of_fmap in Hin as (c & Hc & _).
  destruct (c =? newline)%N eqn:E; [discriminate|].
  apply N.eqb_neq in E. congruence.
Qed.

(** X11. [Message.__post_init__] changes nothing but the intro, and only
    of a full message that has a text and no intro; run a second time it
    changes nothing.  The intro it computes has no newline and at most 121
    characters, and as many as the text when the text has at most 120. *)
Theorem post_init_once (m : Message.t) :
  Message.__post_init__ (Message.__post_init__ m) = Message.__post_init__ m
  /\ (Message.is_full_message m = false \/ Message.intro m ≠ None \/ Message.text m = None ->
      Message.__post_init__ m = m)
  /\ Message.set_intro (Message.intro m) (Message.__post_init__ m) = m
  /\ (forall t s,
        Message.is_full_message m = true -> Message.intro m = None ->
        Message.text m = Some t ->
        Message.intro (Message.__post_init__ m) = Some s ->
        (length s <= 121)%nat
        /\ (newline ∉ s)
        /\ ((length t <= 120)%nat -> length s = length t)).
Proof.
  split; [|split; [|split]].
  - destruct m as [? ? ? ? ? ? ? ? ? ? ? ? ? ? full intro ? ? ? ? ? ? text ? ?].
    unfold Message.__post_init__. cbn.
    destruct full; [|reflexivity]. destruct intro; [reflexivity|].
    destruct text; reflexivity.
  - unfold Message.__post_init__. intros [H|[H|H]].
    + rewrite H. reflexivity.
    + destruct (Message.is_full_message m); [|reflexivity].
      destruct (Message.intro m); [reflexivity|congruence].
    + destruct (Message.is_full_message m); [|reflexivity].
      destruct (Message.intro m); [reflexivity|]. rewrite H. reflexivity.
  - destruct m as [? ? ? ? ? ? ? ? ? ? ? ? ? ? full intro ? ? ? ? ? ? text ? ?].
    unfold Message.__post_init__. cbn.
    destruct full; [|reflexivity]. destruct intro; [reflexivity|].
    destruct text; reflexivity.
  - intros t s Hfull Hintro Htext Hs.
    rewrite (post_init_intro m t Hfull Hintro Htext) in Hs. simplify_eq.
    assert (Hlen : length (newlines_to_spaces t) = length t)
      by (unfold newlines_to_spaces; apply length_map).
    split; [|split].
    + rewrite length_app, length_take. destruct (120 <? length t)%nat; cbn [length]; lia.
    + intros Hin. apply elem_of_app in Hin as [Hin|Hin].
      * apply subseteq_take in Hin. exact (newlines_to_spaces_clean t Hin).
      * destruct (120 <? length t)%nat; [|inversion Hin].
        apply list_elem_of_singleton in Hin. discriminate.
    + intros Hshort. rewrite length_app, length_take, Hlen.
      destruct (Nat.ltb_spec 120 (length t)); cbn [length]; lia.
Qed.

(** ** More on fetching *)

Lemma get_all_messages_intro_run fuel self a w pages ext' msgs :
  account_heap w !! self = Some a ->
  Forall (fun l => is_Some (message_heap w !! l)) (Account.messages a) ->
  serves_pages (Account.jwt a) 1 (outside w) (pages ++ [[]]) ext' ->
  Forall (fun docs => docs ≠ []) pages ->
  decode_page self (concat pages) = Return msgs ->
  (length pages <= fuel)%nat ->
  let result :=
    merge_by_id (message_heap w ++ msgs) (Account.messages a)
      (seq (length (message_heap w)) (length msgs)) in
  Account_get_all_messages_intro fuel self w
  = (Return result,
     mkWorld (<[self := Account.set_messages result a]> (account_heap w))
             (message_heap w ++ msgs) ext'
             (sent w ++ map (page_request (Account.jwt a))
                            (pages_from 1 (S (length pages))))).
Proof.
  intros Ha Hvalid Hserve Hne Hdec Hfuel result.
  unfold Account_get_all_messages_intro.
  pose proof (fetch_phase_run fuel self a w pages ext' msgs Ha Hserve Hne Hdec Hfuel)
    as Hfetch.
  rewrite bind_run in Hfetch. rewrite bind_run.
  destruct (Account__download_messages_page self 1 w) as [[pm| |] w1];
    try discriminate.
  rewrite bind_run, Hfetch.
  set (w2 := mkWorld _ _ _ _).
  assert (Ha2 : account_heap w2 !! self
                = Some (Account.set_messages (Account.messages a) a)).
  { cbn. rewrite Ha. destruct a; reflexivity. }
  destruct (merge_messages_exact self a (seq (length (message_heap w)) (length msgs))
              w2 (Account.messages a) Ha2) as [us Hus].
  - eapply Forall_impl; [exact Hvalid|]. intros l [m Hl]. cbn.
    exists m. apply lookup_app_l_Some. exact Hl.
  - apply Forall_forall. intros l Hl. cbn. apply lookup_lt_is_Some.
    apply elem_of_seq in Hl. rewrite length_app. lia.
  - rewrite bind_run, Hus. fold result.
    set (w3 := with_accounts _ w2).
    assert (Ha3 : account_heap w3 !! self = Some (Account.set_messages result a)).
    { cbn. apply list_lookup_insert_eq. eapply lookup_lt_Some; exact Ha. }
    rewrite bind_run, (get_account_run _ _ _ Ha3), ret_run. reflexivity.
Qed.

Lemma merge_by_id_present heap fetched :
  forall current,
    (forall x m, x ∈ fetched -> heap !! x = Some m ->
       exists l ml, l ∈ current /\ heap !! l = Some ml /\ Message.id ml = Message.id m) ->
    merge_by_id heap current fetched = current.
Proof.
  induction fetched as [|x rest IH]; intros current H; [reflexivity|].
  cbn [merge_by_id fold_left]. fold (merge_by_id heap (merge_step heap current x) rest).
  assert (Hstep : merge_step heap current x = current).
  { unfold merge_step. destruct (heap !! x) as [m|] eqn:Hx; [|reflexivity].
    destruct (H x m) as (l & ml & Hl & Hml & Hid); [left|exact Hx|].
    assert (Hin : l ∈ ids_kept (fun x_id => bool_decide (x_id = Message.id m)) heap current).
    { apply ids_kept_elem. split; [exact Hl|]. exists ml. split; [exact Hml|].
      apply bool_decide_eq_true. exact Hid. }
    destruct (ids_kept _ heap current); [inversion Hin|reflexivity]. }
  rewrite Hstep. apply IH. intros y m Hy. apply H. right. exact Hy.
Qed.

(** X12. Fetching again what the account already has adds nothing: when
    every summary the server serves has the id of a message that is in the
    account's list, [get_all_messages_intro] returns the list as it was
    and leaves the account object as it was; the summaries it built for
    the comparison stay outside the list. *)
Theorem fetch_of_known_messages_adds_nothing fuel self a w pages ext' msgs :
  account_heap w !! self = Some a ->
  Forall (fun l => is_Some (message_heap w !! l)) (Account.messages a) ->
  serves_pages (Account.jwt a) 1 (outside w) (pages ++ [[]]) ext' ->
  Forall (fun docs => docs ≠ []) pages ->
  decode_page self (concat pages) = Return msgs ->
  (length pages <= fuel)%nat ->
  (forall msg, msg ∈ msgs ->
     exists l ml, l ∈ Account.messages a /\ message_heap w !! l = Some ml
                  /\ Message.id ml = Message.id msg) ->
  Account_get_all_messages_intro fuel self w
  = (Return (Account.messages a),
     mkWorld (account_heap w) (message_heap w ++ msgs) ext'
             (sent w ++ map (page_request (Account.jwt a))
                            (pages_from 1 (S (length pages))))).
Proof.
  intros Ha Hvalid Hserve Hne Hdec Hfuel Hknown.
  rewrite (get_all_messages_intro_run fuel self a w pages ext' msgs
             Ha Hvalid Hserve Hne Hdec Hfuel).
  cbv zeta. rewrite merge_by_id_present.
  - rewrite list_insert_id; [reflexivity|]. rewrite Ha. destruct a; reflexivity.
  - intros x m Hx Hm. apply elem_of_seq in Hx.
    rewrite lookup_app_r in Hm by lia.
    destruct (Hknown m) as (l & ml & Hl & Hml & Hid).
    { apply list_elem_of_lookup. eauto. }
    exists l, ml. split; [exact Hl|]. split; [|exact Hid].
    apply lookup_app_l_Some. exact Hml.
Qed.

(** X13. The loop of [get_all_messages_intro] has no bound of its own:
    against a server that answers every page request with a page that is
    not empty, it is still running after any number of turns, having sent
    one request for each of the pages 1, 2, ... up to then. *)
Theorem get_all_messages_intro_unbounded self a w (busy : Ext -> Prop) :
  account_heap w !! self = Some a ->
  busy (outside w) ->
  (forall ext page, busy ext ->
     exists response ext1 envelope members doc docs msgs,
       send (page_request (Account.jwt a) page) ext = (Answer response, ext1)
       /\ decode_response response = Return envelope
       /\ getitem envelope (lit "hydra:member") = Return members
       /\ iterate members = Return (doc :: docs)
       /\ decode_page self (doc :: docs) = Return msgs
       /\ busy ext1) ->
  forall fuel,
    (Account_get_all_messages_intro fuel self w).1 = Abort OutOfFuel
    /\ sent (Account_get_all_messages_intro fuel self w).2
       = sent w ++ map (page_request (Account.jwt a)) (pages_from 1 (S fuel))
    /\ account_heap (Account_get_all_messages_intro fuel self w).2 = account_heap w.
Proof.
  intros Ha Hbusy Hserve fuel.
  assert (Hpage : forall w0 page,
            account_heap w0 = account_heap w -> busy (outside w0) ->
            exists pm w1,
              Account__download_messages_page self page w0 = (Return pm, w1)
              /\ pm ≠ [] /\ account_heap w1 = account_heap w /\ busy (outside w1)
              /\ sent w1 = sent w0 ++ [page_request (Account.jwt a) page]).
  { intros w0 page Hacc Hb.
    destruct (Hserve _ page Hb)
      as (response & ext1 & envelope & members & doc & docs & msgs
          & Hs & Hd & Hg & Hi & Hm & Hb1).
    assert (Ha0 : account_heap w0 !! self = Some a) by (rewrite Hacc; exact Ha).
    rewrite (download_page_run self a page w0 response ext1 envelope members
               (doc :: docs) msgs Ha0 Hs Hd Hg Hi Hm).
    eexists _, _. split; [reflexivity|]. split.
    { apply decode_page_length in Hm. destruct msgs; [discriminate|]. discriminate. }
    split; [exact Hacc|]. split; [exact Hb1|reflexivity]. }
  assert (Hloop : forall fuel0 page messages pm w0,
            account_heap w0 = account_heap w -> busy (outside w0) -> pm ≠ [] ->
            (download_pages fuel0 self page messages pm w0).1 = Abort OutOfFuel
            /\ sent (download_pages fuel0 self page messages pm w0).2
               = sent w0 ++ map (page_request (Account.jwt a)) (pages_from (page + 1) fuel0)
            /\ account_heap (download_pages fuel0 self page messages pm w0).2
               = account_heap w).
  { induction fuel0 as [|fuel0 IH]; intros page messages pm w0 Hacc Hb Hpm;
      cbn [download_pages];
      (destruct pm as [|x pm]; [congruence|]); cbn [length Nat.ltb Nat.leb].
    - rewrite lift_run. cbn. rewrite app_nil_r. auto.
    - destruct (Hpage w0 (page + 1) Hacc Hb) as (pm1 & w1 & Hrun & Hne & Hacc1 & Hb1 & Hs1).
      rewrite bind_run, Hrun.
      destruct (IH (page + 1) (messages ++ x :: pm) pm1 w1 Hacc1 Hb1 Hne)
        as (Ho & Hs & Hac).
      split; [exact Ho|]. split; [|exact Hac].
      rewrite Hs, Hs1. cbn [pages_from map]. rewrite <- app_assoc. reflexivity. }
  unfold Account_get_all_messages_intro. rewrite bind_run.
  destruct (Hpage w 1 eq_refl Hbusy) as (pm1 & w1 & Hrun & Hne & Hacc1 & Hb1 & Hs1).
  rewrite Hrun, bind_run.
  destruct (Hloop fuel 1 [] pm1 w1 Hacc1 Hb1 Hne) as (Ho & Hs & Hac).
  destruct (download_pages fuel self 1 [] pm1 w1) as [o2 w2].
  cbn [fst snd] in Ho, Hs, Hac. subst o2. cbn [fst snd].
  split; [reflexivity|]. split; [|exact Hac].
  rewrite Hs, Hs1. cbn [pages_from map]. rewrite <- app_assoc. reflexivity.
Qed.

(** What [Message._from_intro_dict] has built when it returns. *)
Lemma Message_from_intro_dict_inv data account m :
  Message._from_intro_dict data account = Return m ->
  Message.is_full_message m = false
  /\ Message.account m = account
  /\ getitem data (lit "id") = Return (JStr (Message.id m))
  /\ getitem data (lit "intro") ≫= as_opt_str = Return (Message.intro m)
  /\ getitem data (lit "seen") = Return (JBool (Message.seen m))
  /\ getitem data (lit "subject") = Return (JStr (Message.subject m))
  /\ Message.text m = None
  /\ Message.html m = JNull
  /\ Message.attachments m = JNull.
Proof.
  unfold Message._from_intro_dict.
  repeat match goal with
         | |- context [mbind _ (getitem ?d ?k)] =>
             destruct (getitem d k) as [?| |]; [cbn [mbind outcome_bind]|discriminate..]
         end.
  repeat match goal with
         | |- context [mbind _ (?f ?v)] =>
             destruct v; try discriminate;
             cbn [mbind outcome_bind as_str as_int as_bool as_opt_str]
         end;
    (intros H; unfold mret, outcome_ret in H; simplify_eq; cbn; repeat split).
Qed.

Lemma decode_page_lookup self docs msgs :
  decode_page self docs = Return msgs ->
  forall i doc, docs !! i = Some doc ->
    exists m, msgs !! i = Some m /\ Message._from_intro_dict doc self = Return m.
Proof.
  revert msgs. induction docs as [|d rest IH]; intros msgs H i doc Hi.
  - inversion Hi.
  - cbn [decode_page] in H.
    destruct (Message._from_intro_dict d self) as [m| |] eqn:Hd; try discriminate.
    cbn [mbind outcome_bind] in H.
    destruct (decode_page self rest) as [ms| |]; try discriminate.
    cbn [mbind outcome_bind] in H. unfold mret, outcome_ret in H. simplify_eq.
    destruct i as [|i]; cbn in Hi |- *.
    + simplify_eq. eauto.
    + apply (IH ms eq_refl). exact Hi.
Qed.

(** X14. [Account._download_messages_page], when the page is served and
    its documents are well formed: it sends one GET of [messages?page=N]
    and builds one new message per document, in order, each a summary
    ([is_full_message] false, no text) that points to this account and
    carries the id and the intro of its document as they came.  It leaves
    the accounts, and so the account's own list, as they were. *)
Theorem download_page_builds_summaries
    self a page w response ext1 envelope members docs msgs :
  account_heap w !! self = Some a ->
  send (page_request (Account.jwt a) page) (outside w) = (Answer response, ext1) ->
  decode_response response = Return envelope ->
  getitem envelope (lit "hydra:member") = Return members ->
  iterate members = Return docs ->
  decode_page self docs = Return msgs ->
  Account__download_messages_page self page w
  = (Return (seq (length (message_heap w)) (length docs)),
     mkWorld (account_heap w) (message_heap w ++ msgs) ext1
             (sent w ++ [page_request (Account.jwt a) page]))
  /\ forall i doc, docs !! i = Some doc ->
       exists m,
         (message_heap w ++ msgs) !! (length (message_heap w) + i)%nat = Some m
         /\ Message.is_full_message m = false
         /\ Message.text m = None
         /\ Message.account m = self
         /\ getitem doc (lit "id") = Return (JStr (Message.id m))
         /\ getitem doc (lit "intro") ≫= as_opt_str = Return (Message.intro m).
Proof.
  intros Ha Hsend Hdec Hget Hit Hmsgs. split.
  - rewrite (download_page_run self a page w response ext1 envelope members docs msgs
               Ha Hsend Hdec Hget Hit Hmsgs).
    rewrite (decode_page_length _ _ _ Hmsgs). reflexivity.
  - intros i doc Hi.
    destruct (decode_page_lookup _ _ _ Hmsgs i doc Hi) as (m & Hm & Hdoc).
    destruct (Message_from_intro_dict_inv _ _ _ Hdoc)
      as (Hfull & Hacc & Hid & Hintro & _ & _ & Htext & _).
    exists m. split.
    { rewrite lookup_app_r by lia.
      replace (length (message_heap w) + i - length (message_heap w))%nat with i by lia.
      exact Hm. }
    repeat split; assumption.
Qed.

(** ** More on deleting and marking *)



(** X16. [Message.mark_as_seen] changes nothing of the store but this
    message's [seen], and sends one PATCH of [messages/{id}] whose payload
    is the JSON text of [{"seen": true}], with content type
    [application/ld+json] and the token of the owning account. *)
Theorem mark_as_seen_request self m a w :
  message_heap w !! self = Some m ->
  account_heap w !! Message.account m = Some a ->
  let w' := (Message_mark_as_seen self w).2 in
  let r := build_request PATCH (lit "messages/" ++ Message.id m) (Account.jwt a)
             (Some (JObj [(lit "seen", JBool true)])) (lit "application/ld+json") in
  account_heap w' = account_heap w
  /\ message_heap w' = <[self := Message.set_seen true m]> (message_heap w)
  /\ sent w' = sent w ++ [r]
  /\ verb r = PATCH
  /\ url r = api_address ++ lit "/messages/" ++ Message.id m
  /\ data r = Some (lit "{" ++ [34%N] ++ lit "seen" ++ [34%N] ++ lit ": true}")
  /\ headers r !! lit "Content-Type" = Some (lit "application/ld+json")
  /\ headers r !! lit "Authorization"
     = match Account.jwt a with
       | Some (c :: token) => Some (lit "Bearer " ++ c :: token)
       | _ => None
       end.
Proof.
  intros Hm Ha w' r.
  assert (Hm2 : message_heap (seen_locally self m w) !! self
                = Some (Message.set_seen true m)).
  { cbn. apply list_lookup_insert_eq. eapply lookup_lt_Some; exact Hm. }
  assert (Hrun : Message_mark_as_seen self w
                 = (make_api_request PATCH (lit "messages/" ++ Message.id m) (Account.jwt a)
                      (Some (JObj [(lit "seen", JBool true)])) (lit "application/ld+json")
                    ≫= (fun _ => mret tt)) (seen_locally self m w)).
  { unfold Message_mark_as_seen.
    rewrite bind_run, (update_message_run _ _ _ _ Hm). fold (seen_locally self m w).
    rewrite bind_run, (message_id_run _ _ _ Hm2).
    rewrite bind_run, (owner_jwt_run self (Message.set_seen true m) a _ Hm2 Ha).
    reflexivity. }
  destruct (make_api_request_store PATCH (lit "messages/" ++ Message.id m)
              (Account.jwt a) (Some (JObj [(lit "seen", JBool true)]))
              (lit "application/ld+json") (seen_locally self m w)) as [Hacc Hmsg].
  pose proof (make_api_request_sent PATCH (lit "messages/" ++ Message.id m)
                (Account.jwt a) (Some (JObj [(lit "seen", JBool true)]))
                (lit "application/ld+json") (seen_locally self m w)) as Hsent.
  assert (Hh : headers r = build_headers (Account.jwt a) (lit "application/ld+json"))
    by reflexivity.
  subst w'. rewrite Hrun, bind_run.
  destruct (make_api_request PATCH _ _ _ _ (seen_locally self m w)) as [[v|e|why] w1];
    cbn [fst snd] in Hacc, Hmsg, Hsent |- *;
    (split; [exact Hacc|]); (split; [exact Hmsg|]); (split; [exact Hsent|]);
    (split; [reflexivity|]); (split; [reflexivity|]); (split; [reflexivity|]);
    rewrite Hh; (split; [apply lookup_content_type|apply lookup_authorization]).
Qed.

(** ** A failure while fetching *)

Lemma from_intro_dicts_valid self items w ls w' :
  for_each (fun d => Message__from_intro_dict d self) items w = (Return ls, w') ->
  Forall (fun l => (l < length (message_heap w'))%nat) ls.
Proof.
  revert w ls w'. induction items as [|d rest IH]; intros w ls w' Hrun.
  - cbn [for_each] in Hrun. rewrite ret_run in Hrun. simplify_eq. constructor.
  - cbn [for_each] in Hrun. rewrite bind_run, from_intro_dict_run in Hrun.
    destruct (Message._from_intro_dict d self) as [m| |]; try discriminate.
    rewrite bind_run in Hrun.
    destruct (for_each _ rest (with_messages (message_heap w ++ [m]) w))
      as [[ys| |] w2] eqn:E2; try discriminate.
    rewrite ret_run in Hrun. simplify_eq.
    pose proof (IH _ _ _ E2) as Hys.
    destruct (from_intro_dicts_extends _ _ _ _ _ E2) as [Hext _].
    apply extends_length in Hext. cbn in Hext. rewrite length_app in Hext. cbn in Hext.
    constructor; [lia|exact Hys].
Qed.

Lemma download_page_valid self page w ls w' :
  Account__download_messages_page self page w = (Return ls, w') ->
  Forall (fun l => (l < length (message_heap w'))%nat) ls.
Proof.
  unfold Account__download_messages_page, make_api_request_default. intros Hrun.
  rewrite bind_run in Hrun. unfold get_account at 1 in Hrun.
  destruct (account_heap w !! self) as [a|]; [|discriminate].
  rewrite bind_run in Hrun.
  destruct (make_api_request _ _ _ _ _ w) as [[data| |] w1]; try discriminate.
  rewrite bind_run, lift_run in Hrun.
  destruct (getitem data (lit "hydra:member")) as [members| |]; try discriminate.
  rewrite bind_run, lift_run in Hrun.
  destruct (iterate members) as [items| |]; try discriminate.
  eapply from_intro_dicts_valid. exact Hrun.
Qed.

Lemma download_pages_valid fuel self :
  forall page messages page_messages w ls w',
    download_pages fuel self page messages page_messages w = (Return ls, w') ->
    Forall (fun l => (l < length (message_heap w))%nat) (messages ++ page_messages) ->
    Forall (fun l => (l < length (message_heap w'))%nat) ls.
Proof.
  induction fuel as [|fuel IH]; intros page messages pm w ls w' Hrun Hval;
    cbn [download_pages] in Hrun.
  - destruct (0 <? length pm)%nat; [discriminate|].
    rewrite ret_run in Hrun. simplify_eq.
    apply Forall_app in Hval as [Hval _]. exact Hval.
  - destruct (0 <? length pm)%nat.
    + rewrite bind_run in Hrun.
      destruct (Account__download_messages_page self (page + 1) w) as [[pm1| |] w1] eqn:E1;
        try discriminate.
      destruct (download_page_extends _ _ _ _ _ E1) as [Hext _].
      apply extends_length in Hext.
      apply (IH _ _ _ _ _ _ Hrun). apply Forall_app. split.
      * eapply Forall_impl; [exact Hval|]. intros l Hl. cbn in Hl. lia.
      * eapply download_page_valid. exact E1.
    + rewrite ret_run in Hrun. simplify_eq.
      apply Forall_app in Hval as [Hval _]. exact Hval.
Qed.

(** X17. The merge comes after the last page: when
    [get_all_messages_intro] raises (a page request that fails, a document
    without a key), nothing has been added to the account's list, not even
    the summaries of the pages fetched before the failure, and the account
    objects are as they were. *)
Theorem get_all_messages_intro_raises_before_merge fuel self a w e w' :
  account_heap w !! self = Some a ->
  Forall (fun l => is_Some (message_heap w !! l)) (Account.messages a) ->
  Account_get_all_messages_intro fuel self w = (Raise e, w') ->
  account_heap w' = account_heap w
  /\ exists new, message_heap w' = message_heap w ++ new.
Proof.
  intros Ha Hvalid Hrun.
  unfold Account_get_all_messages_intro in Hrun. rewrite bind_run in Hrun.
  destruct (Account__download_messages_page self 1 w) as [o1 w1] eqn:E1.
  destruct (download_page_extends _ _ _ _ _ E1) as [H1 _].
  destruct o1 as [pm| |]; try (simplify_eq; exact H1).
  rewrite bind_run in Hrun.
  destruct (download_pages fuel self 1 [] pm w1) as [o2 w2] eqn:E2.
  destruct (download_pages_extends _ _ _ _ _ _ O _ _ E2) as [H2 _];
    [lia|apply Forall_forall; intros; lia|].
  pose proof (extends_trans _ _ _ H1 H2) as H12.
  destruct o2 as [fetched| |]; try (simplify_eq; exact H12).
  pose proof (download_pages_valid _ _ _ _ _ _ _ _ E2
                (download_page_valid _ _ _ _ _ E1)) as Hfetched.
  destruct H12 as [Hacc [new Hmh]].
  assert (Ha2 : account_heap w2 !! self
                = Some (Account.set_messages (Account.messages a) a)).
  { rewrite Hacc, Ha. destruct a; reflexivity. }
  destruct (merge_messages_exact self a fetched w2 (Account.messages a) Ha2)
    as [us Hus].
  - eapply Forall_impl; [exact Hvalid|]. intros l [m Hl].
    exists m. rewrite Hmh. apply lookup_app_l_Some. exact Hl.
  - eapply Forall_impl; [exact Hfetched|]. intros l Hl.
    apply lookup_lt_is_Some. exact Hl.
  - rewrite bind_run, Hus, bind_run in Hrun.
    unfold get_account in Hrun. cbn [account_heap with_accounts] in Hrun.
    rewrite list_lookup_insert_eq in Hrun by (rewrite Hacc; eapply lookup_lt_Some; exact Ha).
    discriminate.
Qed.

(** ** Generated credentials *)

Lemma generate_address_random_run domain w valid_domains w0 chosen name others ext1 :
  DomainManager_get_active_domains w = (Return valid_domains, w0) ->
  resolved_domain valid_domains domain = Some chosen ->
  generate_username 1 (outside w0) = (name :: others, ext1) ->
  AccountManager__generate_address None domain w
  = (Return (str_lower name ++ lit "@" ++ chosen),
     mkWorld (account_heap w0) (message_heap w0) ext1 (sent w0)).
Proof.
  intros Hget Hres Hname. unfold AccountManager__generate_address.
  rewrite bind_run, Hget. destruct domain as [domain|]; cbn [resolved_domain] in Hres.
  - destruct (bool_decide (domain ∈ Domain.domain <$> valid_domains)) eqn:Hin;
      [|discriminate].
    simplify_eq. apply bool_decide_eq_true in Hin.
    apply list_elem_of_fmap in Hin as (d & Hd & Hin).
    assert (Hf : d ∈ filter (fun x => Domain.domain x = chosen) valid_domains)
      by (apply list_elem_of_filter; split; [congruence|exact Hin]).
    destruct (filter (fun x => Domain.domain x = chosen) valid_domains) as [|x xs];
      [inversion Hf|].
    cbn [length Nat.eqb]. rewrite bind_run, ret_run, bind_run.
    unfold random_username. rewrite Hname. reflexivity.
  - destruct valid_domains as [|first rest]; cbn in Hres; [discriminate|].
    simplify_eq. cbn [lookup list_lookup]. rewrite bind_run, ret_run, bind_run.
    unfold random_username. rewrite Hname. reflexivity.
Qed.

Lemma random_choices_inv (seq : pystr) (turns : list nat) :
  forall w p w',
    for_each (fun _ : nat => random_choice seq) turns w = (Return p, w') ->
    length p = length turns
    /\ Forall (fun c => c ∈ seq) p
    /\ account_heap w' = account_heap w
    /\ message_heap w' = message_heap w
    /\ sent w' = sent w.
Proof.
  induction turns as [|t turns IH]; intros w p w' Hrun; cbn [for_each] in Hrun.
  - rewrite ret_run in Hrun. simplify_eq. repeat split. constructor.
  - rewrite bind_run in Hrun. unfold random_choice at 1 in Hrun.
    destruct (randbelow (length seq) (outside w)) as [i ext1].
    destruct (seq !! i) as [c|] eqn:Hc; [|discriminate].
    rewrite bind_run in Hrun.
    destruct (for_each (fun _ : nat => random_choice seq) turns
                (mkWorld (account_heap w) (message_heap w) ext1 (sent w)))
      as [[ys| |] w1] eqn:Hrest; try discriminate.
    rewrite ret_run in Hrun. simplify_eq.
    destruct (IH _ _ _ Hrest) as (Hlen & Hall & Ha & Hm & Hs).
    cbn [account_heap message_heap sent] in Ha, Hm, Hs.
    split; [cbn [length]; rewrite Hlen; reflexivity|].
    split; [constructor; [apply list_elem_of_lookup; eauto|exact Hall]|].
    auto.
Qed.

(** X18. [AccountManager.new] called without user and without password:
    it fetches the domains, then draws the user name, then the password,
    then posts.  The address it sends is the lowered first generated name,
    ["@"] and the domain; the password is six letters or digits; and the
    account it returns holds that generated password, which nothing else
    keeps. *)
Theorem new_generates_credentials
    domain w valid_domains w0 chosen name others ext1 p w2 response ext3 members a :
  DomainManager_get_active_domains w = (Return valid_domains, w0) ->
  resolved_domain valid_domains domain = Some chosen ->
  generate_username 1 (outside w0) = (name :: others, ext1) ->
  AccountManager__generate_random_password 6
    (mkWorld (account_heap w0) (message_heap w0) ext1 (sent w0)) = (Return p, w2) ->
  send (accounts_request (str_lower name ++ lit "@" ++ chosen) p) (outside w2)
    = (Answer response, ext3) ->
  decode_response response = Return (JObj members) ->
  Account._from_dict (JObj (assoc_set (lit "password") (JStr p) members)) None
    = Return a ->
  AccountManager_new None domain None w
  = (Return (length (account_heap w)),
     mkWorld (account_heap w ++ [a]) (message_heap w0) ext3
             (sent w ++ [domains_request;
                         accounts_request (str_lower name ++ lit "@" ++ chosen) p]))
  /\ Account.password a = p
  /\ length p = 6%nat
  /\ Forall (fun c => c ∈ letters) p
  /\ Account.jwt a = None
  /\ data (accounts_request (str_lower name ++ lit "@" ++ chosen) p)
     = Some (json_dumps (credentials (str_lower name ++ lit "@" ++ chosen) p)).
Proof.
  intros Hget Hres Hname Hpw Hsend Hdec Hacc.
  destruct (Account_from_dict_inv _ _ _ Hacc)
    as (_ & _ & _ & _ & _ & _ & _ & _ & Hpass & _ & Hjwt).
  destruct (get_active_domains_frame w) as (Hs & Ha & _).
  rewrite Hget in Hs, Ha. cbn [fst snd] in Hs, Ha.
  destruct (random_choices_inv _ _ _ _ _ Hpw) as (Hlen & Hall & Ha2 & Hm2 & Hs2).
  cbn [account_heap message_heap sent] in Ha2, Hm2, Hs2.
  rewrite length_seq in Hlen.
  split.
  - unfold AccountManager_new.
    rewrite bind_run, (generate_address_random_run _ _ _ _ _ _ _ _ Hget Hres Hname).
    rewrite bind_run, Hpw. cbv zeta.
    fold (credentials (str_lower name ++ lit "@" ++ chosen) p).
    unfold make_api_request_default. rewrite bind_run.
    rewrite (make_api_request_answer _ _ _ _ _ _ _ _ Hsend).
    fold (accounts_request (str_lower name ++ lit "@" ++ chosen) p).
    rewrite Hdec, bind_run, lift_run. cbn [setitem].
    rewrite bind_run, lift_run, Hacc.
    unfold new_account, after_exchange. cbn [account_heap message_heap sent outside].
    rewrite Ha2, Hm2, Hs2, Ha, Hs, <- app_assoc. reflexivity.
  - split.
    { cbn [getitem] in Hpass. rewrite assoc_set_same in Hpass. simplify_eq. reflexivity. }
    split; [exact Hlen|]. split; [exact Hall|]. split; [exact Hjwt|reflexivity].
Qed.

(** ** One domain *)

(** X19. [DomainManager.get_domain] sends one GET of [domains/{id}], the
    id as given, without [Authorization] header and without payload, and
    builds the [Domain] from the answer alone: its id and name are the
    answer's, with no comparison to the id asked for.  A status from 400
    to 599 raises [HTTPError]; an answer that passes with an empty body is
    read as an empty dictionary, so the call raises [KeyError] for
    ["id"]. *)
Theorem get_domain_trusts_answer (id : pystr) w response ext' :
  send (build_request GET (lit "domains/" ++ id) None None default_content) (outside w)
    = (Answer response, ext') ->
  let r := build_request GET (lit "domains/" ++ id) None None default_content in
  DomainManager_get_domain id w
  = (decode_response response ≫= Domain._from_dict, after_exchange r ext' w)
  /\ url r = api_address ++ lit "/domains/" ++ id
  /\ headers r !! lit "Authorization" = None
  /\ data r = None
  /\ (400 <= Response.status_code response < 600 ->
      (DomainManager_get_domain id w).1 = Raise (HTTPError response))
  /\ (~ 400 <= Response.status_code response < 600 ->
      Response.content response = [] ->
      (DomainManager_get_domain id w).1 = Raise (KeyError (lit "id")))
  /\ (forall d, (DomainManager_get_domain id w).1 = Return d ->
        exists answer,
          decode_response response = Return answer
          /\ getitem answer (lit "id") = Return (JStr (Domain.id d))
          /\ getitem answer (lit "domain") = Return (JStr (Domain.domain d))).
Proof.
  intros Hsend r.
  assert (Hrun : DomainManager_get_domain id w
                 = (decode_response response ≫= Domain._from_dict,
                    after_exchange r ext' w)).
  { unfold DomainManager_get_domain, make_api_request_default.
    rewrite bind_run, (make_api_request_answer _ _ _ _ _ _ _ _ Hsend).
    fold r. destruct (decode_response response); [|reflexivity..].
    rewrite lift_run. reflexivity. }
  split; [exact Hrun|]. split; [reflexivity|].
  split; [apply lookup_authorization|]. split; [reflexivity|].
  rewrite Hrun. cbn [fst]. split; [|split].
  - intros Hs. unfold decode_response. rewrite (raise_for_status_error _ Hs). reflexivity.
  - intros Hs Hempty. unfold decode_response.
    rewrite (raise_for_status_pass _ Hs), Hempty. reflexivity.
  - intros d Hd. destruct (decode_response response) as [answer| |]; try discriminate.
    exists answer. split; [reflexivity|]. cbn [mbind outcome_bind] in Hd.
    revert Hd. unfold Domain._from_dict.
    repeat match goal with
           | |- context [mbind _ (getitem ?x ?k)] =>
               destruct (getitem x k) as [?| |]; [cbn [mbind outcome_bind]|discriminate..]
           end.
    repeat match goal with
           | |- context [mbind _ (?f ?v)] =>
               destruct v; try discriminate; cbn [mbind outcome_bind as_str as_int as_bool]
           end.
    intros H. unfold mret, outcome_ret in H. simplify_eq. split; reflexivity.
Qed.

End Client.

(** ** Runs against scripted servers *)

(** A server that plays back a script: every request gets the next reply of
    the script; once the script is over, no answer comes. *)
Definition script_send (r : Request) (script : list Reply) : Reply * list Reply :=
  match script with
  | [] => (NoAnswer, [])
  | reply :: rest => (reply, rest)
  end.

(** Stand-ins for the random sources, for runs that do not draw from them. *)
Definition fixed_username (n : Z) (script : list Reply) : list pystr * list Reply :=
  ([lit "BraveOtter7"], script).
Definition first_choice (n : nat) (script : list Reply) : nat * list Reply := (O, script).
Definition ascii_lower (s : pystr) : pystr :=
  map (fun c => if ((65 <=? c) && (c <=? 90))%N then (c + 32)%N else c) s.

(** A response with a JSON body, and one with no body. *)
Definition json_response (status : Z) (v : JSON) : Reply :=
  Answer (Response.mk status (json_dumps v) (Some v)).
Definition empty_response (status : Z) : Reply :=
  Answer (Response.mk status [] None).

(** The envelope of a list endpoint. *)
Definition hydra (members : list JSON) : JSON :=
  JObj [(lit "hydra:member", JList members)].

(** A message as [messages?page=N] lists it. *)
Definition summary_doc (id : string) : JSON :=
  JObj [(lit "id", JStr (lit id));
        (lit "accountId", JStr (lit "acc1"));
        (lit "msgid", JStr (lit "<" ++ lit id ++ lit "@mail.tm>"));
        (lit "from", JObj [(lit "address", JStr (lit "alice@example.org"));
                           (lit "name", JStr (lit "Alice"))]);
        (lit "to", JList [JObj [(lit "address", JStr (lit "user@mail.tm"));
                                (lit "name", JStr [])]]);
        (lit "subject", JStr (lit "Hello"));
        (lit "seen", JBool false);
        (lit "isDeleted", JBool false);
        (lit "hasAttachments", JBool false);
        (lit "size", JInt 1024);
        (lit "downloadUrl", JStr (lit "/messages/" ++ lit id ++ lit "/download"));
        (lit "createdAt", JStr (lit "2022-01-01T00:00:00+00:00"));
        (lit "updatedAt", JStr (lit "2022-01-01T00:00:00+00:00"));
        (lit "intro", JStr (lit "Hello there"))].

(** What [messages/{id}] adds to it. *)
Definition full_doc (id : string) : JSON :=
  match summary_doc id with
  | JObj members =>
      JObj (members ++
            [(lit "cc", JList []);
             (lit "bcc", JList []);
             (lit "flagged", JBool false);
             (lit "verifications", JList []);
             (lit "retention", JBool true);
             (lit "retentionDate", JStr (lit "2022-01-08T00:00:00+00:00"));
             (lit "text", JStr (lit "Hello there, how are you?"));
             (lit "html", JList [JStr (lit "<p>Hello there, how are you?</p>")]);
             (lit "attachments", JList [])])
  | other => other
  end.

(** A domain as [domains] lists it. *)
Definition domain_doc (name : string) : JSON :=
  JObj [(lit "id", JStr (lit "dom-" ++ lit name));
        (lit "domain", JStr (lit name));
        (lit "isActive", JBool true);
        (lit "isPrivate", JBool false);
        (lit "createdAt", JStr (lit "2021-06-01T00:00:00+00:00"));
        (lit "updatedAt", JStr (lit "2021-06-01T00:00:00+00:00"))].

(** A logged-in account with no message yet. *)
Definition sample_account : Account.t :=
  Account.mk (lit "acc1") (lit "user@mail.tm") 40000000 0 false false
    (lit "2022-01-01T00:00:00+00:00") (lit "2022-01-01T00:00:00+00:00")
    (lit "secret") [] (Some (lit "token")).

(** A summary already in the store. *)
Definition sample_message (id : string) : Message.t :=
  match Message._from_intro_dict (summary_doc id) O with
  | Return m => m
  | _ => Message.mk O [] [] [] JNull JNull [] false false false 0 [] [] []
           false None JNull JNull None JNull None None None JNull JNull
  end.

(** The world with [sample_account] at address 0, the given messages and
    the given script still to play. *)
Definition sample_world (messages : list Message.t) (script : list Reply)
  : @World (list Reply) :=
  mkWorld [Account.set_messages (seq 0 (length messages)) sample_account]
          messages script [].

(** An account as [accounts] returns it on creation. *)
Definition account_doc (address : string) : JSON :=
  JObj [(lit "id", JStr (lit "acc2"));
        (lit "address", JStr (lit address));
        (lit "quota", JInt 40000000);
        (lit "used", JInt 0);
        (lit "isDisabled", JBool false);
        (lit "isDeleted", JBool false);
        (lit "createdAt", JStr (lit "2022-02-01T00:00:00+00:00"));
        (lit "updatedAt", JStr (lit "2022-02-01T00:00:00+00:00"))].

(** An error body. *)
Definition error_doc (detail : string) : JSON :=
  JObj [(lit "hydra:description", JStr (lit detail))].

(** The fields given to the constructor for a full message with no intro. *)
Definition full_fields (text : option pystr) : Message.t :=
  Message.mk O (lit "m1") (lit "acc1") (lit "<m1@mail.tm>") JNull JNull
    (lit "Hello") false false false 1024 (lit "/messages/m1/download")
    (lit "2022-01-01T00:00:00+00:00") (lit "2022-01-01T00:00:00+00:00")
    true None (JList []) (JList []) (Some false) (JList []) (Some true) None
    text (JList []) (JList []).

(** Responses of the server. *)
Definition not_found : Response.t :=
  Response.mk 404 (json_dumps (error_doc "Not Found")) (Some (error_doc "Not Found")).
Definition not_modified : Response.t := Response.mk 304 [] None.

Definition unauthorized : Response.t :=
  Response.mk 401 (json_dumps (error_doc "JWT Token not found"))
    (Some (error_doc "JWT Token not found")).

Definition server_error : Response.t :=
  Response.mk 500 (json_dumps (error_doc "Internal Server Error"))
    (Some (error_doc "Internal Server Error")).

(** The world with the summaries A and B in the account's list. *)
Definition two_messages (script : list Reply) : @World (list Reply) :=
  sample_world [sample_message "A"; sample_message "B"] script.

(** Answers to the request for the list of domains. *)
Definition active_domains : Reply :=
  json_response 200 (hydra [domain_doc "mail.tm"; domain_doc "example.com"]).
Definition no_domain : Reply := json_response 200 (hydra []).
Definition unavailable : Response.t :=
  Response.mk 503 (json_dumps (error_doc "Service Unavailable"))
    (Some (error_doc "Service Unavailable")).

(** [AccountManager.new] run against a script. *)
Definition new_account_run (user domain password : option pystr) (script : list Reply)
  : outcome loc * @World (list Reply) :=
  AccountManager_new script_send fixed_username first_choice ascii_lower
    user domain password (sample_world [] script).

(** A page of summaries, by their ids. *)
Definition page (members : list string) : Reply :=
  json_response 200 (hydra (summary_doc <$> members)).

(** Two fetches with an upgrade in between: the script serves the
    messages A and B, then the full message A, then A and B again. *)
Definition fetch_upgrade_fetch : list Reply :=
  [page ["A"; "B"]%string; page []; json_response 200 (full_doc "A");
   page ["A"; "B"]%string; page []].

(** The worlds along that run, with fuel for three turns of the loop. *)
Definition after_first_fetch : @World (list Reply) :=
  (Account_get_all_messages_intro script_send 3 O (sample_world [] fetch_upgrade_fetch)).2.
Definition after_upgrade : @World (list Reply) :=
  (Message_get_full_message script_send O after_first_fetch).2.
Definition after_second_fetch : @World (list Reply) :=
  (Account_get_all_messages_intro script_send 3 O after_upgrade).2.

(** Pages of sizes 2, 2 and 0 with four ids. *)
Definition four_messages : list Reply :=
  [page ["A"; "B"]%string; page ["C"; "D"]%string; page []].

(** Pages of sizes 2, 2 and 0 in which the message B comes twice, as when
    a new message arrives between two requests. *)
Definition shifted_pages : list Reply :=
  [page ["A"; "B"]%string; page ["B"; "C"]%string; page []].

(** The answer of the token endpoint. *)
Definition token_doc (token : string) : JSON :=
  JObj [(lit "token", JStr (lit token)); (lit "id", JStr (lit "acc2"))].

(** A domain that the server lists as not active. *)
Definition inactive_domain_doc (name : string) : JSON :=
  JObj [(lit "id", JStr (lit "dom-" ++ lit name));
        (lit "domain", JStr (lit name));
        (lit "isActive", JBool false);
        (lit "isPrivate", JBool false);
        (lit "createdAt", JStr (lit "2021-06-01T00:00:00+00:00"));
        (lit "updatedAt", JStr (lit "2021-06-01T00:00:00+00:00"))].

(** The account that [account_doc "user@mail.tm"] describes, with a
    password and a token. *)
Definition created_account (password : string) (jwt : option pystr) : Account.t :=
  Account.mk (lit "acc2") (lit "user@mail.tm") 40000000 0 false false
    (lit "2022-02-01T00:00:00+00:00") (lit "2022-02-01T00:00:00+00:00")
    (lit password) [] jwt.

(** A server that answers every request with the same page of one summary. *)
Definition busy_send (r : Request) (ext : unit) : Reply * unit :=
  (page ["A"]%string, tt).

(** The members of a document. *)
Definition members_of (v : JSON) : list (pystr * JSON) :=
  match v with
  | JObj members => members
  | _ => []
  end.

Definition domain_members (name : string) : list (pystr * JSON) :=
  members_of (domain_doc name).

(** *** The intro *)

(** C1 at the text of 61 times ["a\n"]. *)
Lemma Message_init_synthesizes_intro_witness :
  Message.intro
    (Message.__init__ (full_fields (Some (concat (replicate 61 (lit "a" ++ [newline]))))))
  = Some (concat (replicate 60 (lit "a ")) ++ [ellipsis]).
Proof.
  exact (proj1 (proj2 Message_init_synthesizes_intro)
           (full_fields (Some (concat (replicate 61 (lit "a" ++ [newline])))))
           eq_refl eq_refl eq_refl).
Defined.

(** A short text keeps its length and gets no ellipsis; no text, no intro;
    a summary keeps the intro of the server. *)
Example intro_of_short_text :
  Message.intro (Message.__init__ (full_fields (Some (lit "one" ++ [newline] ++ lit "two"))))
  = Some (lit "one two").
Proof. reflexivity. Qed.

Example intro_without_text :
  Message.intro (Message.__init__ (full_fields None)) = None.
Proof. reflexivity. Qed.

Example intro_of_summary :
  Message.intro (sample_message "A") = Some (lit "Hello there")
  /\ Message.is_full_message (sample_message "A") = false.
Proof. split; reflexivity. Qed.

(** *** The dispatcher *)

(** C6 at a response with status 404. *)
Lemma make_api_request_outcome_witness :
  make_api_request script_send GET (lit "me") (Some (lit "token")) None default_content
    (sample_world [] [Answer not_found])
  = (Raise (HTTPError not_found),
     after_exchange
       (build_request GET (lit "me") (Some (lit "token")) None default_content) []
       (sample_world [] [Answer not_found])).
Proof.
  apply (make_api_request_outcome script_send GET (lit "me") (Some (lit "token")) None
           default_content (sample_world [] [Answer not_found]) not_found []).
  - reflexivity.
  - simpl. lia.
Defined.

(** The claim of C6 as first stated fails: a response with status 304 is
    not a 2xx response, and the dispatcher returns from it. *)
Lemma make_api_request_outcome_counterexample :
  script_send (build_request GET (lit "me") (Some (lit "token")) None default_content)
    (outside (sample_world [] [Answer not_modified]))
  = (Answer not_modified, [])
  /\ ~ (200 <= Response.status_code not_modified < 300)
  /\ (make_api_request script_send GET (lit "me") (Some (lit "token")) None default_content
        (sample_world [] [Answer not_modified])).1
     = Return (JObj []).
Proof.
  split; [reflexivity|]. split; [simpl; lia|]. reflexivity.
Qed.

(** The claim of C7 as first stated fails: with the empty string as
    token, a token is given and no [Authorization] header is sent. *)
Lemma make_api_request_headers_counterexample :
  headers (build_request GET (lit "me") (Some []) None default_content)
    !! lit "Authorization" = None
  /\ (headers <$> sent (make_api_request script_send GET (lit "me") (Some []) None
                         default_content (sample_world [] [empty_response 204])).2)
     = [build_headers (Some []) default_content].
Proof.
  split; [apply lookup_authorization|]. reflexivity.
Qed.

(** The payload of [mark_as_seen] and of [get_jwt]. *)
Example payload_of_mark_as_seen :
  data (build_request PATCH (lit "messages/A") (Some (lit "token"))
          (Some (JObj [(lit "seen", JBool true)])) (lit "application/ld+json"))
  = Some (lit "{" ++ [34%N] ++ lit "seen" ++ [34%N] ++ lit ": true}").
Proof. reflexivity. Qed.

Example no_payload_without_post :
  data (build_request GET (lit "me") None (Some (JObj [])) default_content) = None
  /\ data (build_request DELETE (lit "me") None (Some (JObj [])) default_content) = None
  /\ data (build_request POST (lit "token") None None default_content) = None.
Proof. repeat split; reflexivity. Qed.

(** *** Deleting an account *)

(** C8 at a response with status 204 and no body. *)
Lemma Account_delete_sets_isDeleted_witness :
  exists a' w',
    Account_delete script_send O (sample_world [] [empty_response 204])
      = (Return (Account.isDeleted a'), w')
    /\ account_heap w' !! O = Some a'
    /\ Account.isDeleted a' = true
    /\ a' = Account.set_isDeleted true sample_account.
Proof.
  apply (Account_delete_sets_isDeleted script_send O sample_account
           (sample_world [] [empty_response 204]) (Response.mk 204 [] None) [] (JObj [])).
  - reflexivity.
  - reflexivity.
  - reflexivity.
Defined.

(** C9 at a response with status 401: the account is as it was. *)
Lemma Account_delete_request_first_witness :
  Account_delete script_send O (sample_world [] [Answer unauthorized])
  = (Raise (HTTPError unauthorized),
     (make_api_request_default script_send DELETE (lit "accounts/acc1")
        (Some (lit "token")) None (sample_world [] [Answer unauthorized])).2)
  /\ account_heap (Account_delete script_send O (sample_world [] [Answer unauthorized])).2
       !! O = Some sample_account.
Proof.
  exact (proj2 (proj2 (proj2
           (Account_delete_request_first script_send O sample_account
              (sample_world [] [Answer unauthorized]) eq_refl)))).
Defined.

(** *** Deleting a message, marking it as seen *)

(** C5 at a response with status 500: the call raises, the message is
    marked deleted and gone from the list, respectively marked seen. *)
Lemma Message_local_before_remote_witness :
  ((Message_delete script_send O (two_messages [Answer server_error])).1
     = Raise (HTTPError server_error)
   /\ Message.isDeleted
        <$> message_heap (Message_delete script_send O (two_messages [Answer server_error])).2
            !! O = Some true
   /\ Account.messages
        <$> account_heap (Message_delete script_send O (two_messages [Answer server_error])).2
            !! O = Some [1%nat])
  /\ ((Message_mark_as_seen script_send O (two_messages [Answer server_error])).1
        = Raise (HTTPError server_error)
      /\ Message.seen
           <$> message_heap
                 (Message_mark_as_seen script_send O (two_messages [Answer server_error])).2
               !! O = Some true).
Proof.
  destruct (Message_local_before_remote script_send O (sample_message "A")
              (Account.set_messages [0; 1]%nat sample_account)
              (two_messages [Answer server_error]) eq_refl eq_refl)
    as [(_ & _ & _ & _ & Hacc & Hmsg & Hraise) (_ & _ & _ & _ & Hmsg' & Hraise')].
  { repeat constructor; eexists; reflexivity. }
  split.
  - destruct (Hraise (HTTPError server_error) _ eq_refl) as (Hrun & _ & _).
    rewrite Hacc, Hmsg, Hrun. repeat split; reflexivity.
  - destruct (Hraise' (HTTPError server_error) _ eq_refl) as (Hrun & _ & _).
    rewrite Hmsg', Hrun. repeat split; reflexivity.
Defined.

(** *** Creating an account *)

(** C4 at the domains ["nonexistent.test"] and ["Mail.tm"] (the server
    lists ["mail.tm"]): the GET for the list is the only request. *)
Lemma new_rejects_unavailable_domain_witness :
  (new_account_run (Some (lit "user")) (Some (lit "nonexistent.test")) (Some (lit "secret"))
     [active_domains; json_response 201 (account_doc "user@nonexistent.test")]).1
    = Raise DomainNotAvailableException
  /\ (new_account_run (Some (lit "user")) (Some (lit "Mail.tm")) (Some (lit "secret"))
        [active_domains; json_response 201 (account_doc "user@Mail.tm")]).1
    = Raise DomainNotAvailableException
  /\ sent (new_account_run (Some (lit "user")) (Some (lit "nonexistent.test"))
             (Some (lit "secret"))
             [active_domains; json_response 201 (account_doc "user@nonexistent.test")]).2
    = [domains_request].
Proof.
  assert (Hlist : forall script,
            DomainManager_get_active_domains script_send
              (sample_world [] (active_domains :: script))
            = (Return [Domain.mk (lit "dom-mail.tm") (lit "mail.tm") true false
                         (lit "2021-06-01T00:00:00+00:00") (lit "2021-06-01T00:00:00+00:00");
                       Domain.mk (lit "dom-example.com") (lit "example.com") true false
                         (lit "2021-06-01T00:00:00+00:00") (lit "2021-06-01T00:00:00+00:00")],
               after_exchange domains_request script
                 (sample_world [] (active_domains :: script))))
    by (intros script; reflexivity).
  assert (Hnone : forall domain : pystr,
            domain ≠ lit "mail.tm" -> domain ≠ lit "example.com" ->
            forall d : Domain.t,
              d ∈ [Domain.mk (lit "dom-mail.tm") (lit "mail.tm") true false
                     (lit "2021-06-01T00:00:00+00:00") (lit "2021-06-01T00:00:00+00:00");
                   Domain.mk (lit "dom-example.com") (lit "example.com") true false
                     (lit "2021-06-01T00:00:00+00:00") (lit "2021-06-01T00:00:00+00:00")] ->
              Domain.domain d ≠ domain).
  { intros domain H1 H2 d Hd.
    apply elem_of_cons in Hd as [->|Hd]; [intros Heq; apply H1; symmetry; exact Heq|].
    apply elem_of_cons in Hd as [->|Hd]; [intros Heq; apply H2; symmetry; exact Heq|].
    inversion Hd. }
  assert (Ha1 : lit "nonexistent.test" ≠ lit "mail.tm") by discriminate.
  assert (Ha2 : lit "nonexistent.test" ≠ lit "example.com") by discriminate.
  assert (Hb1 : lit "Mail.tm" ≠ lit "mail.tm") by discriminate.
  assert (Hb2 : lit "Mail.tm" ≠ lit "example.com") by discriminate.
  unfold new_account_run.
  destruct (new_rejects_unavailable_domain script_send fixed_username first_choice
              ascii_lower (Some (lit "user")) (lit "nonexistent.test") (Some (lit "secret"))
              _ _ _ (Hlist [json_response 201 (account_doc "user@nonexistent.test")])
              (Hnone (lit "nonexistent.test") Ha1 Ha2))
    as (_ & Hnew & _ & Hsent & _).
  destruct (new_rejects_unavailable_domain script_send fixed_username first_choice
              ascii_lower (Some (lit "user")) (lit "Mail.tm") (Some (lit "secret"))
              _ _ _ (Hlist [json_response 201 (account_doc "user@Mail.tm")])
              (Hnone (lit "Mail.tm") Hb1 Hb2))
    as (_ & Hcase & _).
  rewrite Hnew, Hcase. split; [reflexivity|]. split; [reflexivity|]. exact Hsent.
Defined.

(** The claim of C4 as first stated fails: the exception comes after a
    network call, the GET for the list of domains; and when that call
    fails, the error is the [HTTPError] of the dispatcher. *)
Lemma new_rejects_unavailable_domain_counterexample :
  (new_account_run (Some (lit "user")) (Some (lit "nonexistent.test")) (Some (lit "secret"))
     [active_domains]).1
    = Raise DomainNotAvailableException
  /\ sent (sample_world [] [active_domains]) = []
  /\ verb <$> sent (new_account_run (Some (lit "user")) (Some (lit "nonexistent.test"))
                      (Some (lit "secret")) [active_domains]).2
     = [GET]
  /\ (new_account_run (Some (lit "user")) (Some (lit "nonexistent.test")) (Some (lit "secret"))
        [Answer unavailable]).1
     = Raise (HTTPError unavailable).
Proof. repeat split; reflexivity. Qed.

(** C10 at a server with no active domain, and at one with two. *)
Lemma new_without_domain_indexes_first_witness :
  ((new_account_run (Some (lit "user")) None (Some (lit "secret"))
      [no_domain; json_response 201 (account_doc "user@mail.tm")]).1
     = Raise IndexError
   /\ sent (new_account_run (Some (lit "user")) None (Some (lit "secret"))
              [no_domain; json_response 201 (account_doc "user@mail.tm")]).2
      = [domains_request])
  /\ exists first rest w1,
       DomainManager_get_active_domains script_send
         (sample_world [] [active_domains; json_response 201 (account_doc "user@mail.tm")])
       = (Return (first :: rest), w1).
Proof.
  destruct (new_without_domain_indexes_first script_send fixed_username first_choice
              ascii_lower (Some (lit "user")) (Some (lit "secret"))
              (sample_world [] [no_domain; json_response 201 (account_doc "user@mail.tm")]))
    as [Hempty _].
  destruct (new_without_domain_indexes_first script_send fixed_username first_choice
              ascii_lower (Some (lit "user")) (Some (lit "secret"))
              (sample_world [] [active_domains;
                                json_response 201 (account_doc "user@mail.tm")]))
    as [_ Hsome].
  split.
  - destruct (Hempty _ eq_refl) as (_ & Hnew & _ & Hsent & _).
    unfold new_account_run. rewrite Hnew. split; [reflexivity|exact Hsent].
  - apply (Hsome 1%nat
             (AccountManager_new script_send fixed_username first_choice ascii_lower
                (Some (lit "user")) None (Some (lit "secret"))
                (sample_world [] [active_domains;
                                  json_response 201 (account_doc "user@mail.tm")])).2).
    reflexivity.
Defined.

(** Without a domain the first active one is used, and the account that
    comes back holds the password that was sent. *)
Example new_account_on_first_domain :
  (new_account_run (Some (lit "user")) None (Some (lit "secret"))
     [active_domains; json_response 201 (account_doc "user@mail.tm")]).1
    = Return 1%nat
  /\ (data <$> sent (new_account_run (Some (lit "user")) None (Some (lit "secret"))
                      [active_domains; json_response 201 (account_doc "user@mail.tm")]).2
              !! 1%nat)
     = Some (Some (json_dumps (JObj [(lit "address", JStr (lit "user@mail.tm"));
                                     (lit "password", JStr (lit "secret"))])))
  /\ (Account.password
        <$> account_heap (new_account_run (Some (lit "user")) None (Some (lit "secret"))
                            [active_domains;
                             json_response 201 (account_doc "user@mail.tm")]).2
            !! 1%nat)
     = Some (lit "secret")
  /\ (Account.jwt
        <$> account_heap (new_account_run (Some (lit "user")) None (Some (lit "secret"))
                            [active_domains;
                             json_response 201 (account_doc "user@mail.tm")]).2
            !! 1%nat)
     = Some None.
Proof. repeat split; vm_compute; reflexivity. Qed.

(** *** Fetching the summaries *)

(** C2 at the second fetch of [fetch_upgrade_fetch]: the message A, made
    full in between, is still first in the list and still full. *)
Lemma get_all_messages_intro_merges_by_id_witness :
  (Message.is_full_message <$> message_heap after_first_fetch !! O) = Some false
  /\ (Message.is_full_message <$> message_heap after_upgrade !! O) = Some true
  /\ exists a' m,
       account_heap after_second_fetch !! O = Some a'
       /\ Account.messages a' !! O = Some O
       /\ message_heap after_second_fetch !! O = Some m
       /\ Message.is_full_message m = true
       /\ Message.text m = Some (lit "Hello there, how are you?").
Proof.
  split; [reflexivity|]. split; [reflexivity|].
  destruct (get_all_messages_intro_merges_by_id script_send 3 O
              (Account.set_messages [0; 1]%nat sample_account) after_upgrade
              (Account_get_all_messages_intro script_send 3 O after_upgrade).1
              after_second_fetch eq_refl)
    as (new & added & _ & _ & _ & _ & _ & Hkeep).
  { unfold after_second_fetch. apply surjective_pairing. }
  destruct (Hkeep O O
              (Message.set_attachments (JList [])
                 (Message.set_html (JList [JStr (lit "<p>Hello there, how are you?</p>")])
                    (Message.set_text (Some (lit "Hello there, how are you?"))
                       (Message.set_retentionDate (Some (lit "2022-01-08T00:00:00+00:00"))
                          (Message.set_retention (Some true)
                             (Message.set_verifications (JList [])
                                (Message.set_flagged (Some false)
                                   (Message.set_bcc (JList [])
                                      (Message.set_cc (JList [])
                                         (Message.set_is_full_message true
                                            (sample_message "A")))))))))))
              eq_refl eq_refl)
    as (a' & Ha' & Hlist & Hm).
  exists a'. eexists. split; [exact Ha'|]. split; [exact Hlist|]. split; [exact Hm|].
  split; reflexivity.
Defined.

(** The second fetch built two more summaries and appended neither. *)
Example second_fetch_appends_nothing :
  (Account.messages <$> account_heap after_second_fetch !! O) = Some [0; 1]%nat
  /\ length (message_heap after_second_fetch) = 4%nat
  /\ (Message.is_full_message <$> message_heap after_second_fetch) = [true; false; false; false].
Proof. repeat split; vm_compute; reflexivity. Qed.

(** C3 at [four_messages]: 4 summaries, 3 requests, for the pages 1, 2
    and 3. *)
Lemma get_all_messages_intro_pagination_witness :
  exists ls w',
    Account_get_all_messages_intro script_send 2 O (sample_world [] four_messages)
      = (Return ls, w')
    /\ length ls = 4%nat
    /\ length (sent w') = 3%nat
    /\ url <$> sent w'
       = [api_address ++ lit "/messages?page=1"; api_address ++ lit "/messages?page=2";
          api_address ++ lit "/messages?page=3"].
Proof.
  destruct (get_all_messages_intro_pagination script_send 2 O sample_account
              (sample_world [] four_messages)
              [summary_doc <$> ["A"; "B"]%string; summary_doc <$> ["C"; "D"]%string] []
              (sample_message <$> ["A"; "B"; "C"; "D"]%string))
    as (Hrun & Hreq & _ & _ & Hfour).
  - reflexivity.
  - constructor.
  - eapply serves_page; [reflexivity..|].
    eapply serves_page; [reflexivity..|].
    eapply serves_page; [reflexivity..|].
    apply serves_none.
  - repeat constructor; discriminate.
  - reflexivity.
  - cbn. lia.
  - destruct Hfour as [H4 H3]; [reflexivity| |reflexivity|].
    + apply (bool_decide_unpack _). vm_compute. exact I.
    + eexists _, _. split; [exact Hrun|]. split; [exact H4|].
      split; [cbn [sent app]; exact H3|]. reflexivity.
Defined.

(** The claim of C3 as first stated fails: with pages of sizes 2, 2 and 0
    in which one message comes twice, on an account with an empty list, the
    call returns 3 summaries. *)
Lemma get_all_messages_intro_pagination_counterexample :
  serves_pages script_send (Some (lit "token")) 1 shifted_pages
    [summary_doc <$> ["A"; "B"]%string; summary_doc <$> ["B"; "C"]%string; []] []
  /\ Account.messages sample_account = []
  /\ (Account_get_all_messages_intro script_send 2 O (sample_world [] shifted_pages)).1
     = Return [0; 1; 3]%nat
  /\ length [0; 1; 3]%nat ≠ 4%nat
  /\ length (sent (Account_get_all_messages_intro script_send 2 O
                     (sample_world [] shifted_pages)).2) = 3%nat.
Proof.
  split.
  { eapply serves_page; [reflexivity..|].
    eapply serves_page; [reflexivity..|].
    eapply serves_page; [reflexivity..|].
    apply serves_none. }
  split; [reflexivity|]. split; [vm_compute; reflexivity|].
  split; [discriminate|]. vm_compute; reflexivity.
Qed.

(** *** Logging in *)

(** X1 at a server that gives the token ["tok"] and then the account. *)
Lemma AccountManager_login_success_witness :
  AccountManager_login script_send (lit "user@mail.tm") (lit "secret")
    (sample_world [] [json_response 200 (token_doc "tok");
                      json_response 200 (account_doc "user@mail.tm")])
  = (Return 1%nat,
     mkWorld [sample_account; created_account "secret" (Some (lit "tok"))] [] []
             [token_request (lit "user@mail.tm") (lit "secret"); me_request (lit "tok")])
  /\ Account.is_logged_in (created_account "secret" (Some (lit "tok"))) = true.
Proof.
  destruct (AccountManager_login_success script_send (lit "user@mail.tm") (lit "secret")
              (sample_world [] [json_response 200 (token_doc "tok");
                                json_response 200 (account_doc "user@mail.tm")])
              (Response.mk 200 (json_dumps (token_doc "tok")) (Some (token_doc "tok")))
              [json_response 200 (account_doc "user@mail.tm")]
              (token_doc "tok") (lit "tok")
              (Response.mk 200 (json_dumps (account_doc "user@mail.tm"))
                 (Some (account_doc "user@mail.tm")))
              []
              [(lit "id", JStr (lit "acc2"));
               (lit "address", JStr (lit "user@mail.tm"));
               (lit "quota", JInt 40000000);
               (lit "used", JInt 0);
               (lit "isDisabled", JBool false);
               (lit "isDeleted", JBool false);
               (lit "createdAt", JStr (lit "2022-02-01T00:00:00+00:00"));
               (lit "updatedAt", JStr (lit "2022-02-01T00:00:00+00:00"))]
              (created_account "secret" (Some (lit "tok")))
              eq_refl eq_refl eq_refl eq_refl eq_refl eq_refl)
    as (Hrun & _ & _ & _ & Hlogged & _).
  split; [exact Hrun|]. apply Hlogged. discriminate.
Defined.

(** X2 at a server that answers 401. *)
Lemma AccountManager_login_failure_witness :
  AccountManager_login script_send (lit "user@mail.tm") (lit "wrong")
    (sample_world [] [Answer unauthorized])
  = (Raise (HTTPError unauthorized),
     after_exchange (token_request (lit "user@mail.tm") (lit "wrong")) []
       (sample_world [] [Answer unauthorized]))
  /\ account_heap
       (AccountManager_login script_send (lit "user@mail.tm") (lit "wrong")
          (sample_world [] [Answer unauthorized])).2
     = [sample_account].
Proof.
  destruct (AccountManager_login_failure script_send (lit "user@mail.tm") (lit "wrong")
              (sample_world [] [Answer unauthorized]) unauthorized []
              (HTTPError unauthorized) eq_refl eq_refl)
    as (Hrun & Hacc & _).
  split; [exact Hrun|exact Hacc].
Defined.

(** X3 at the sample account, whose token ["token"] is overwritten. *)
Lemma Account_login_sets_jwt_witness :
  Account_login script_send O (sample_world [] [json_response 200 (token_doc "fresh")])
  = (Return tt,
     with_accounts [Account.set_jwt (Some (lit "fresh")) sample_account]
       (after_exchange (token_request (lit "user@mail.tm") (lit "secret")) []
          (sample_world [] [json_response 200 (token_doc "fresh")]))).
Proof.
  exact (proj1 (Account_login_sets_jwt script_send O sample_account
                  (sample_world [] [json_response 200 (token_doc "fresh")])
                  (Response.mk 200 (json_dumps (token_doc "fresh"))
                     (Some (token_doc "fresh")))
                  [] eq_refl eq_refl)
           (token_doc "fresh") (lit "fresh") eq_refl eq_refl).
Defined.

(** *** Domains, addresses and passwords *)

(** X4 at a list with an inactive domain: it is returned with the other. *)
Lemma get_active_domains_lists_all_witness :
  exists d1 d2,
    (DomainManager_get_active_domains script_send
       (sample_world [] [json_response 200
                           (hydra [domain_doc "mail.tm"; inactive_domain_doc "old.tm"])])).1
    = Return [d1; d2]
    /\ Domain.domain d2 = lit "old.tm"
    /\ Domain.isActive d2 = false.
Proof.
  destruct (get_active_domains_lists_all script_send
              (sample_world [] [json_response 200
                                  (hydra [domain_doc "mail.tm"; inactive_domain_doc "old.tm"])])
              (Response.mk 200
                 (json_dumps (hydra [domain_doc "mail.tm"; inactive_domain_doc "old.tm"]))
                 (Some (hydra [domain_doc "mail.tm"; inactive_domain_doc "old.tm"])))
              [] (hydra [domain_doc "mail.tm"; inactive_domain_doc "old.tm"])
              (JList [domain_doc "mail.tm"; inactive_domain_doc "old.tm"])
              [domain_doc "mail.tm"; inactive_domain_doc "old.tm"]
              eq_refl eq_refl eq_refl eq_refl)
    as (Hrun & _).
  rewrite Hrun. eexists _, _. split; [reflexivity|]. split; reflexivity.
Defined.

(** X5 at the length 6 of [AccountManager.new], with draws that are all 0. *)
Lemma generate_random_password_alphanumeric_witness :
  exists p ext',
    AccountManager__generate_random_password first_choice 6 (sample_world [] [])
    = (Return p, mkWorld [sample_account] [] ext' [])
    /\ length p = 6%nat
    /\ Forall (fun c => c ∈ letters) p.
Proof.
  apply (generate_random_password_alphanumeric first_choice 6 (sample_world [] [])).
  intros k ext Hk. exact Hk.
Defined.

(** X6 at the user ["user"], the domain left out, against two domains. *)
Lemma new_creates_account_witness :
  (new_account_run (Some (lit "user")) None (Some (lit "secret"))
     [active_domains; json_response 201 (account_doc "user@mail.tm")]).1
  = Return 1%nat
  /\ account_heap
       (new_account_run (Some (lit "user")) None (Some (lit "secret"))
          [active_domains; json_response 201 (account_doc "user@mail.tm")]).2
     = [sample_account; created_account "secret" None]
  /\ Account.is_logged_in (created_account "secret" None) = false.
Proof.
  destruct (new_creates_account script_send fixed_username first_choice ascii_lower
              (lit "user") None (lit "secret")
              (sample_world [] [active_domains;
                                json_response 201 (account_doc "user@mail.tm")])
              [Domain.mk (lit "dom-mail.tm") (lit "mail.tm") true false
                 (lit "2021-06-01T00:00:00+00:00") (lit "2021-06-01T00:00:00+00:00");
               Domain.mk (lit "dom-example.com") (lit "example.com") true false
                 (lit "2021-06-01T00:00:00+00:00") (lit "2021-06-01T00:00:00+00:00")]
              (after_exchange domains_request
                 [json_response 201 (account_doc "user@mail.tm")]
                 (sample_world [] [active_domains;
                                   json_response 201 (account_doc "user@mail.tm")]))
              (lit "mail.tm")
              (Response.mk 201 (json_dumps (account_doc "user@mail.tm"))
                 (Some (account_doc "user@mail.tm")))
              []
              [(lit "id", JStr (lit "acc2"));
               (lit "address", JStr (lit "user@mail.tm"));
               (lit "quota", JInt 40000000);
               (lit "used", JInt 0);
               (lit "isDisabled", JBool false);
               (lit "isDeleted", JBool false);
               (lit "createdAt", JStr (lit "2022-02-01T00:00:00+00:00"));
               (lit "updatedAt", JStr (lit "2022-02-01T00:00:00+00:00"))]
              (created_account "secret" None)
              eq_refl eq_refl eq_refl eq_refl eq_refl)
    as (Hrun & _ & _ & _ & _ & Hlogged & _).
  unfold new_account_run. rewrite Hrun. split; [reflexivity|].
  split; [reflexivity|exact Hlogged].
Defined.

(** *** The full message *)

(** X7 at the summary A, upgraded with the full document of A. *)
Lemma get_full_message_fills_fields_witness :
  exists w',
    Message_get_full_message script_send O
      (two_messages [json_response 200 (full_doc "A")]) = (Return tt, w')
    /\ account_heap w' = account_heap (two_messages [])
    /\ (Message.is_full_message <$> message_heap w' !! O) = Some true
    /\ (Message.text <$> message_heap w' !! O)
       = Some (Some (lit "Hello there, how are you?"))
    /\ (Message.intro <$> message_heap w' !! O)
       = Some (Message.intro (sample_message "A"))
    /\ message_heap w' !! 1%nat = Some (sample_message "B").
Proof.
  destruct (get_full_message_fills_fields script_send O (sample_message "A")
              (Account.set_messages [0; 1]%nat sample_account)
              (two_messages [json_response 200 (full_doc "A")])
              (Response.mk 200 (json_dumps (full_doc "A")) (Some (full_doc "A")))
              [] (full_doc "A")
              (JList []) (JList []) (Some false) (JList []) (Some true)
              (Some (lit "2022-01-08T00:00:00+00:00"))
              (Some (lit "Hello there, how are you?"))
              (JList [JStr (lit "<p>Hello there, how are you?</p>")]) (JList [])
              eq_refl eq_refl eq_refl eq_refl eq_refl eq_refl eq_refl eq_refl
              eq_refl eq_refl eq_refl eq_refl eq_refl)
    as [Hrun _].
  eexists. split; [exact Hrun|]. repeat split.
Defined.

(** X8 at a server that answers with the summary of A, which has no
    ["cc"]: the call raises and A is marked full all the same. *)
Lemma get_full_message_marks_full_first_witness :
  (Message_get_full_message script_send O
     (two_messages [json_response 200 (summary_doc "A")])).1
  = Raise (KeyError (lit "cc"))
  /\ message_heap
       (Message_get_full_message script_send O
          (two_messages [json_response 200 (summary_doc "A")])).2
     = [Message.set_is_full_message true (sample_message "A"); sample_message "B"].
Proof.
  destruct (get_full_message_marks_full_first script_send O (sample_message "A")
              (Account.set_messages [0; 1]%nat sample_account)
              (two_messages [json_response 200 (summary_doc "A")])
              (Response.mk 200 (json_dumps (summary_doc "A")) (Some (summary_doc "A")))
              [] (summary_doc "A") eq_refl eq_refl eq_refl eq_refl)
    as (_ & _ & Hcc).
  rewrite (Hcc (KeyError (lit "cc")) eq_refl). split; reflexivity.
Defined.

(** *** Fetching *)

(** X12 at an account that has A and B, served A and B again. *)
Lemma fetch_of_known_messages_adds_nothing_witness :
  Account_get_all_messages_intro script_send 1 O
    (two_messages [page ["A"; "B"]%string; page []])
  = (Return [0; 1]%nat,
     mkWorld (account_heap (two_messages []))
       [sample_message "A"; sample_message "B"; sample_message "A"; sample_message "B"]
       []
       [page_request (Some (lit "token")) 1; page_request (Some (lit "token")) 2]).
Proof.
  apply (fetch_of_known_messages_adds_nothing script_send 1 O
           (Account.set_messages [0; 1]%nat sample_account)
           (two_messages [page ["A"; "B"]%string; page []])
           [summary_doc <$> ["A"; "B"]%string] []
           [sample_message "A"; sample_message "B"]).
  - reflexivity.
  - repeat constructor; eexists; reflexivity.
  - eapply serves_page; [reflexivity..|].
    eapply serves_page; [reflexivity..|].
    apply serves_none.
  - repeat constructor; discriminate.
  - reflexivity.
  - cbn. lia.
  - intros msg Hin. apply list_elem_of_In in Hin.
    destruct Hin as [<-|[<-|[]]].
    + exists O, (sample_message "A").
      split; [apply list_elem_of_In; left; reflexivity|]. split; reflexivity.
    + exists 1%nat, (sample_message "B").
      split; [apply list_elem_of_In; right; left; reflexivity|]. split; reflexivity.
Defined.

(** X13 at the server [busy_send], after three turns of the loop. *)
Lemma get_all_messages_intro_unbounded_witness :
  (Account_get_all_messages_intro busy_send 3 O (mkWorld [sample_account] [] tt [])).1
  = Abort OutOfFuel
  /\ length (sent (Account_get_all_messages_intro busy_send 3 O
                     (mkWorld [sample_account] [] tt [])).2) = 4%nat.
Proof.
  destruct (get_all_messages_intro_unbounded busy_send O sample_account
              (mkWorld [sample_account] [] tt []) (fun _ => True)
              eq_refl I) with (fuel := 3%nat) as (Hout & Hsent & _).
  - intros ext n _. eexists _, _, _, _, _, _, _.
    split; [reflexivity|]. split; [reflexivity|]. split; [reflexivity|].
    split; [reflexivity|]. split; [reflexivity|exact I].
  - split; [exact Hout|]. rewrite Hsent. reflexivity.
Defined.

(** X14 at the first page, with the summaries A and B. *)
Lemma download_page_builds_summaries_witness :
  Account__download_messages_page script_send O 1
    (sample_world [] [page ["A"; "B"]%string])
  = (Return [0; 1]%nat,
     mkWorld [sample_account] [sample_message "A"; sample_message "B"] []
             [page_request (Some (lit "token")) 1])
  /\ Message.is_full_message (sample_message "B") = false
  /\ Message.id (sample_message "B") = lit "B".
Proof.
  destruct (download_page_builds_summaries script_send O sample_account 1
              (sample_world [] [page ["A"; "B"]%string])
              (Response.mk 200 (json_dumps (hydra (summary_doc <$> ["A"; "B"]%string)))
                 (Some (hydra (summary_doc <$> ["A"; "B"]%string))))
              [] (hydra (summary_doc <$> ["A"; "B"]%string))
              (JList (summary_doc <$> ["A"; "B"]%string))
              (summary_doc <$> ["A"; "B"]%string)
              [sample_message "A"; sample_message "B"]
              eq_refl eq_refl eq_refl eq_refl eq_refl eq_refl)
    as [Hrun Hdocs].
  split; [exact Hrun|].
  destruct (Hdocs 1%nat (summary_doc "B") eq_refl) as (m & Hm & Hfull & _ & _ & Hid & _).
  cbn in Hm. simplify_eq. split; [exact Hfull|]. cbn in Hid. simplify_eq. reflexivity.
Defined.

(** *** Deleting and marking *)


(** X16 at the message A. *)
Lemma mark_as_seen_request_witness :
  message_heap (Message_mark_as_seen script_send O
                  (two_messages [json_response 200 (summary_doc "A")])).2
  = [Message.set_seen true (sample_message "A"); sample_message "B"]
  /\ (data <$> sent (Message_mark_as_seen script_send O
                       (two_messages [json_response 200 (summary_doc "A")])).2)
     = [Some (lit "{" ++ [34%N] ++ lit "seen" ++ [34%N] ++ lit ": true}")].
Proof.
  destruct (mark_as_seen_request script_send O (sample_message "A")
              (Account.set_messages [0; 1]%nat sample_account)
              (two_messages [json_response 200 (summary_doc "A")]) eq_refl eq_refl)
    as (_ & Hmsg & Hsent & _ & _ & Hdata & _).
  rewrite Hmsg, Hsent. split; [reflexivity|].
  cbn [sent two_messages sample_world app fmap list_fmap]. rewrite Hdata. reflexivity.
Defined.

(** X17 at a server that serves the page of A and B and then fails. *)
Lemma get_all_messages_intro_raises_before_merge_witness :
  (Account_get_all_messages_intro script_send 3 O
     (sample_world [] [page ["A"; "B"]%string; Answer server_error])).1
  = Raise (HTTPError server_error)
  /\ account_heap
       (Account_get_all_messages_intro script_send 3 O
          (sample_world [] [page ["A"; "B"]%string; Answer server_error])).2
     = [sample_account]
  /\ Account.messages sample_account = [].
Proof.
  split; [vm_compute; reflexivity|]. split; [|reflexivity].
  apply (get_all_messages_intro_raises_before_merge script_send 3 O sample_account
           (sample_world [] [page ["A"; "B"]%string; Answer server_error])
           (HTTPError server_error)
           (Account_get_all_messages_intro script_send 3 O
              (sample_world [] [page ["A"; "B"]%string; Answer server_error])).2).
  - reflexivity.
  - constructor.
  - vm_compute. reflexivity.
Defined.

(** *** The constructors from dictionaries *)

(** X9 at a domain document to which the server adds ["@type"]. *)
Lemma from_dict_reads_its_keys_witness :
  Domain._from_dict
    (JObj ((lit "@type", JStr (lit "Domain")) :: domain_members "mail.tm"))
  = Domain._from_dict (JObj (domain_members "mail.tm")).
Proof.
  apply (proj1 (from_dict_reads_its_keys
                  ((lit "@type", JStr (lit "Domain")) :: domain_members "mail.tm")
                  (domain_members "mail.tm"))).
  intros k Hk. apply list_elem_of_In in Hk. cbn [In Domain_keys] in Hk.
  repeat (destruct Hk as [<-|Hk]; [reflexivity|]). destruct Hk.
Defined.

(** X10 at a dictionary that has ["id"] alone. *)
Lemma from_dict_missing_key_witness :
  Domain._from_dict (JObj [(lit "id", JStr (lit "dom-mail.tm"))])
  = Raise (KeyError (lit "domain")).
Proof.
  exact (proj1 (from_dict_missing_key [(lit "id", JStr (lit "dom-mail.tm"))] (lit "domain"))
           eq_refl).
Defined.

(** X11 at a full message whose text is two lines. *)
Lemma post_init_once_witness :
  (length (lit "a b") <= 121)%nat
  /\ (newline ∉ lit "a b")
  /\ ((length (lit "a" ++ newline :: lit "b") <= 120)%nat ->
      length (lit "a b") = length (lit "a" ++ newline :: lit "b")).
Proof.
  exact (proj2 (proj2 (proj2 (post_init_once
                                (full_fields (Some (lit "a" ++ newline :: lit "b"))))))
           (lit "a" ++ newline :: lit "b") (lit "a b") eq_refl eq_refl eq_refl eq_refl).
Defined.

(** *** Generated credentials and one domain *)

(** X18 with the name ["BraveOtter7"] and draws that are all 0. *)
Lemma new_generates_credentials_witness :
  (new_account_run None None None
     [active_domains; json_response 201 (account_doc "braveotter7@mail.tm")]).1
  = Return 1%nat
  /\ (url <$> sent (new_account_run None None None
                      [active_domains;
                       json_response 201 (account_doc "braveotter7@mail.tm")]).2)
     = [api_address ++ lit "/domains"; api_address ++ lit "/accounts"]
  /\ (Account.password
        <$> account_heap (new_account_run None None None
                            [active_domains;
                             json_response 201 (account_doc "braveotter7@mail.tm")]).2
            !! 1%nat)
     = Some (lit "aaaaaa").
Proof.
  destruct (new_generates_credentials script_send fixed_username first_choice ascii_lower
              None
              (sample_world [] [active_domains;
                                json_response 201 (account_doc "braveotter7@mail.tm")])
              [Domain.mk (lit "dom-mail.tm") (lit "mail.tm") true false
                 (lit "2021-06-01T00:00:00+00:00") (lit "2021-06-01T00:00:00+00:00");
               Domain.mk (lit "dom-example.com") (lit "example.com") true false
                 (lit "2021-06-01T00:00:00+00:00") (lit "2021-06-01T00:00:00+00:00")]
              (after_exchange domains_request
                 [json_response 201 (account_doc "braveotter7@mail.tm")]
                 (sample_world [] [active_domains;
                                   json_response 201 (account_doc "braveotter7@mail.tm")]))
              (lit "mail.tm") (lit "BraveOtter7") []
              [json_response 201 (account_doc "braveotter7@mail.tm")]
              (lit "aaaaaa")
              (after_exchange domains_request
                 [json_response 201 (account_doc "braveotter7@mail.tm")]
                 (sample_world [] [active_domains;
                                   json_response 201 (account_doc "braveotter7@mail.tm")]))
              (Response.mk 201 (json_dumps (account_doc "braveotter7@mail.tm"))
                 (Some (account_doc "braveotter7@mail.tm")))
              []
              (members_of (account_doc "braveotter7@mail.tm"))
              (Account.mk (lit "acc2") (lit "braveotter7@mail.tm") 40000000 0 false false
                 (lit "2022-02-01T00:00:00+00:00") (lit "2022-02-01T00:00:00+00:00")
                 (lit "aaaaaa") [] None)
              eq_refl eq_refl eq_refl eq_refl eq_refl eq_refl eq_refl)
    as (Hrun & _).
  unfold new_account_run. rewrite Hrun. repeat split.
Defined.

(** X19 at a server that answers with the domain [mail.tm]. *)
Lemma get_domain_trusts_answer_witness :
  (DomainManager_get_domain script_send (lit "dom-mail.tm")
     (sample_world [] [json_response 200 (domain_doc "mail.tm")])).1
  = Return (Domain.mk (lit "dom-mail.tm") (lit "mail.tm") true false
              (lit "2021-06-01T00:00:00+00:00") (lit "2021-06-01T00:00:00+00:00"))
  /\ (url <$> sent (DomainManager_get_domain script_send (lit "dom-mail.tm")
                      (sample_world [] [json_response 200 (domain_doc "mail.tm")])).2)
     = [api_address ++ lit "/domains/dom-mail.tm"].
Proof.
  destruct (get_domain_trusts_answer script_send (lit "dom-mail.tm")
              (sample_world [] [json_response 200 (domain_doc "mail.tm")])
              (Response.mk 200 (json_dumps (domain_doc "mail.tm"))
                 (Some (domain_doc "mail.tm")))
              [] eq_refl)
    as (Hrun & _).
  rewrite Hrun. split; reflexivity.
Defined.
